(** * Access rules of the task-management backend

    A shallow embedding of the Express controllers
    [project.controller.ts], [task.controller.ts] and [user.controller.ts]
    together with the Prisma calls they make.  The database is an explicit
    value [Db] that every handler receives and returns; a Prisma call
    that can throw returns a [Try]; a handler returns the HTTP response
    and the database after the request. *)

From Stdlib Require Import String Ascii List ZArith Bool Arith Lia.
From Stdlib Require Import Sorted Permutation.
Import ListNotations.
Open Scope string_scope.
Open Scope bool_scope.

Set Implicit Arguments.

(* ================================================================== *)
(** * Enumerations of the schema *)
(* ================================================================== *)

Inductive Role := ADMIN | USER.

Inductive ProjectStatus := ACTIVE | COMPLETED | ARCHIVED.

(** The values as [updateTaskSchema] and [updateTaskStatus] list them. *)
Inductive TaskStatus := TODO | IN_PROGRESS | IN_REVIEW | DONE.

(** The values as [createTaskSchema] lists them. *)
Inductive Priority := LOW | MEDIUM | HIGH | URGENT.

Definition Role_of_string (s : string) : option Role :=
  if s =? "ADMIN" then Some ADMIN
  else if s =? "USER" then Some USER
  else None.

Definition ProjectStatus_of_string (s : string) : option ProjectStatus :=
  if s =? "ACTIVE" then Some ACTIVE
  else if s =? "COMPLETED" then Some COMPLETED
  else if s =? "ARCHIVED" then Some ARCHIVED
  else None.

Definition TaskStatus_of_string (s : string) : option TaskStatus :=
  if s =? "TODO" then Some TODO
  else if s =? "IN_PROGRESS" then Some IN_PROGRESS
  else if s =? "IN_REVIEW" then Some IN_REVIEW
  else if s =? "DONE" then Some DONE
  else None.

Definition Priority_of_string (s : string) : option Priority :=
  if s =? "LOW" then Some LOW
  else if s =? "MEDIUM" then Some MEDIUM
  else if s =? "HIGH" then Some HIGH
  else if s =? "URGENT" then Some URGENT
  else None.

Definition Role_eqb (a b : Role) : bool :=
  match a, b with ADMIN, ADMIN | USER, USER => true | _, _ => false end.

Definition ProjectStatus_eqb (a b : ProjectStatus) : bool :=
  match a, b with
  | ACTIVE, ACTIVE | COMPLETED, COMPLETED | ARCHIVED, ARCHIVED => true
  | _, _ => false
  end.

(** Modelled from the spec: the declaration order of [enum TaskStatus] in
    [schema.prisma], which is not part of the sources at hand.  PostgreSQL
    orders the values of an enum by their position in the declaration; the
    spec gives the states as TODO, IN_PROGRESS, IN_REVIEW, DONE. *)
Definition TaskStatus_rank (s : TaskStatus) : nat :=
  match s with TODO => 0 | IN_PROGRESS => 1 | IN_REVIEW => 2 | DONE => 3 end.

(** Modelled from the spec: the declaration order of [enum Priority] in
    [schema.prisma], which is not part of the sources at hand.  The spec
    gives LOW, MEDIUM, HIGH, URGENT, with URGENT the greatest. *)
Definition Priority_rank (p : Priority) : nat :=
  match p with LOW => 0 | MEDIUM => 1 | HIGH => 2 | URGENT => 3 end.

Definition TaskStatus_eqb (a b : TaskStatus) : bool :=
  Nat.eqb (TaskStatus_rank a) (TaskStatus_rank b).

Definition Priority_eqb (a b : Priority) : bool :=
  Nat.eqb (Priority_rank a) (Priority_rank b).

(* ================================================================== *)
(** * Rows and the database *)
(* ================================================================== *)

(** Identifiers are the uuid strings of the schema; a [DateTime] is the
    number of milliseconds since the epoch. *)
Definition Id := string.
Definition DateTime := Z.

Module User.
Record t := mk {
  id : Id;
  email : string;
  password : string;
  firstName : string;
  lastName : string;
  avatar : option string;
  role : Role;
  isActive : bool;
  createdAt : DateTime
}.
End User.

Module Project.
Record t := mk {
  id : Id;
  name : string;
  description : option string;
  status : ProjectStatus;
  ownerId : Id;
  startDate : option DateTime;
  endDate : option DateTime;
  createdAt : DateTime
}.
End Project.

Module ProjectMember.
Record t := mk {
  id : Id;
  projectId : Id;
  userId : Id;
  role : string
}.
End ProjectMember.

Module Task.
Record t := mk {
  id : Id;
  title : string;
  description : option string;
  status : TaskStatus;
  priority : Priority;
  projectId : Id;
  assigneeId : option Id;
  dueDate : option DateTime;
  createdAt : DateTime
}.
End Task.

Module Comment.
Record t := mk {
  id : Id;
  content : string;
  taskId : Id;
  authorId : Id;
  createdAt : DateTime
}.
End Comment.

(** One list per table, in insertion order. *)
Record Db := mkDb {
  users : list User.t;
  projects : list Project.t;
  projectMembers : list ProjectMember.t;
  tasks : list Task.t;
  comments : list Comment.t
}.

Definition set_projects (db : Db) (ps : list Project.t) : Db :=
  mkDb (users db) ps (projectMembers db) (tasks db) (comments db).

Definition set_projectMembers (db : Db) (ms : list ProjectMember.t) : Db :=
  mkDb (users db) (projects db) ms (tasks db) (comments db).

Definition set_tasks (db : Db) (ts : list Task.t) : Db :=
  mkDb (users db) (projects db) (projectMembers db) ts (comments db).

Definition set_comments (db : Db) (cs : list Comment.t) : Db :=
  mkDb (users db) (projects db) (projectMembers db) (tasks db) cs.

(* ================================================================== *)
(** * Values of JavaScript that the handlers look at *)
(* ================================================================== *)

(** A field of [req.body]: absent, [null] or a string.  Other JSON types
    are outside this model. *)
Inductive JsonValue :=
| JUndefined
| JNull
| JString (s : string).

(** A value of [req.query] or [req.params]: absent or a string. *)
Definition QueryValue := option string.

(** [if (x)] on a string that may be absent: the empty string is falsy. *)
Definition truthy (q : QueryValue) : option string :=
  match q with
  | Some s => if s =? "" then None else Some s
  | None => None
  end.

Definition js_truthy (v : JsonValue) : option string :=
  match v with
  | JString s => if s =? "" then None else Some s
  | _ => None
  end.

(** A string is held as the bytes of its UTF-8 encoding. *)

(** The UTF-16 code units that the character led by byte [c] takes: one up
    to three bytes of UTF-8, two (a surrogate pair) for four bytes;
    continuation bytes count with their lead byte. *)
Definition utf16_units (c : ascii) : nat :=
  let n := nat_of_ascii c in
  if (n <? 128)%nat then 1
  else if (n <? 192)%nat then 0
  else if (n <? 240)%nat then 1
  else 2.

(** [s.length] of JavaScript: the number of UTF-16 code units. *)
Fixpoint utf16_length (s : string) : nat :=
  match s with
  | EmptyString => 0
  | String c r => utf16_units c + utf16_length r
  end.

(** Lower case of the ASCII letters. *)
Definition lower_ascii (c : ascii) : ascii :=
  let n := nat_of_ascii c in
  if (65 <=? n)%nat && (n <=? 90)%nat then ascii_of_nat (n + 32) else c.

Fixpoint lower (s : string) : string :=
  match s with
  | EmptyString => EmptyString
  | String c r => String (lower_ascii c) (lower r)
  end.

(** [hay] has [needle] as a substring. *)
Fixpoint is_substring (needle hay : string) : bool :=
  prefix needle hay
  || match hay with
     | EmptyString => false
     | String _ r => is_substring needle r
     end.

(** White space and line terminators of ECMAScript in one byte:
    U+0009 to U+000D and U+0020. *)
Definition is_space (c : ascii) : bool :=
  let n := nat_of_ascii c in
  (n =? 32)%nat || ((9 <=? n)%nat && (n <=? 13)%nat).

(** In two bytes: U+00A0. *)
Definition is_space2 (c1 c2 : ascii) : bool :=
  (nat_of_ascii c1 =? 194)%nat && (nat_of_ascii c2 =? 160)%nat.

(** In three bytes: U+1680, U+2000 to U+200A, U+2028, U+2029, U+202F,
    U+205F, U+3000 and U+FEFF. *)
Definition is_space3 (c1 c2 c3 : ascii) : bool :=
  let n1 := nat_of_ascii c1 in
  let n2 := nat_of_ascii c2 in
  let n3 := nat_of_ascii c3 in
  ((n1 =? 225) && (n2 =? 154) && (n3 =? 128))%nat
  || ((n1 =? 226) && (n2 =? 128)
      && (((128 <=? n3) && (n3 <=? 138))
          || (n3 =? 168) || (n3 =? 169) || (n3 =? 175)))%nat
  || ((n1 =? 226) && (n2 =? 129) && (n3 =? 159))%nat
  || ((n1 =? 227) && (n2 =? 128) && (n3 =? 128))%nat
  || ((n1 =? 239) && (n2 =? 187) && (n3 =? 191))%nat.

(** [s.trim().length === 0]: every character of [s] is white space or a
    line terminator. *)
Fixpoint trim_is_empty (s : string) : bool :=
  match s with
  | EmptyString => true
  | String c1 r1 =>
      if is_space c1 then trim_is_empty r1
      else
        match r1 with
        | EmptyString => false
        | String c2 r2 =>
            if is_space2 c1 c2 then trim_is_empty r2
            else
              match r2 with
              | EmptyString => false
              | String c3 r3 =>
                  if is_space3 c1 c2 c3 then trim_is_empty r3 else false
              end
        end
  end.

(** ** LIKE of PostgreSQL *)

Definition is_continuation (c : ascii) : bool :=
  let n := nat_of_ascii c in
  (128 <=? n)%nat && (n <? 192)%nat.

(** [t] starts where a character starts. *)
Definition at_boundary (t : string) : bool :=
  match t with
  | EmptyString => true
  | String c _ => negb (is_continuation c)
  end.

Fixpoint drop_continuation (t : string) : string :=
  match t with
  | EmptyString => EmptyString
  | String c r => if is_continuation c then drop_continuation r else t
  end.

(** [t] without its first character. *)
Definition drop_char (t : string) : option string :=
  match t with
  | EmptyString => None
  | String _ r => Some (drop_continuation r)
  end.

(** [t LIKE p]: in the pattern [%] stands for any run of characters, [_]
    for any one character, and a backslash makes the character after it
    stand for itself.  (A pattern that ends with a backslash is an error of
    the database; it matches nothing here.) *)
Fixpoint like (p : string) : string -> bool :=
  match p with
  | EmptyString =>
      fun t => match t with EmptyString => true | String _ _ => false end
  | String c p' =>
      if (c =? "%")%char then
        fix scan (t : string) : bool :=
          (at_boundary t && like p' t)
          || match t with
             | EmptyString => false
             | String _ t' => scan t'
             end
      else if (c =? "_")%char then
        fun t =>
          match drop_char t with
          | Some t' => like p' t'
          | None => false
          end
      else if (c =? "\")%char then
        match p' with
        | EmptyString => fun _ => false
        | String c' p'' =>
            fun t =>
              match t with
              | EmptyString => false
              | String d t' => (c' =? d)%char && like p'' t'
              end
        end
      else
        fun t =>
          match t with
          | EmptyString => false
          | String d t' => (c =? d)%char && like p' t'
          end
  end.

(** What the sources do not fix about the database: [lower] under its
    locale, which ILIKE applies to pattern and text. *)
Class Locale := {
  pg_lower : string -> string
}.

(** [value ILIKE '%text%'], the [text] taken as it comes: a [%], [_] or
    backslash in it keeps its meaning in the pattern. *)
Definition ilike {L : Locale} (text value : string) : bool :=
  like (pg_lower ("%" ++ text ++ "%")) (pg_lower value).

(** Texts for which matching is plain containment: a text that holds none
    of the pattern characters, and a text of ASCII only. *)
Definition is_pattern_char (c : ascii) : bool :=
  (c =? "%")%char || (c =? "_")%char || (c =? "\")%char.

Fixpoint plain (s : string) : bool :=
  match s with
  | EmptyString => true
  | String c r => negb (is_pattern_char c) && plain r
  end.

Fixpoint ascii_only (s : string) : bool :=
  match s with
  | EmptyString => true
  | String c r => (nat_of_ascii c <? 128)%nat && ascii_only r
  end.

(* ================================================================== *)
(** * Errors thrown by the Prisma client *)
(* ================================================================== *)

Inductive PrismaError :=
| PrismaClientKnownRequestError (code : string)
| PrismaClientValidationError.

(** The result of an awaited call that may throw. *)
Definition Try (A : Type) : Type := (PrismaError + A)%type.

Definition ret {A} (a : A) : Try A := inr a.

Definition throw {A} (e : PrismaError) : Try A := inl e.

Definition bind {A B} (m : Try A) (k : A -> Try B) : Try B :=
  match m with
  | inl e => inl e
  | inr a => k a
  end.

Declare Scope try_scope.
Delimit Scope try_scope with try.
Notation "x <- m ;; k" := (bind m (fun x => k))
  (at level 61, m at next level, right associativity) : try_scope.
Open Scope try_scope.

(* ================================================================== *)
(** * Where-objects: the filters handed to Prisma *)
(* ================================================================== *)

(** An absent key of a where-object constrains nothing. *)
Definition opt_test {A} (f : A -> bool) (o : option A) : bool :=
  match o with
  | None => true
  | Some a => f a
  end.

(** [{ contains: s, mode: 'insensitive' }] *)
Inductive StringFilter := contains_insensitive (s : string).

Definition string_filter {L : Locale} (f : StringFilter) (v : string) : bool :=
  match f with
  | contains_insensitive s => ilike s v
  end.

(** On a nullable column: NULL matches no [contains]. *)
Definition string_filter_null {L : Locale} (f : StringFilter) (v : option string)
    : bool :=
  match v with
  | Some v => string_filter f v
  | None => false
  end.

(** [{ some: { userId } }] on the [members] relation of a project. *)
Inductive ProjectMemberListRelationFilter := some (userId : Id).

(** A where-object on projects.  Each key is present at most once, as in
    a JavaScript object: assigning to a key replaces what it held.  The keys
    are conjoined; [OR] holds a list of alternatives. *)
Module ProjectWhereInput.
#[local] Unset Elimination Schemes.
Inductive t := mk {
  id : option Id;
  ownerId : option Id;
  status : option string;
  name : option StringFilter;
  description : option StringFilter;
  members : option ProjectMemberListRelationFilter;
  OR : option (list t)
}.
#[local] Set Elimination Schemes.

Definition empty : t := mk None None None None None None None.

Definition with_id (v : Id) (w : t) : t :=
  mk (Some v) (ownerId w) (status w) (name w) (description w) (members w) (OR w).
Definition with_ownerId (v : Id) (w : t) : t :=
  mk (id w) (Some v) (status w) (name w) (description w) (members w) (OR w).
Definition with_status (v : string) (w : t) : t :=
  mk (id w) (ownerId w) (Some v) (name w) (description w) (members w) (OR w).
Definition with_name (v : StringFilter) (w : t) : t :=
  mk (id w) (ownerId w) (status w) (Some v) (description w) (members w) (OR w).
Definition with_description (v : StringFilter) (w : t) : t :=
  mk (id w) (ownerId w) (status w) (name w) (Some v) (members w) (OR w).
Definition with_members (v : ProjectMemberListRelationFilter) (w : t) : t :=
  mk (id w) (ownerId w) (status w) (name w) (description w) (Some v) (OR w).
Definition with_OR (v : list t) (w : t) : t :=
  mk (id w) (ownerId w) (status w) (name w) (description w) (members w) (Some v).
End ProjectWhereInput.

Module TaskWhereInput.
Record t := mk {
  id : option Id;
  projectId : option Id;
  status : option string;
  priority : option string;
  assigneeId : option Id;
  project : option ProjectWhereInput.t
}.

Definition empty : t := mk None None None None None None.

Definition with_id (v : Id) (w : t) : t :=
  mk (Some v) (projectId w) (status w) (priority w) (assigneeId w) (project w).
Definition with_projectId (v : Id) (w : t) : t :=
  mk (id w) (Some v) (status w) (priority w) (assigneeId w) (project w).
Definition with_status (v : string) (w : t) : t :=
  mk (id w) (projectId w) (Some v) (priority w) (assigneeId w) (project w).
Definition with_priority (v : string) (w : t) : t :=
  mk (id w) (projectId w) (status w) (Some v) (assigneeId w) (project w).
Definition with_assigneeId (v : Id) (w : t) : t :=
  mk (id w) (projectId w) (status w) (priority w) (Some v) (project w).
Definition with_project (v : ProjectWhereInput.t) (w : t) : t :=
  mk (id w) (projectId w) (status w) (priority w) (assigneeId w) (Some v).
End TaskWhereInput.

Module UserWhereInput.
#[local] Unset Elimination Schemes.
Inductive t := mk {
  id : option Id;
  isActive : option bool;
  role : option string;
  firstName : option StringFilter;
  lastName : option StringFilter;
  email : option StringFilter;
  OR : option (list t)
}.
#[local] Set Elimination Schemes.

Definition empty : t := mk None None None None None None None.

Definition with_isActive (v : bool) (w : t) : t :=
  mk (id w) (Some v) (role w) (firstName w) (lastName w) (email w) (OR w).
Definition with_role (v : string) (w : t) : t :=
  mk (id w) (isActive w) (Some v) (firstName w) (lastName w) (email w) (OR w).
Definition with_firstName (v : StringFilter) (w : t) : t :=
  mk (id w) (isActive w) (role w) (Some v) (lastName w) (email w) (OR w).
Definition with_lastName (v : StringFilter) (w : t) : t :=
  mk (id w) (isActive w) (role w) (firstName w) (Some v) (email w) (OR w).
Definition with_email (v : StringFilter) (w : t) : t :=
  mk (id w) (isActive w) (role w) (firstName w) (lastName w) (Some v) (OR w).
Definition with_OR (v : list t) (w : t) : t :=
  mk (id w) (isActive w) (role w) (firstName w) (lastName w) (email w) (Some v).
End UserWhereInput.

Section Matching.

Context {L : Locale}.

(** A string given where the schema has an enum must name one of its
    values; the client refuses the whole query otherwise. *)
Definition enum_ok {E} (parse : string -> option E) (o : option string) : bool :=
  opt_test (fun s => match parse s with Some _ => true | None => false end) o.

Definition enum_is {E} (parse : string -> option E) (eqb : E -> E -> bool)
    (o : option string) (v : E) : bool :=
  opt_test (fun s => match parse s with Some e => eqb e v | None => false end) o.

Fixpoint project_where_valid (w : ProjectWhereInput.t) : bool :=
  enum_ok ProjectStatus_of_string (ProjectWhereInput.status w)
  && match ProjectWhereInput.OR w with
     | None => true
     | Some ws => forallb project_where_valid ws
     end.

Definition member_list_filter (ms : list ProjectMember.t) (pid : Id)
    (f : ProjectMemberListRelationFilter) : bool :=
  match f with
  | some u =>
      existsb (fun m => (ProjectMember.projectId m =? pid)
                        && (ProjectMember.userId m =? u)) ms
  end.

(** Does project [p] satisfy [w]?  [ms] is the membership table. *)
Fixpoint project_matches (ms : list ProjectMember.t) (w : ProjectWhereInput.t)
    (p : Project.t) : bool :=
  opt_test (fun i => Project.id p =? i) (ProjectWhereInput.id w)
  && opt_test (fun o => Project.ownerId p =? o) (ProjectWhereInput.ownerId w)
  && enum_is ProjectStatus_of_string ProjectStatus_eqb
       (ProjectWhereInput.status w) (Project.status p)
  && opt_test (fun f => string_filter f (Project.name p)) (ProjectWhereInput.name w)
  && opt_test (fun f => string_filter_null f (Project.description p))
       (ProjectWhereInput.description w)
  && opt_test (member_list_filter ms (Project.id p)) (ProjectWhereInput.members w)
  && match ProjectWhereInput.OR w with
     | None => true
     | Some ws => existsb (fun w' => project_matches ms w' p) ws
     end.

Definition task_where_valid (w : TaskWhereInput.t) : bool :=
  enum_ok TaskStatus_of_string (TaskWhereInput.status w)
  && enum_ok Priority_of_string (TaskWhereInput.priority w)
  && opt_test project_where_valid (TaskWhereInput.project w).

Definition option_id_eqb (a : option Id) (b : Id) : bool :=
  match a with
  | Some a => a =? b
  | None => false
  end.

(** The [project] key filters through the relation: the task's project
    row must satisfy the nested where-object. *)
Definition task_matches (db : Db) (w : TaskWhereInput.t) (t : Task.t) : bool :=
  opt_test (fun i => Task.id t =? i) (TaskWhereInput.id w)
  && opt_test (fun i => Task.projectId t =? i) (TaskWhereInput.projectId w)
  && enum_is TaskStatus_of_string TaskStatus_eqb
       (TaskWhereInput.status w) (Task.status t)
  && enum_is Priority_of_string Priority_eqb
       (TaskWhereInput.priority w) (Task.priority t)
  && opt_test (fun a => option_id_eqb (Task.assigneeId t) a)
       (TaskWhereInput.assigneeId w)
  && opt_test (fun pw =>
       existsb (fun p => (Project.id p =? Task.projectId t)
                         && project_matches (projectMembers db) pw p)
               (projects db))
       (TaskWhereInput.project w).

Fixpoint user_where_valid (w : UserWhereInput.t) : bool :=
  enum_ok Role_of_string (UserWhereInput.role w)
  && match UserWhereInput.OR w with
     | None => true
     | Some ws => forallb user_where_valid ws
     end.

Fixpoint user_matches (w : UserWhereInput.t) (u : User.t) : bool :=
  opt_test (fun i => User.id u =? i) (UserWhereInput.id w)
  && opt_test (fun b => Bool.eqb (User.isActive u) b) (UserWhereInput.isActive w)
  && enum_is Role_of_string Role_eqb (UserWhereInput.role w) (User.role u)
  && opt_test (fun f => string_filter f (User.firstName u)) (UserWhereInput.firstName w)
  && opt_test (fun f => string_filter f (User.lastName u)) (UserWhereInput.lastName w)
  && opt_test (fun f => string_filter f (User.email u)) (UserWhereInput.email w)
  && match UserWhereInput.OR w with
     | None => true
     | Some ws => existsb (fun w' => user_matches w' u) ws
     end.

End Matching.

(* ================================================================== *)
(** * orderBy *)
(* ================================================================== *)

Inductive SortOrder := asc | desc.

Definition directed (o : SortOrder) (c : comparison) : comparison :=
  match o with
  | asc => c
  | desc => CompOpp c
  end.

(** PostgreSQL sorts NULL as greater than every value: last under ASC,
    first under DESC. *)
Definition compare_nullable {A} (cmp : A -> A -> comparison)
    (a b : option A) : comparison :=
  match a, b with
  | Some x, Some y => cmp x y
  | Some _, None => Lt
  | None, Some _ => Gt
  | None, None => Eq
  end.

(** Several keys: the first that tells two rows apart decides. *)
Fixpoint compare_by {A} (keys : list (A -> A -> comparison)) (a b : A)
    : comparison :=
  match keys with
  | [] => Eq
  | k :: ks =>
      match k a b with
      | Eq => compare_by ks a b
      | c => c
      end
  end.

Definition leb_of {A} (cmp : A -> A -> comparison) (a b : A) : bool :=
  match cmp a b with
  | Gt => false
  | _ => true
  end.

(** A stable sort: rows that the keys do not tell apart keep the order the
    table has them in. *)
Fixpoint insert_sorted {A} (le : A -> A -> bool) (x : A) (l : list A) : list A :=
  match l with
  | [] => [x]
  | y :: r => if le x y then x :: l else y :: insert_sorted le x r
  end.

Definition sort_by {A} (le : A -> A -> bool) (l : list A) : list A :=
  fold_right (insert_sorted le) [] l.

Inductive ProjectOrderByField := Project_createdAt.

Definition ProjectOrderBy := (ProjectOrderByField * SortOrder)%type.

Definition project_order (ob : ProjectOrderBy) (a b : Project.t) : comparison :=
  match ob with
  | (Project_createdAt, o) =>
      directed o (Z.compare (Project.createdAt a) (Project.createdAt b))
  end.

Inductive TaskOrderByField := Task_status | Task_priority | Task_dueDate.

Definition TaskOrderBy := list (TaskOrderByField * SortOrder).

Definition task_key (k : TaskOrderByField * SortOrder) (a b : Task.t)
    : comparison :=
  match k with
  | (Task_status, o) =>
      directed o (Nat.compare (TaskStatus_rank (Task.status a))
                              (TaskStatus_rank (Task.status b)))
  | (Task_priority, o) =>
      directed o (Nat.compare (Priority_rank (Task.priority a))
                              (Priority_rank (Task.priority b)))
  | (Task_dueDate, o) =>
      directed o (compare_nullable Z.compare (Task.dueDate a) (Task.dueDate b))
  end.

Definition task_order (ob : TaskOrderBy) : Task.t -> Task.t -> comparison :=
  compare_by (map task_key ob).

Inductive UserOrderByField := User_firstName.

Definition UserOrderBy := (UserOrderByField * SortOrder)%type.

Definition user_order (ob : UserOrderBy) (a b : User.t) : comparison :=
  match ob with
  | (User_firstName, o) =>
      directed o (String.compare (User.firstName a) (User.firstName b))
  end.

(* ================================================================== *)
(** * The Prisma calls *)
(* ================================================================== *)

Definition P2002 := PrismaClientKnownRequestError "P2002".
Definition P2003 := PrismaClientKnownRequestError "P2003".
Definition P2025 := PrismaClientKnownRequestError "P2025".

Definition has_user (db : Db) (i : Id) : bool :=
  existsb (fun u => User.id u =? i) (users db).

Definition has_project (db : Db) (i : Id) : bool :=
  existsb (fun p => Project.id p =? i) (projects db).

Definition has_member_id (db : Db) (i : Id) : bool :=
  existsb (fun m => ProjectMember.id m =? i) (projectMembers db).

Definition has_task (db : Db) (i : Id) : bool :=
  existsb (fun t => Task.id t =? i) (tasks db).

Definition has_comment (db : Db) (i : Id) : bool :=
  existsb (fun c => Comment.id c =? i) (comments db).

Module prisma.

Section Calls.

Context {L : Locale}.

(** ** project *)

Definition project_findMany (db : Db) (where_ : ProjectWhereInput.t)
    (orderBy : ProjectOrderBy) : Try (list Project.t) :=
  if project_where_valid where_
  then ret (sort_by (leb_of (project_order orderBy))
              (filter (project_matches (projectMembers db) where_) (projects db)))
  else throw PrismaClientValidationError.

Definition project_findFirst (db : Db) (where_ : ProjectWhereInput.t)
    : Try (option Project.t) :=
  if project_where_valid where_
  then ret (find (project_matches (projectMembers db) where_) (projects db))
  else throw PrismaClientValidationError.

(** The primary key is unique and the owner must be a user. *)
Definition project_create (db : Db) (row : Project.t) : Try (Project.t * Db) :=
  if has_project db (Project.id row) then throw P2002
  else if negb (has_user db (Project.ownerId row)) then throw P2003
  else ret (row, set_projects db (projects db ++ [row])%list).

(** The [data] of an update: an absent key leaves the column as it is. *)
Record ProjectUpdateInput := {
  pu_name : option string;
  pu_description : option string;
  pu_status : option ProjectStatus;
  pu_startDate : option DateTime;
  pu_endDate : option DateTime
}.

Definition or_keep {A} (new : option A) (old : A) : A :=
  match new with
  | Some v => v
  | None => old
  end.

Definition or_keep_opt {A} (new : option A) (old : option A) : option A :=
  match new with
  | Some v => Some v
  | None => old
  end.

Definition project_apply (d : ProjectUpdateInput) (p : Project.t) : Project.t :=
  Project.mk (Project.id p)
    (or_keep (pu_name d) (Project.name p))
    (or_keep_opt (pu_description d) (Project.description p))
    (or_keep (pu_status d) (Project.status p))
    (Project.ownerId p)
    (or_keep_opt (pu_startDate d) (Project.startDate p))
    (or_keep_opt (pu_endDate d) (Project.endDate p))
    (Project.createdAt p).

Definition project_update (db : Db) (id : Id) (d : ProjectUpdateInput)
    : Try (Project.t * Db) :=
  match find (fun p => Project.id p =? id) (projects db) with
  | None => throw P2025
  | Some p =>
      ret (project_apply d p,
           set_projects db
             (map (fun q => if Project.id q =? id then project_apply d q else q)
                  (projects db)))
  end.

(** Modelled from the spec: the [onDelete: Cascade] of the relations in
    [schema.prisma], which is not part of the sources at hand.  The spec
    has a project own its memberships and tasks, and a task own its
    comments, with cascade delete on removal. *)
Definition cascade_project (db : Db) (id : Id) : Db :=
  let gone := filter (fun t => Task.projectId t =? id) (tasks db) in
  mkDb (users db)
    (filter (fun p => negb (Project.id p =? id)) (projects db))
    (filter (fun m => negb (ProjectMember.projectId m =? id)) (projectMembers db))
    (filter (fun t => negb (Task.projectId t =? id)) (tasks db))
    (filter (fun c => negb (existsb (fun t => Task.id t =? Comment.taskId c) gone))
            (comments db)).

Definition project_delete (db : Db) (id : Id) : Try Db :=
  if has_project db id then ret (cascade_project db id) else throw P2025.

(** ** projectMember *)

(** [findUnique] on the compound key [projectId_userId]; the client
    refuses a key with a part that is not a string. *)
Definition projectMember_findUnique (db : Db) (projectId : Id) (userId : JsonValue)
    : Try (option ProjectMember.t) :=
  match userId with
  | JString u =>
      ret (find (fun m => (ProjectMember.projectId m =? projectId)
                          && (ProjectMember.userId m =? u))
                (projectMembers db))
  | _ => throw PrismaClientValidationError
  end.

(** Unique primary key, unique pair (projectId, userId), and both ends
    of the link must exist. *)
Definition projectMember_create (db : Db) (row : ProjectMember.t)
    : Try (ProjectMember.t * Db) :=
  if has_member_id db (ProjectMember.id row) then throw P2002
  else if existsb (fun m => (ProjectMember.projectId m =? ProjectMember.projectId row)
                            && (ProjectMember.userId m =? ProjectMember.userId row))
                  (projectMembers db) then throw P2002
  else if negb (has_project db (ProjectMember.projectId row)) then throw P2003
  else if negb (has_user db (ProjectMember.userId row)) then throw P2003
  else ret (row, set_projectMembers db (projectMembers db ++ [row])%list).

Definition projectMember_delete (db : Db) (id : Id) : Try Db :=
  if has_member_id db id
  then ret (set_projectMembers db
              (filter (fun m => negb (ProjectMember.id m =? id)) (projectMembers db)))
  else throw P2025.

(** ** task *)

Definition task_findMany (db : Db) (where_ : TaskWhereInput.t)
    (orderBy : TaskOrderBy) : Try (list Task.t) :=
  if task_where_valid where_
  then ret (sort_by (leb_of (task_order orderBy))
              (filter (task_matches db where_) (tasks db)))
  else throw PrismaClientValidationError.

Definition task_findFirst (db : Db) (where_ : TaskWhereInput.t)
    : Try (option Task.t) :=
  if task_where_valid where_
  then ret (find (task_matches db where_) (tasks db))
  else throw PrismaClientValidationError.

Definition assignee_exists (db : Db) (a : option Id) : bool :=
  opt_test (has_user db) a.

(** Unique primary key; the project and the assignee, when there is one,
    must exist. *)
Definition task_create (db : Db) (row : Task.t) : Try (Task.t * Db) :=
  if has_task db (Task.id row) then throw P2002
  else if negb (has_project db (Task.projectId row)) then throw P2003
  else if negb (assignee_exists db (Task.assigneeId row)) then throw P2003
  else ret (row, set_tasks db (tasks db ++ [row])%list).

(** The [data] of an update.  [tu_assigneeId] tells an absent key
    ([None]) from [null] ([Some None]) and from an id. *)
Record TaskUpdateInput := {
  tu_title : option string;
  tu_description : option string;
  tu_status : option TaskStatus;
  tu_priority : option Priority;
  tu_dueDate : option DateTime;
  tu_assigneeId : option (option Id)
}.

Definition task_apply (d : TaskUpdateInput) (t : Task.t) : Task.t :=
  Task.mk (Task.id t)
    (or_keep (tu_title d) (Task.title t))
    (or_keep_opt (tu_description d) (Task.description t))
    (or_keep (tu_status d) (Task.status t))
    (or_keep (tu_priority d) (Task.priority t))
    (Task.projectId t)
    (or_keep (tu_assigneeId d) (Task.assigneeId t))
    (or_keep_opt (tu_dueDate d) (Task.dueDate t))
    (Task.createdAt t).

(** The row must exist, and an assignee that the update writes must be
    a user. *)
Definition task_update (db : Db) (id : Id) (d : TaskUpdateInput)
    : Try (Task.t * Db) :=
  match find (fun t => Task.id t =? id) (tasks db) with
  | None => throw P2025
  | Some t =>
      if negb (opt_test (assignee_exists db) (tu_assigneeId d))
      then throw P2003
      else
        ret (task_apply d t,
             set_tasks db
               (map (fun q => if Task.id q =? id then task_apply d q else q)
                    (tasks db)))
  end.

(** Modelled from the spec: the [onDelete: Cascade] from a task to its
    comments in [schema.prisma], which is not part of the sources at
    hand. *)
Definition task_delete (db : Db) (id : Id) : Try Db :=
  if has_task db id
  then ret (mkDb (users db) (projects db) (projectMembers db)
              (filter (fun t => negb (Task.id t =? id)) (tasks db))
              (filter (fun c => negb (Comment.taskId c =? id)) (comments db)))
  else throw P2025.

(** ** comment *)

Definition comment_create (db : Db) (row : Comment.t) : Try (Comment.t * Db) :=
  if has_comment db (Comment.id row) then throw P2002
  else if negb (has_task db (Comment.taskId row)) then throw P2003
  else if negb (has_user db (Comment.authorId row)) then throw P2003
  else ret (row, set_comments db (comments db ++ [row])%list).

(** ** user *)

Definition user_findMany (db : Db) (where_ : UserWhereInput.t)
    (orderBy : UserOrderBy) : Try (list User.t) :=
  if user_where_valid where_
  then ret (sort_by (leb_of (user_order orderBy))
              (filter (user_matches where_) (users db)))
  else throw PrismaClientValidationError.

Definition user_findUnique (db : Db) (id : Id) : Try (option User.t) :=
  ret (find (fun u => User.id u =? id) (users db)).

End Calls.

End prisma.

(* ================================================================== *)
(** * Responses *)
(* ================================================================== *)

(** What [select] keeps of a user in the listing. *)
Record UserListItem := {
  uli_id : Id;
  uli_email : string;
  uli_firstName : string;
  uli_lastName : string;
  uli_avatar : option string;
  uli_role : Role;
  uli_createdAt : DateTime
}.

(** What [select] keeps of a user read by id, with the [_count] of its
    relations. *)
Record UserDetail := {
  ud_id : Id;
  ud_email : string;
  ud_firstName : string;
  ud_lastName : string;
  ud_avatar : option string;
  ud_role : Role;
  ud_isActive : bool;
  ud_createdAt : DateTime;
  ud_count_projects : nat;
  ud_count_tasks : nat;
  ud_count_comments : nat
}.

(** The [data] of a response.  The rows that [include] joins to the main
    row (owner, members, assignee, comments) are read from the same
    database value and are left out. *)
Inductive Payload :=
| data_projects (l : list Project.t)
| data_project (p : Project.t)
| data_member (m : ProjectMember.t)
| data_tasks (l : list Task.t)
| data_task (t : Task.t)
| data_comment (c : Comment.t)
| data_users (l : list UserListItem)
| data_user (u : UserDetail).

(** [res.status(status).json({ success, message, data, errors })];
    [errors] holds the paths of the zod issues. *)
Record Response := {
  status : nat;
  success : bool;
  message : option string;
  data : option Payload;
  errors : option (list string)
}.

Definition ok_data (code : nat) (d : Payload) : Response :=
  {| status := code; success := true; message := None;
     data := Some d; errors := None |}.

Definition ok_message (code : nat) (m : string) (d : option Payload) : Response :=
  {| status := code; success := true; message := Some m;
     data := d; errors := None |}.

Definition failure (code : nat) (m : string) : Response :=
  {| status := code; success := false; message := Some m;
     data := None; errors := None |}.

Definition validation_error (issues : list string) : Response :=
  {| status := 400; success := false; message := Some "Validation error";
     data := None; errors := Some issues |}.

(** [error.middleware.ts], on the errors the Prisma client throws. *)
Definition errorHandler (err : PrismaError) : Response :=
  match err with
  | PrismaClientKnownRequestError code =>
      if code =? "P2002" then failure 409 "A record with this value already exists"
      else if code =? "P2025" then failure 404 "Record not found"
      else if code =? "P2003" then failure 400 "Invalid foreign key reference"
      else failure 500 "Database error occurred"
  | PrismaClientValidationError => failure 400 "Invalid data provided"
  end.

(** [try { ... } catch (error) { next(error) }]: a call that throws
    leaves the database as the request found it. *)
Definition try_catch (db : Db) (body : Try (Response * Db)) : Response * Db :=
  match body with
  | inr r => r
  | inl e => (errorHandler e, db)
  end.

(* ================================================================== *)
(** * zod *)
(* ================================================================== *)

Definition z_string (check : string -> bool) (v : JsonValue) : option string :=
  match v with
  | JString s => if check s then Some s else None
  | _ => None
  end.

Definition z_enum {E} (parse : string -> option E) (v : JsonValue) : option E :=
  match v with
  | JString s => parse s
  | _ => None
  end.

(** [.optional()]: an absent key is accepted and stays absent. *)
Definition z_optional {A} (z : JsonValue -> option A) (v : JsonValue)
    : option (option A) :=
  match v with
  | JUndefined => Some None
  | _ => option_map Some (z v)
  end.

(** [.nullable()]: [null] is accepted and stays [null]. *)
Definition z_nullable {A} (z : JsonValue -> option A) (v : JsonValue)
    : option (option A) :=
  match v with
  | JNull => Some None
  | _ => option_map Some (z v)
  end.

(** [.min(lo).max(hi)] on the length of a string. *)
Definition min_max (lo hi : nat) (s : string) : bool :=
  (lo <=? utf16_length s)%nat && (utf16_length s <=? hi)%nat.

Definition any_string (s : string) : bool := true.

Definition issue {A} (path : string) (r : option A) : list string :=
  match r with
  | None => [path]
  | Some _ => []
  end.

(* ================================================================== *)
(** * The controllers *)
(* ================================================================== *)

Section Controllers.

Context {L : Locale}.

(** [z.string().uuid()] and [z.string().datetime()] of zod: the second
    gives the instant that [new Date] reads from an accepted string. *)
Variable is_uuid : string -> bool.
Variable parse_datetime : string -> option DateTime.

(** The [@default] of the columns in [schema.prisma], which is not part
    of the sources at hand. *)
Variable default_project_status : ProjectStatus.
Variable default_task_status : TaskStatus.
Variable default_priority : Priority.

Definition is_datetime (s : string) : bool :=
  match parse_datetime s with
  | Some _ => true
  | None => false
  end.

(** [v ? new Date(v) : null] (or [: undefined]) on a validated string. *)
Definition new_Date_if (v : option string) : option DateTime :=
  match truthy v with
  | Some s => parse_datetime s
  | None => None
  end.

(** The pattern that the handlers repeat:
    [OR: [{ ownerId: userId }, { members: { some: { userId } } }]]. *)
Definition owner_or_member (userId : Id) : list ProjectWhereInput.t :=
  [ ProjectWhereInput.with_ownerId userId ProjectWhereInput.empty;
    ProjectWhereInput.with_members (some userId) ProjectWhereInput.empty ].

(** ** project.controller.ts *)

Record CreateProjectBody := {
  cpb_name : JsonValue;
  cpb_description : JsonValue;
  cpb_startDate : JsonValue;
  cpb_endDate : JsonValue
}.

Record CreateProjectData := {
  cpd_name : string;
  cpd_description : option string;
  cpd_startDate : option string;
  cpd_endDate : option string
}.

Definition createProjectSchema (b : CreateProjectBody)
    : list string + CreateProjectData :=
  let name := z_string (min_max 3 100) (cpb_name b) in
  let description := z_optional (z_string any_string) (cpb_description b) in
  let startDate := z_optional (z_string is_datetime) (cpb_startDate b) in
  let endDate := z_optional (z_string is_datetime) (cpb_endDate b) in
  match name, description, startDate, endDate with
  | Some n, Some d, Some s, Some e => inr (Build_CreateProjectData n d s e)
  | _, _, _, _ =>
      inl (issue "name" name ++ issue "description" description
           ++ issue "startDate" startDate ++ issue "endDate" endDate)%list
  end.

Record UpdateProjectBody := {
  upb_name : JsonValue;
  upb_description : JsonValue;
  upb_status : JsonValue;
  upb_startDate : JsonValue;
  upb_endDate : JsonValue
}.

Record UpdateProjectData := {
  upd_name : option string;
  upd_description : option string;
  upd_status : option ProjectStatus;
  upd_startDate : option string;
  upd_endDate : option string
}.

Definition updateProjectSchema (b : UpdateProjectBody)
    : list string + UpdateProjectData :=
  let name := z_optional (z_string (min_max 3 100)) (upb_name b) in
  let description := z_optional (z_string any_string) (upb_description b) in
  let status := z_optional (z_enum ProjectStatus_of_string) (upb_status b) in
  let startDate := z_optional (z_string is_datetime) (upb_startDate b) in
  let endDate := z_optional (z_string is_datetime) (upb_endDate b) in
  match name, description, status, startDate, endDate with
  | Some n, Some d, Some st, Some s, Some e =>
      inr (Build_UpdateProjectData n d st s e)
  | _, _, _, _, _ =>
      inl (issue "name" name ++ issue "description" description
           ++ issue "status" status
           ++ issue "startDate" startDate ++ issue "endDate" endDate)%list
  end.

Record ProjectsQuery := {
  pq_status : QueryValue;
  pq_search : QueryValue
}.

(** The where-object of [getProjects], key by key as the handler
    assigns them. *)
Definition getProjects_where (userId : Id) (q : ProjectsQuery)
    : ProjectWhereInput.t :=
  let where0 :=
    ProjectWhereInput.with_OR (owner_or_member userId) ProjectWhereInput.empty in
  let where1 :=
    match truthy (pq_status q) with
    | Some status => ProjectWhereInput.with_status status where0
    | None => where0
    end in
  match truthy (pq_search q) with
  | Some search =>
      ProjectWhereInput.with_OR
        [ ProjectWhereInput.with_name (contains_insensitive search)
            ProjectWhereInput.empty;
          ProjectWhereInput.with_description (contains_insensitive search)
            ProjectWhereInput.empty ]
        where1
  | None => where1
  end.

Definition getProjects (userId : Id) (q : ProjectsQuery) (db : Db)
    : Response * Db :=
  try_catch db (
    projects <- prisma.project_findMany db (getProjects_where userId q)
                  (Project_createdAt, desc) ;;
    ret (ok_data 200 (data_projects projects), db)).

Definition getProject (userId : Id) (id : Id) (db : Db) : Response * Db :=
  try_catch db (
    project <- prisma.project_findFirst db
                 (ProjectWhereInput.with_id id
                    (ProjectWhereInput.with_OR (owner_or_member userId)
                       ProjectWhereInput.empty)) ;;
    match project with
    | None => ret (failure 404 "Project not found", db)
    | Some p => ret (ok_data 200 (data_project p), db)
    end).

(** [fresh] is the id that the column default generates for the new
    row, [now] the time of the insert. *)
Definition createProject (userId : Id) (body : CreateProjectBody)
    (fresh : Id) (now : DateTime) (db : Db) : Response * Db :=
  match createProjectSchema body with
  | inl issues => (validation_error issues, db)
  | inr validatedData =>
      try_catch db (
        r <- prisma.project_create db
               (Project.mk fresh
                  (cpd_name validatedData)
                  (cpd_description validatedData)
                  default_project_status
                  userId
                  (new_Date_if (cpd_startDate validatedData))
                  (new_Date_if (cpd_endDate validatedData))
                  now) ;;
        let (project, db') := r in
        ret (ok_message 201 "Project created successfully"
               (Some (data_project project)), db'))
  end.

Definition owned_by (userId : Id) (id : Id) : ProjectWhereInput.t :=
  ProjectWhereInput.with_id id
    (ProjectWhereInput.with_ownerId userId ProjectWhereInput.empty).

Definition updateProject (userId : Id) (id : Id) (body : UpdateProjectBody)
    (db : Db) : Response * Db :=
  match updateProjectSchema body with
  | inl issues => (validation_error issues, db)
  | inr validatedData =>
      try_catch db (
        (* Check if user is owner *)
        existingProject <- prisma.project_findFirst db (owned_by userId id) ;;
        match existingProject with
        | None =>
            ret (failure 404
                   "Project not found or you do not have permission to update it",
                 db)
        | Some _ =>
            r <- prisma.project_update db id
                   {| prisma.pu_name := upd_name validatedData;
                      prisma.pu_description := upd_description validatedData;
                      prisma.pu_status := upd_status validatedData;
                      prisma.pu_startDate :=
                        new_Date_if (upd_startDate validatedData);
                      prisma.pu_endDate :=
                        new_Date_if (upd_endDate validatedData) |} ;;
            let (project, db') := r in
            ret (ok_message 200 "Project updated successfully"
                   (Some (data_project project)), db')
        end)
  end.

Definition deleteProject (userId : Id) (id : Id) (db : Db) : Response * Db :=
  try_catch db (
    (* Check if user is owner *)
    existingProject <- prisma.project_findFirst db (owned_by userId id) ;;
    match existingProject with
    | None =>
        ret (failure 404
               "Project not found or you do not have permission to delete it",
             db)
    | Some _ =>
        db' <- prisma.project_delete db id ;;
        ret (ok_message 200 "Project deleted successfully" None, db')
    end).

Record AddMemberBody := {
  amb_userId : JsonValue;
  amb_role : JsonValue
}.

Definition addMember (userId : Id) (id : Id) (body : AddMemberBody)
    (fresh : Id) (db : Db) : Response * Db :=
  try_catch db (
    (* Check if user is owner *)
    project <- prisma.project_findFirst db (owned_by userId id) ;;
    match project with
    | None =>
        ret (failure 404 "Project not found or you do not have permission", db)
    | Some _ =>
        (* Check if member already exists *)
        existingMember <- prisma.projectMember_findUnique db id (amb_userId body) ;;
        match existingMember, amb_userId body with
        | Some _, _ =>
            ret (failure 400 "User is already a member of this project", db)
        | None, JString memberUserId =>
            r <- prisma.projectMember_create db
                   (ProjectMember.mk fresh id memberUserId
                      (match js_truthy (amb_role body) with
                       | Some role => role
                       | None => "MEMBER"
                       end)) ;;
            let (member, db') := r in
            ret (ok_message 201 "Member added successfully"
                   (Some (data_member member)), db')
        | None, _ => throw PrismaClientValidationError
        end
    end).

Definition removeMember (userId : Id) (id : Id) (memberId : Id) (db : Db)
    : Response * Db :=
  try_catch db (
    (* Check if user is owner *)
    project <- prisma.project_findFirst db (owned_by userId id) ;;
    match project with
    | None =>
        ret (failure 404 "Project not found or you do not have permission", db)
    | Some _ =>
        db' <- prisma.projectMember_delete db memberId ;;
        ret (ok_message 200 "Member removed successfully" None, db')
    end).

(** ** task.controller.ts *)

Record CreateTaskBody := {
  ctb_title : JsonValue;
  ctb_description : JsonValue;
  ctb_projectId : JsonValue;
  ctb_priority : JsonValue;
  ctb_dueDate : JsonValue;
  ctb_assigneeId : JsonValue
}.

Record CreateTaskData := {
  ctd_title : string;
  ctd_description : option string;
  ctd_projectId : Id;
  ctd_priority : option Priority;
  ctd_dueDate : option string;
  ctd_assigneeId : option Id
}.

Definition createTaskSchema (b : CreateTaskBody) : list string + CreateTaskData :=
  let title := z_string (min_max 3 200) (ctb_title b) in
  let description := z_optional (z_string any_string) (ctb_description b) in
  let projectId := z_string is_uuid (ctb_projectId b) in
  let priority := z_optional (z_enum Priority_of_string) (ctb_priority b) in
  let dueDate := z_optional (z_string is_datetime) (ctb_dueDate b) in
  let assigneeId := z_optional (z_string is_uuid) (ctb_assigneeId b) in
  match title, description, projectId, priority, dueDate, assigneeId with
  | Some t, Some d, Some p, Some pr, Some du, Some a =>
      inr (Build_CreateTaskData t d p pr du a)
  | _, _, _, _, _, _ =>
      inl (issue "title" title ++ issue "description" description
           ++ issue "projectId" projectId ++ issue "priority" priority
           ++ issue "dueDate" dueDate ++ issue "assigneeId" assigneeId)%list
  end.

Record UpdateTaskBody := {
  utb_title : JsonValue;
  utb_description : JsonValue;
  utb_status : JsonValue;
  utb_priority : JsonValue;
  utb_dueDate : JsonValue;
  utb_assigneeId : JsonValue
}.

(** [utd_assigneeId] is [None] for an absent key, [Some None] for
    [null], [Some (Some a)] for the id [a]. *)
Record UpdateTaskData := {
  utd_title : option string;
  utd_description : option string;
  utd_status : option TaskStatus;
  utd_priority : option Priority;
  utd_dueDate : option string;
  utd_assigneeId : option (option Id)
}.

(** [z.string().uuid().optional().nullable()] *)
Definition z_assignee (v : JsonValue) : option (option (option Id)) :=
  match z_nullable (z_optional (z_string is_uuid)) v with
  | None => None
  | Some None => Some (Some None)
  | Some (Some None) => Some None
  | Some (Some (Some a)) => Some (Some (Some a))
  end.

Definition updateTaskSchema (b : UpdateTaskBody) : list string + UpdateTaskData :=
  let title := z_optional (z_string (min_max 3 200)) (utb_title b) in
  let description := z_optional (z_string any_string) (utb_description b) in
  let status := z_optional (z_enum TaskStatus_of_string) (utb_status b) in
  let priority := z_optional (z_enum Priority_of_string) (utb_priority b) in
  let dueDate := z_optional (z_string is_datetime) (utb_dueDate b) in
  let assigneeId := z_assignee (utb_assigneeId b) in
  match title, description, status, priority, dueDate, assigneeId with
  | Some t, Some d, Some st, Some pr, Some du, Some a =>
      inr (Build_UpdateTaskData t d st pr du a)
  | _, _, _, _, _, _ =>
      inl (issue "title" title ++ issue "description" description
           ++ issue "status" status ++ issue "priority" priority
           ++ issue "dueDate" dueDate ++ issue "assigneeId" assigneeId)%list
  end.

Record TasksQuery := {
  tq_projectId : QueryValue;
  tq_status : QueryValue;
  tq_priority : QueryValue;
  tq_assigneeId : QueryValue
}.

(** [project: { OR: [{ ownerId: userId }, { members: { some: { userId } } }] }] *)
Definition in_visible_project (userId : Id) : TaskWhereInput.t :=
  TaskWhereInput.with_project
    (ProjectWhereInput.with_OR (owner_or_member userId) ProjectWhereInput.empty)
    TaskWhereInput.empty.

Definition assign_if {W} (v : QueryValue) (set : string -> W -> W) (w : W) : W :=
  match truthy v with
  | Some s => set s w
  | None => w
  end.

(** The where-object of [getTasks], key by key as the handler assigns
    them. *)
Definition getTasks_where (userId : Id) (q : TasksQuery) : TaskWhereInput.t :=
  assign_if (tq_assigneeId q) TaskWhereInput.with_assigneeId
    (assign_if (tq_priority q) TaskWhereInput.with_priority
       (assign_if (tq_status q) TaskWhereInput.with_status
          (assign_if (tq_projectId q) TaskWhereInput.with_projectId
             (in_visible_project userId)))).

Definition getTasks_orderBy : TaskOrderBy :=
  [ (Task_status, asc); (Task_priority, desc); (Task_dueDate, asc) ].

Definition getTasks (userId : Id) (q : TasksQuery) (db : Db) : Response * Db :=
  try_catch db (
    tasks <- prisma.task_findMany db (getTasks_where userId q) getTasks_orderBy ;;
    ret (ok_data 200 (data_tasks tasks), db)).

(** [{ id, project: { OR: [...] } }] *)
Definition visible_task (userId : Id) (id : Id) : TaskWhereInput.t :=
  TaskWhereInput.with_id id (in_visible_project userId).

Definition getTask (userId : Id) (id : Id) (db : Db) : Response * Db :=
  try_catch db (
    task <- prisma.task_findFirst db (visible_task userId id) ;;
    match task with
    | None => ret (failure 404 "Task not found", db)
    | Some t => ret (ok_data 200 (data_task t), db)
    end).

(** [{ id: projectId, OR: [{ ownerId: u }, { members: { some: { userId: u } } }] }] *)
Definition project_open_to (u : Id) (projectId : Id) : ProjectWhereInput.t :=
  ProjectWhereInput.with_id projectId
    (ProjectWhereInput.with_OR (owner_or_member u) ProjectWhereInput.empty).

Definition createTask (userId : Id) (body : CreateTaskBody)
    (fresh : Id) (now : DateTime) (db : Db) : Response * Db :=
  match createTaskSchema body with
  | inl issues => (validation_error issues, db)
  | inr validatedData =>
      try_catch db (
        (* Check if user has access to the project *)
        project <- prisma.project_findFirst db
                     (project_open_to userId (ctd_projectId validatedData)) ;;
        match project with
        | None =>
            ret (failure 404 "Project not found or you do not have access", db)
        | Some _ =>
            (* If assigneeId is provided, check if they have access to the
               project *)
            hasAccess <-
              match truthy (ctd_assigneeId validatedData) with
              | Some assigneeId =>
                  found <- prisma.project_findFirst db
                             (project_open_to assigneeId
                                (ctd_projectId validatedData)) ;;
                  ret (match found with Some _ => true | None => false end)
              | None => ret true
              end ;;
            if hasAccess then
              r <- prisma.task_create db
                     (Task.mk fresh
                        (ctd_title validatedData)
                        (ctd_description validatedData)
                        default_task_status
                        (prisma.or_keep (ctd_priority validatedData)
                           default_priority)
                        (ctd_projectId validatedData)
                        (ctd_assigneeId validatedData)
                        (new_Date_if (ctd_dueDate validatedData))
                        now) ;;
              let (task, db') := r in
              ret (ok_message 201 "Task created successfully"
                     (Some (data_task task)), db')
            else
              ret (failure 400 "Assignee does not have access to this project",
                   db)
        end)
  end.

Definition updateTask (userId : Id) (id : Id) (body : UpdateTaskBody) (db : Db)
    : Response * Db :=
  match updateTaskSchema body with
  | inl issues => (validation_error issues, db)
  | inr validatedData =>
      try_catch db (
        (* Check if user has access to the task *)
        existingTask <- prisma.task_findFirst db (visible_task userId id) ;;
        match existingTask with
        | None =>
            ret (failure 404 "Task not found or you do not have permission", db)
        | Some _ =>
            r <- prisma.task_update db id
                   {| prisma.tu_title := utd_title validatedData;
                      prisma.tu_description := utd_description validatedData;
                      prisma.tu_status := utd_status validatedData;
                      prisma.tu_priority := utd_priority validatedData;
                      prisma.tu_dueDate := new_Date_if (utd_dueDate validatedData);
                      prisma.tu_assigneeId := utd_assigneeId validatedData |} ;;
            let (task, db') := r in
            ret (ok_message 200 "Task updated successfully"
                   (Some (data_task task)), db')
        end)
  end.

(** [['TODO', 'IN_PROGRESS', 'IN_REVIEW', 'DONE'].includes(status)] *)
Definition status_included (v : JsonValue) : option TaskStatus :=
  match v with
  | JString s => TaskStatus_of_string s
  | _ => None
  end.

Definition updateTaskStatus (userId : Id) (id : Id) (status_ : JsonValue)
    (db : Db) : Response * Db :=
  match status_included status_ with
  | None => (failure 400 "Invalid status", db)
  | Some st =>
      try_catch db (
        (* Check if user has access to the task *)
        existingTask <- prisma.task_findFirst db (visible_task userId id) ;;
        match existingTask with
        | None =>
            ret (failure 404 "Task not found or you do not have permission", db)
        | Some _ =>
            r <- prisma.task_update db id
                   {| prisma.tu_title := None;
                      prisma.tu_description := None;
                      prisma.tu_status := Some st;
                      prisma.tu_priority := None;
                      prisma.tu_dueDate := None;
                      prisma.tu_assigneeId := None |} ;;
            let (task, db') := r in
            ret (ok_message 200 "Task status updated successfully"
                   (Some (data_task task)), db')
        end)
  end.

Definition deleteTask (userId : Id) (id : Id) (db : Db) : Response * Db :=
  try_catch db (
    (* Check if user has access to the task *)
    existingTask <- prisma.task_findFirst db (visible_task userId id) ;;
    match existingTask with
    | None =>
        ret (failure 404 "Task not found or you do not have permission", db)
    | Some _ =>
        db' <- prisma.task_delete db id ;;
        ret (ok_message 200 "Task deleted successfully" None, db')
    end).

(** [!content || content.trim().length === 0] *)
Definition content_missing (content : JsonValue) : bool :=
  match js_truthy content with
  | Some s => trim_is_empty s
  | None => true
  end.

Definition addComment (userId : Id) (id : Id) (content : JsonValue)
    (fresh : Id) (now : DateTime) (db : Db) : Response * Db :=
  match content_missing content, content with
  | false, JString text =>
      try_catch db (
        (* Check if user has access to the task *)
        task <- prisma.task_findFirst db (visible_task userId id) ;;
        match task with
        | None =>
            ret (failure 404 "Task not found or you do not have permission", db)
        | Some _ =>
            r <- prisma.comment_create db (Comment.mk fresh text id userId now) ;;
            let (comment, db') := r in
            ret (ok_message 201 "Comment added successfully"
                   (Some (data_comment comment)), db')
        end)
  | _, _ => (failure 400 "Comment content is required", db)
  end.

(** ** user.controller.ts *)

Record UsersQuery := {
  uq_search : QueryValue;
  uq_role : QueryValue
}.

Definition getUsers_where (q : UsersQuery) : UserWhereInput.t :=
  let where0 := UserWhereInput.with_isActive true UserWhereInput.empty in
  let where1 :=
    match truthy (uq_search q) with
    | Some search =>
        UserWhereInput.with_OR
          [ UserWhereInput.with_firstName (contains_insensitive search)
              UserWhereInput.empty;
            UserWhereInput.with_lastName (contains_insensitive search)
              UserWhereInput.empty;
            UserWhereInput.with_email (contains_insensitive search)
              UserWhereInput.empty ]
          where0
    | None => where0
    end in
  assign_if (uq_role q) UserWhereInput.with_role where1.

Definition select_list_item (u : User.t) : UserListItem :=
  {| uli_id := User.id u; uli_email := User.email u;
     uli_firstName := User.firstName u; uli_lastName := User.lastName u;
     uli_avatar := User.avatar u; uli_role := User.role u;
     uli_createdAt := User.createdAt u |}.

(** Modelled from the spec: the relations [projects], [tasks] and
    [comments] of a user in [schema.prisma], which is not part of the
    sources at hand.  The spec has a user own projects, be assigned tasks
    and author comments. *)
Definition count_relations (db : Db) (u : Id) : nat * nat * nat :=
  (length (filter (fun p => Project.ownerId p =? u) (projects db)),
   length (filter (fun t => option_id_eqb (Task.assigneeId t) u) (tasks db)),
   length (filter (fun c => Comment.authorId c =? u) (comments db))).

Definition select_detail (db : Db) (u : User.t) : UserDetail :=
  let '(np, nt, nc) := count_relations db (User.id u) in
  {| ud_id := User.id u; ud_email := User.email u;
     ud_firstName := User.firstName u; ud_lastName := User.lastName u;
     ud_avatar := User.avatar u; ud_role := User.role u;
     ud_isActive := User.isActive u; ud_createdAt := User.createdAt u;
     ud_count_projects := np; ud_count_tasks := nt; ud_count_comments := nc |}.

Definition getUsers (q : UsersQuery) (db : Db) : Response * Db :=
  try_catch db (
    users <- prisma.user_findMany db (getUsers_where q) (User_firstName, asc) ;;
    ret (ok_data 200 (data_users (map select_list_item users)), db)).

Definition getUser (id : Id) (db : Db) : Response * Db :=
  try_catch db (
    user <- prisma.user_findUnique db id ;;
    match user with
    | None => ret (failure 404 "User not found", db)
    | Some u => ret (ok_data 200 (data_user (select_detail db u)), db)
    end).

(** Soft delete - just deactivate the account. *)
Definition deleteUser (userId : Id) (db : Db) : Response * Db :=
  if has_user db userId
  then (ok_message 200 "Account deactivated successfully" None,
        mkDb (map (fun u =>
                     if User.id u =? userId
                     then User.mk (User.id u) (User.email u) (User.password u)
                            (User.firstName u) (User.lastName u) (User.avatar u)
                            (User.role u) false (User.createdAt u)
                     else u) (users db))
             (projects db) (projectMembers db) (tasks db) (comments db))
  else (errorHandler P2025, db).

End Controllers.

(* ================================================================== *)
(** * The access predicates, as the specification words them *)
(* ================================================================== *)

(** [P.ownerId == actor.id] *)
Definition is_owner (u : Id) (p : Project.t) : bool :=
  Project.ownerId p =? u.

(** A Membership row [(P.id, actor.id)] exists. *)
Definition is_member (db : Db) (u : Id) (p : Project.t) : bool :=
  existsb (fun m => (ProjectMember.projectId m =? Project.id p)
                    && (ProjectMember.userId m =? u))
          (projectMembers db).

(** Project visibility: owner or member. *)
Definition visible (db : Db) (u : Id) (p : Project.t) : bool :=
  is_owner u p || is_member db u p.

(** The project with id [pid] is stored and [u] sees it. *)
Definition sees_project (db : Db) (u : Id) (pid : Id) : bool :=
  existsb (fun p => (Project.id p =? pid) && visible db u p) (projects db).

(** The project with id [pid] is stored and [u] owns it. *)
Definition owns_project (db : Db) (u : Id) (pid : Id) : bool :=
  existsb (fun p => (Project.id p =? pid) && is_owner u p) (projects db).

(** Task visibility: through the project of the task. *)
Definition task_visible (db : Db) (u : Id) (t : Task.t) : bool :=
  sees_project db u (Task.projectId t).

(** The task with id [tid] is stored and [u] sees it. *)
Definition sees_task (db : Db) (u : Id) (tid : Id) : bool :=
  existsb (fun t => (Task.id t =? tid) && task_visible db u t) (tasks db).

(** A task's assignee, when set, is owner or member of the task's
    project. *)
Definition assignee_in_project (db : Db) (t : Task.t) : bool :=
  match Task.assigneeId t with
  | None => true
  | Some a => sees_project db a (Task.projectId t)
  end.

Definition assignee_invariant (db : Db) : bool :=
  forallb (assignee_in_project db) (tasks db).

(** Number of Membership rows for the pair [(pid, u)]. *)
Definition membership_count (db : Db) (pid : Id) (u : Id) : nat :=
  length (filter (fun m => (ProjectMember.projectId m =? pid)
                           && (ProjectMember.userId m =? u))
                 (projectMembers db)).

(** The lists that a listing response carries. *)
Definition listed_projects (r : Response) : list Project.t :=
  match data r with
  | Some (data_projects l) => l
  | _ => []
  end.

Definition listed_tasks (r : Response) : list Task.t :=
  match data r with
  | Some (data_tasks l) => l
  | _ => []
  end.

Definition listed_users (r : Response) : list UserListItem :=
  match data r with
  | Some (data_users l) => l
  | _ => []
  end.

(* ================================================================== *)
(** * A small database to run the handlers on *)
(* ================================================================== *)

Module Sample.

Definition is_hex (c : ascii) : bool :=
  let n := nat_of_ascii c in
  ((48 <=? n)%nat && (n <=? 57)%nat)
  || ((97 <=? n)%nat && (n <=? 102)%nat)
  || ((65 <=? n)%nat && (n <=? 70)%nat).

(** 8-4-4-4-12 hexadecimal digits. *)
Fixpoint uuid_groups (groups : list nat) (left : nat) (s : string) : bool :=
  match s, left with
  | EmptyString, O => match groups with [] => true | _ => false end
  | String c r, O =>
      match groups with
      | g :: gs => (c =? "-")%char && uuid_groups gs g r
      | [] => false
      end
  | String c r, S n => is_hex c && uuid_groups groups n r
  | EmptyString, S _ => false
  end.

Definition is_uuid (s : string) : bool := uuid_groups [4; 4; 4; 12]%nat 8 s.

(** Two instants are enough for the runs below. *)
Definition parse_datetime (s : string) : option DateTime :=
  if s =? "2024-01-15T00:00:00.000Z" then Some 1705276800000%Z
  else if s =? "2024-02-01T00:00:00.000Z" then Some 1706745600000%Z
  else None.

Definition olivia : Id := "00000000-0000-4000-8000-00000000000a".
Definition marco : Id := "00000000-0000-4000-8000-00000000000b".
Definition xenia : Id := "00000000-0000-4000-8000-00000000000c".
Definition dana : Id := "00000000-0000-4000-8000-00000000000d".

Definition redesign : Id := "00000000-0000-4000-8000-000000000101".
Definition secret : Id := "00000000-0000-4000-8000-000000000102".

Definition link_marco : Id := "00000000-0000-4000-8000-000000000201".
Definition link_dana : Id := "00000000-0000-4000-8000-000000000202".

Definition wireframes : Id := "00000000-0000-4000-8000-000000000301".
Definition audit : Id := "00000000-0000-4000-8000-000000000302".
Definition palette : Id := "00000000-0000-4000-8000-000000000303".

Definition new_id : Id := "00000000-0000-4000-8000-000000000999".
Definition nobody : Id := "00000000-0000-4000-8000-000000000fff".

Definition user (i : Id) (first : string) (active : bool) : User.t :=
  User.mk i (first ++ "@example.com") "$2a$12$hash" first "Doe" None USER active 0%Z.

Definition p_redesign : Project.t :=
  Project.mk redesign "Redesign" (Some "New look") ACTIVE olivia None None 10%Z.

Definition p_secret : Project.t :=
  Project.mk secret "Secret redesign" None ACTIVE xenia None None 20%Z.

Definition m_marco : ProjectMember.t :=
  ProjectMember.mk link_marco redesign marco "DEVELOPER".

Definition m_dana : ProjectMember.t :=
  ProjectMember.mk link_dana secret dana "MEMBER".

Definition t_wireframes : Task.t :=
  Task.mk wireframes "Wireframes" None TODO MEDIUM redesign (Some olivia)
    None 30%Z.

Definition t_palette : Task.t :=
  Task.mk palette "Palette" None TODO URGENT redesign (Some marco)
    (Some 1705276800000%Z) 31%Z.

Definition t_audit : Task.t :=
  Task.mk audit "Audit" None IN_PROGRESS HIGH secret None None 32%Z.

Definition db : Db :=
  {| users := [ user olivia "Olivia" true; user marco "Marco" true;
                user xenia "Xenia" true; user dana "Dana" false ];
     projects := [ p_redesign; p_secret ];
     projectMembers := [ m_marco; m_dana ];
     tasks := [ t_wireframes; t_palette; t_audit ];
     comments := [] |}.

Definition no_project_filters : ProjectsQuery := Build_ProjectsQuery None None.

Definition no_task_filters : TasksQuery := Build_TasksQuery None None None None.

(** A database under the C locale, where [lower] reaches the ASCII letters
    only. *)
Definition locale : Locale := {| pg_lower := lower |}.

(** Texts outside ASCII, as the UTF-8 bytes the server receives:
    U+00E9 (e with acute accent), U+00A0 (no-break space), U+2028 (line
    separator), U+FEFF (byte order mark) and U+4E2D (a CJK character).
    Each is one UTF-16 code unit. *)
Definition e_acute : string :=
  String (ascii_of_nat 195) (String (ascii_of_nat 169) EmptyString).
Definition nbsp : string :=
  String (ascii_of_nat 194) (String (ascii_of_nat 160) EmptyString).
Definition line_separator : string :=
  String (ascii_of_nat 226)
    (String (ascii_of_nat 128) (String (ascii_of_nat 168) EmptyString)).
Definition bom : string :=
  String (ascii_of_nat 239)
    (String (ascii_of_nat 187) (String (ascii_of_nat 191) EmptyString)).
Definition cjk : string :=
  String (ascii_of_nat 228)
    (String (ascii_of_nat 184) (String (ascii_of_nat 173) EmptyString)).

(** A space, a tab and the three above that [trim] removes. *)
Definition blank : string :=
  " " ++ String (ascii_of_nat 9) EmptyString ++ nbsp ++ line_separator ++ bom.

Definition createTask := createTask (L := locale) is_uuid parse_datetime TODO MEDIUM.
Definition updateTask := updateTask (L := locale) is_uuid parse_datetime.
Definition updateProject := updateProject (L := locale) parse_datetime.

End Sample.

(* ================================================================== *)
(** * Operations, rows and orders that the statements below speak of *)
(* ================================================================== *)

(** [GET /api/projects] without query parameters. *)
Definition no_filters : ProjectsQuery :=
  {| pq_status := None; pq_search := None |}.

(** The operations on one project or one task, with the request body where
    there is one. *)
Inductive Operation :=
| GetProject
| UpdateProject (body : UpdateProjectBody)
| DeleteProject
| GetTask
| UpdateTask (body : UpdateTaskBody)
| UpdateTaskStatus (status_ : JsonValue)
| DeleteTask
| AddComment (content : JsonValue) (fresh : Id) (now : DateTime).

Section Operations.

Context {L : Locale}.

Variable is_uuid : string -> bool.
Variable parse_datetime : string -> option DateTime.

Definition run (op : Operation) (userId id : Id) (db : Db) : Response * Db :=
  match op with
  | GetProject => getProject userId id db
  | UpdateProject body => updateProject parse_datetime userId id body db
  | DeleteProject => deleteProject userId id db
  | GetTask => getTask userId id db
  | UpdateTask body => updateTask is_uuid parse_datetime userId id body db
  | UpdateTaskStatus status_ => updateTaskStatus userId id status_ db
  | DeleteTask => deleteTask userId id db
  | AddComment content fresh now => addComment userId id content fresh now db
  end.

(** The resource that [id] names is stored. *)
Definition target_stored (op : Operation) (db : Db) (id : Id) : bool :=
  match op with
  | GetProject | UpdateProject _ | DeleteProject => has_project db id
  | _ => has_task db id
  end.

(** The access predicate of the operation: visibility to read a project,
    ownership to change one, visibility of the task for the rest. *)
Definition passes_access (op : Operation) (db : Db) (u id : Id) : bool :=
  match op with
  | GetProject => sees_project db u id
  | UpdateProject _ | DeleteProject => owns_project db u id
  | _ => sees_task db u id
  end.

Definition not_found (op : Operation) : Response :=
  failure 404
    match op with
    | GetProject => "Project not found"
    | UpdateProject _ =>
        "Project not found or you do not have permission to update it"
    | DeleteProject =>
        "Project not found or you do not have permission to delete it"
    | GetTask => "Task not found"
    | _ => "Task not found or you do not have permission"
    end.

(** What the handler answers to a body it does not accept, before it
    looks anything up. *)
Definition rejected_input (op : Operation) : option Response :=
  match op with
  | UpdateProject body =>
      match updateProjectSchema parse_datetime body with
      | inl issues => Some (validation_error issues)
      | inr _ => None
      end
  | UpdateTask body =>
      match updateTaskSchema is_uuid parse_datetime body with
      | inl issues => Some (validation_error issues)
      | inr _ => None
      end
  | UpdateTaskStatus status_ =>
      match status_included status_ with
      | None => Some (failure 400 "Invalid status")
      | Some _ => None
      end
  | AddComment content _ _ =>
      if content_missing content
      then Some (failure 400 "Comment content is required")
      else None
  | _ => None
  end.

Definition refusal (op : Operation) : Response :=
  match rejected_input op with
  | Some r => r
  | None => not_found op
  end.

End Operations.

(** Every owner and every member is a user: the foreign keys of
    [Project.ownerId] and [ProjectMember.userId]. *)
Definition references_ok (db : Db) : bool :=
  forallb (fun p => has_user db (Project.ownerId p)) (projects db)
  && forallb (fun m => has_user db (ProjectMember.userId m)) (projectMembers db).

Section CreatedTask.

Variable parse_datetime : string -> option DateTime.
Variable default_task_status : TaskStatus.
Variable default_priority : Priority.

(** The row that [prisma.task.create] is given. *)
Definition created_task (v : CreateTaskData) (fresh : Id) (now : DateTime)
    : Task.t :=
  Task.mk fresh (ctd_title v) (ctd_description v) default_task_status
    (prisma.or_keep (ctd_priority v) default_priority)
    (ctd_projectId v) (ctd_assigneeId v)
    (new_Date_if parse_datetime (ctd_dueDate v)) now.

(** The insert and the 201 that follows it. *)
Definition insert_task (v : CreateTaskData) (fresh : Id) (now : DateTime)
    (db : Db) : Response * Db :=
  try_catch db (
    r <- prisma.task_create db (created_task v fresh now) ;;
    let (task, db') := r in
    ret (ok_message 201 "Task created successfully" (Some (data_task task)),
         db')).

End CreatedTask.

Definition new_task_body (assignee : Id) : CreateTaskBody :=
  {| ctb_title := JString "Logo";
     ctb_description := JUndefined;
     ctb_projectId := JString Sample.redesign;
     ctb_priority := JUndefined;
     ctb_dueDate := JString "2024-02-01T00:00:00.000Z";
     ctb_assigneeId := JString assignee |}.

Definition new_task_data (assignee : Id) : CreateTaskData :=
  {| ctd_title := "Logo";
     ctd_description := None;
     ctd_projectId := Sample.redesign;
     ctd_priority := None;
     ctd_dueDate := Some "2024-02-01T00:00:00.000Z";
     ctd_assigneeId := Some assignee |}.

Definition reassign_body (assignee : Id) : UpdateTaskBody :=
  {| utb_title := JUndefined;
     utb_description := JUndefined;
     utb_status := JUndefined;
     utb_priority := JUndefined;
     utb_dueDate := JUndefined;
     utb_assigneeId := JString assignee |}.

(** [role || 'MEMBER'] *)
Definition role_or_default (role : JsonValue) : string :=
  match js_truthy role with
  | Some r => r
  | None => "MEMBER"
  end.

(** One call of [addMember], by any actor on any project. *)
Record AddMemberCall := {
  amc_actor : Id;
  amc_project : Id;
  amc_body : AddMemberBody;
  amc_fresh : Id
}.

Definition addMember_call {L : Locale} (db : Db) (c : AddMemberCall) : Db :=
  snd (addMember (amc_actor c) (amc_project c) (amc_body c) (amc_fresh c) db).

Definition addMember_calls {L : Locale} (calls : list AddMemberCall) (db : Db)
    : Db :=
  fold_left addMember_call calls db.

(** The four values that [updateTaskStatus] lets through. *)
Definition status_values : list string :=
  ["TODO"; "IN_PROGRESS"; "IN_REVIEW"; "DONE"].

Definition TaskStatus_to_string (s : TaskStatus) : string :=
  match s with
  | TODO => "TODO"
  | IN_PROGRESS => "IN_PROGRESS"
  | IN_REVIEW => "IN_REVIEW"
  | DONE => "DONE"
  end.

(** [data: { status }] applied to a row. *)
Definition with_status (st : TaskStatus) (t : Task.t) : Task.t :=
  Task.mk (Task.id t) (Task.title t) (Task.description t) st (Task.priority t)
    (Task.projectId t) (Task.assigneeId t) (Task.dueDate t) (Task.createdAt t).

(** Due date ascending, tasks without a due date last. *)
Definition due_date_before (a b : option DateTime) : Prop :=
  match a, b with
  | Some x, Some y => (x <= y)%Z
  | Some _, None => True
  | None, Some _ => False
  | None, None => True
  end.

(** The order of the task listing in the words of the specification:
    status ascending, then priority descending (URGENT before HIGH before
    MEDIUM before LOW), then due date ascending with no due date last. *)
Definition listed_before (a b : Task.t) : Prop :=
  TaskStatus_rank (Task.status a) < TaskStatus_rank (Task.status b)
  \/ (Task.status a = Task.status b
      /\ (Priority_rank (Task.priority b) < Priority_rank (Task.priority a)
          \/ (Task.priority a = Task.priority b
              /\ due_date_before (Task.dueDate a) (Task.dueDate b)))).

(** Creation time descending. *)
Definition newer_first (a b : Project.t) : Prop :=
  (Project.createdAt b <= Project.createdAt a)%Z.

(* ================================================================== *)
(** * The rest of user.controller.ts *)
(* ================================================================== *)

(** A response whose [data] is of a type that [Payload] does not list. *)
Record Answer (D : Type) := {
  a_status : nat;
  a_success : bool;
  a_message : option string;
  a_data : option D;
  a_errors : option (list string)
}.

Arguments a_status {D} _.
Arguments a_success {D} _.
Arguments a_message {D} _.
Arguments a_data {D} _.
Arguments a_errors {D} _.

(** A response without [data], as an [Answer]. *)
Definition answer_of {D} (r : Response) : Answer D :=
  {| a_status := status r; a_success := success r; a_message := message r;
     a_data := None; a_errors := errors r |}.

(** [prisma.user.update({ where: { id }, data })]: the row must exist; [f]
    writes the columns that [data] names. *)
Definition user_update (db : Db) (id : Id) (f : User.t -> User.t)
    : Try (User.t * Db) :=
  match find (fun u => User.id u =? id) (users db) with
  | None => throw P2025
  | Some u =>
      ret (f u,
           mkDb (map (fun q => if User.id q =? id then f q else q) (users db))
                (projects db) (projectMembers db) (tasks db) (comments db))
  end.

Section Stats.

Context {L : Locale}.

(** [prisma.project.count({ where })] *)
Definition project_count (db : Db) (where_ : ProjectWhereInput.t) : Try nat :=
  if project_where_valid where_
  then ret (length (filter (project_matches (projectMembers db) where_)
                      (projects db)))
  else throw PrismaClientValidationError.

Definition all_statuses : list TaskStatus := [TODO; IN_PROGRESS; IN_REVIEW; DONE].

(** [prisma.task.groupBy({ by: ['status'], where: { OR: alternatives },
    _count: true })]: one group for each status that some selected task
    has, with the number of those tasks. *)
Definition task_groupBy_status (db : Db) (alternatives : list TaskWhereInput.t)
    : Try (list (TaskStatus * nat)) :=
  if forallb task_where_valid alternatives
  then
    let selected :=
      filter (fun t => existsb (fun w => task_matches db w t) alternatives)
             (tasks db) in
    ret (filter (fun g => negb (Nat.eqb (snd g) 0))
           (map (fun st =>
                   (st, length (filter (fun t => TaskStatus_eqb (Task.status t) st)
                                       selected)))
                all_statuses))
  else throw PrismaClientValidationError.

(** A JavaScript object with numbers as values: assigning to a key that is
    present replaces its value. *)
Definition JsObject := list (string * nat).

Fixpoint obj_set (k : string) (v : nat) (o : JsObject) : JsObject :=
  match o with
  | [] => [(k, v)]
  | (k', v') :: r => if k' =? k then (k, v) :: r else (k', v') :: obj_set k v r
  end.

Fixpoint obj_get (k : string) (o : JsObject) : option nat :=
  match o with
  | [] => None
  | (k', v) :: r => if k' =? k then Some v else obj_get k r
  end.

(** [Object.values(o)] *)
Definition obj_values (o : JsObject) : list nat := map snd o.

(** [x || 0] on a number that may be absent. *)
Definition or_zero (x : option nat) : nat :=
  match x with
  | Some n => n
  | None => 0
  end.

Record TasksByStatus := {
  tbs_TODO : nat;
  tbs_IN_PROGRESS : nat;
  tbs_IN_REVIEW : nat;
  tbs_DONE : nat
}.

Record UserStats := {
  totalProjects : nat;
  tasksByStatus : TasksByStatus;
  totalTasks : nat
}.

(** The two where-objects of [getUserStats] on tasks: assigned to the user,
    or in a project that the user owns or is a member of. *)
Definition getUserStats_alternatives (userId : Id) : list TaskWhereInput.t :=
  [ TaskWhereInput.with_assigneeId userId TaskWhereInput.empty;
    in_visible_project userId ].

Definition getUserStats (userId : Id) (db : Db) : Answer UserStats :=
  match
    (projectStats <- project_count db
                       (ProjectWhereInput.with_OR (owner_or_member userId)
                          ProjectWhereInput.empty) ;;
     taskStats <- task_groupBy_status db (getUserStats_alternatives userId) ;;
     ret (projectStats, taskStats))
  with
  | inl e => answer_of (errorHandler e)
  | inr (projectStats, taskStats) =>
      let tasksByStatus :=
        fold_left (fun acc item => obj_set (TaskStatus_to_string (fst item)) (snd item) acc)
                  taskStats [] in
      {| a_status := 200; a_success := true; a_message := None;
         a_data := Some
           {| totalProjects := projectStats;
              tasksByStatus :=
                {| tbs_TODO := or_zero (obj_get "TODO" tasksByStatus);
                   tbs_IN_PROGRESS := or_zero (obj_get "IN_PROGRESS" tasksByStatus);
                   tbs_IN_REVIEW := or_zero (obj_get "IN_REVIEW" tasksByStatus);
                   tbs_DONE := or_zero (obj_get "DONE" tasksByStatus) |};
              totalTasks := fold_left Nat.add (obj_values tasksByStatus) 0 |};
         a_errors := None |}
  end.

End Stats.

Section UserController.

(** [z.string().url()] of zod, and [bcrypt.compare] and [bcrypt.hash] with
    the salt that the call draws. *)
Variable is_url : string -> bool.
Variable bcrypt_compare : string -> string -> bool.
Variable bcrypt_hash : string -> nat -> string.

Record UpdateUserBody := {
  uub_firstName : JsonValue;
  uub_lastName : JsonValue;
  uub_avatar : JsonValue
}.

(** [uud_avatar] is [None] for an absent key, [Some None] for [null],
    [Some (Some a)] for the url [a]. *)
Record UpdateUserData := {
  uud_firstName : option string;
  uud_lastName : option string;
  uud_avatar : option (option string)
}.

(** [.min(lo)] on the length of a string. *)
Definition min_length (lo : nat) (s : string) : bool :=
  (lo <=? utf16_length s)%nat.

(** [z.string().url().optional().nullable()] *)
Definition z_avatar (v : JsonValue) : option (option (option string)) :=
  match z_nullable (z_optional (z_string is_url)) v with
  | None => None
  | Some None => Some (Some None)
  | Some (Some None) => Some None
  | Some (Some (Some a)) => Some (Some (Some a))
  end.

Definition updateUserSchema (b : UpdateUserBody) : list string + UpdateUserData :=
  let firstName := z_optional (z_string (min_length 2)) (uub_firstName b) in
  let lastName := z_optional (z_string (min_length 2)) (uub_lastName b) in
  let avatar := z_avatar (uub_avatar b) in
  match firstName, lastName, avatar with
  | Some f, Some l, Some a => inr (Build_UpdateUserData f l a)
  | _, _, _ =>
      inl (issue "firstName" firstName ++ issue "lastName" lastName
           ++ issue "avatar" avatar)%list
  end.

Definition user_apply (d : UpdateUserData) (u : User.t) : User.t :=
  User.mk (User.id u) (User.email u) (User.password u)
    (prisma.or_keep (uud_firstName d) (User.firstName u))
    (prisma.or_keep (uud_lastName d) (User.lastName u))
    (prisma.or_keep (uud_avatar d) (User.avatar u))
    (User.role u) (User.isActive u) (User.createdAt u).

(** What [select] keeps of the updated user ([updatedAt], a column that
    the rows here do not carry, apart). *)
Record UpdatedUser := {
  uu_id : Id;
  uu_email : string;
  uu_firstName : string;
  uu_lastName : string;
  uu_avatar : option string;
  uu_role : Role
}.

Definition select_updated (u : User.t) : UpdatedUser :=
  {| uu_id := User.id u; uu_email := User.email u;
     uu_firstName := User.firstName u; uu_lastName := User.lastName u;
     uu_avatar := User.avatar u; uu_role := User.role u |}.

Definition updateUser (userId : Id) (body : UpdateUserBody) (db : Db)
    : Answer UpdatedUser * Db :=
  match updateUserSchema body with
  | inl issues => (answer_of (validation_error issues), db)
  | inr validatedData =>
      match user_update db userId (user_apply validatedData) with
      | inl e => (answer_of (errorHandler e), db)
      | inr (user, db') =>
          ({| a_status := 200; a_success := true;
              a_message := Some "User updated successfully";
              a_data := Some (select_updated user); a_errors := None |}, db')
      end
  end.






End UserController.

(* ================================================================== *)
(** * App.tsx: the routes of the frontend *)
(* ================================================================== *)









(* ================================================================== *)
(** * Facts about lengths, white space and patterns *)
(* ================================================================== *)

Lemma utf16_length_app (a b : string) :
  utf16_length (a ++ b) = utf16_length a + utf16_length b.
Proof.
  induction a as [|c r IH]; [reflexivity|].
  cbn [append utf16_length]. rewrite IH. lia.
Qed.

(** On ASCII the UTF-16 length is the number of bytes. *)
Lemma utf16_length_ascii (s : string) :
  ascii_only s = true -> utf16_length s = String.length s.
Proof.
  induction s as [|c r IH]; [reflexivity|].
  cbn [ascii_only utf16_length String.length]. intro H.
  apply andb_prop in H. destruct H as [Hc Hr].
  unfold utf16_units. rewrite Hc, (IH Hr). reflexivity.
Qed.

(** A text of the one-byte white space only is trimmed to nothing. *)
Lemma trim_is_empty_spaces (s : string) :
  (forall c, In c (list_ascii_of_string s) -> is_space c = true) ->
  trim_is_empty s = true.
Proof.
  induction s as [|c r IH]; [reflexivity|].
  cbn [list_ascii_of_string trim_is_empty]. intro H.
  rewrite (H c (or_introl eq_refl)).
  apply IH. intros d Hd. apply H. right. exact Hd.
Qed.

(** A text that starts with an ASCII character other than white space is
    not. *)
Lemma trim_is_empty_visible (c : ascii) (r : string) :
  (nat_of_ascii c <? 128)%nat = true -> is_space c = false ->
  trim_is_empty (String c r) = false.
Proof.
  intros Hc Hs. cbn [trim_is_empty]. rewrite Hs.
  apply Nat.ltb_lt in Hc.
  destruct r as [|c2 r2]; [reflexivity|].
  assert (H2 : is_space2 c c2 = false).
  { unfold is_space2. destruct (Nat.eqb_spec (nat_of_ascii c) 194); [lia|].
    reflexivity. }
  rewrite H2. destruct r2 as [|c3 r3]; [reflexivity|].
  assert (H3 : is_space3 c c2 c3 = false).
  { unfold is_space3.
    destruct (Nat.eqb_spec (nat_of_ascii c) 225); [lia|].
    destruct (Nat.eqb_spec (nat_of_ascii c) 226); [lia|].
    destruct (Nat.eqb_spec (nat_of_ascii c) 227); [lia|].
    destruct (Nat.eqb_spec (nat_of_ascii c) 239); [lia|].
    reflexivity. }
  rewrite H3. reflexivity.
Qed.

Lemma like_percent_step (p t : string) :
  like (String "%" p) t
  = (at_boundary t && like p t)
    || match t with
       | EmptyString => false
       | String _ r => like (String "%" p) r
       end.
Proof. destruct t; reflexivity. Qed.

Lemma like_percent (t : string) : like "%" t = true.
Proof.
  induction t as [|c r IH]; [reflexivity|].
  rewrite like_percent_step, IH. apply orb_true_r.
Qed.

Lemma like_literal (c : ascii) (p t : string) :
  is_pattern_char c = false ->
  like (String c p) t
  = match t with
    | EmptyString => false
    | String d r => (c =? d)%char && like p r
    end.
Proof.
  unfold is_pattern_char. intro H.
  apply orb_false_elim in H. destruct H as [H H3].
  apply orb_false_elim in H. destruct H as [H1 H2].
  cbn [like]. rewrite H1, H2, H3. destruct t; reflexivity.
Qed.

(** A text without pattern characters, followed by [%], matches the
    values it is a prefix of. *)
Lemma like_plain_prefix (s v : string) :
  plain s = true -> like (s ++ "%") v = prefix s v.
Proof.
  revert v. induction s as [|c r IH]; intros v H.
  - cbn [append]. rewrite like_percent. destruct v; reflexivity.
  - cbn [plain] in H. apply andb_prop in H. destruct H as [Hc Hr].
    apply negb_true_iff in Hc.
    cbn [append]. rewrite like_literal by exact Hc.
    destruct v as [|d v']; [reflexivity|].
    cbn [prefix]. rewrite (IH v' Hr).
    destruct (ascii_dec c d) as [->|Hne].
    + rewrite Ascii.eqb_refl. reflexivity.
    + apply Ascii.eqb_neq in Hne. rewrite Hne. reflexivity.
Qed.

(** Between two [%], a text without pattern characters matches the ASCII
    values that contain it. *)
Lemma like_contains (s v : string) :
  plain s = true -> ascii_only v = true ->
  like ("%" ++ s ++ "%") v = is_substring s v.
Proof.
  intro Hs. change ("%" ++ s ++ "%") with (String "%" (s ++ "%")).
  induction v as [|c r IH]; intro Hv.
  - rewrite like_percent_step, (like_plain_prefix s _ Hs). cbn.
    rewrite orb_false_r. reflexivity.
  - cbn [ascii_only] in Hv. apply andb_prop in Hv. destruct Hv as [Hc Hr].
    rewrite like_percent_step, (like_plain_prefix s _ Hs), (IH Hr).
    assert (Hb : at_boundary (String c r) = true).
    { unfold at_boundary, is_continuation.
      apply Nat.ltb_lt in Hc.
      destruct (Nat.leb_spec 128 (nat_of_ascii c)); [lia|reflexivity]. }
    rewrite Hb. reflexivity.
Qed.

Lemma lower_app (a b : string) : lower (a ++ b) = lower a ++ lower b.
Proof.
  induction a as [|c r IH]; [reflexivity|].
  cbn [append lower]. rewrite IH. reflexivity.
Qed.

Lemma lower_ascii_pattern_char (c : ascii) :
  is_pattern_char (lower_ascii c) = is_pattern_char c.
Proof.
  destruct c as [[] [] [] [] [] [] [] []]; reflexivity.
Qed.

Lemma lower_ascii_range (c : ascii) :
  (nat_of_ascii (lower_ascii c) <? 128)%nat = (nat_of_ascii c <? 128)%nat.
Proof.
  destruct c as [[] [] [] [] [] [] [] []]; reflexivity.
Qed.

Lemma lower_plain (s : string) : plain (lower s) = plain s.
Proof.
  induction s as [|c r IH]; [reflexivity|].
  cbn [lower plain]. rewrite lower_ascii_pattern_char, IH. reflexivity.
Qed.

Lemma lower_ascii_only (s : string) : ascii_only (lower s) = ascii_only s.
Proof.
  induction s as [|c r IH]; [reflexivity|].
  cbn [lower ascii_only]. rewrite lower_ascii_range, IH. reflexivity.
Qed.

(** Under the C locale a search text without pattern characters finds the
    ASCII values that contain it, upper and lower case of the ASCII letters
    taken as the same. *)
Lemma ilike_plain_ascii (text value : string) :
  plain text = true -> ascii_only value = true ->
  ilike (L := Sample.locale) text value
  = is_substring (lower text) (lower value).
Proof.
  intros Ht Hv. unfold ilike. cbn [pg_lower Sample.locale].
  rewrite !lower_app. change (lower "%") with "%".
  apply like_contains.
  - rewrite lower_plain. exact Ht.
  - rewrite lower_ascii_only. exact Hv.
Qed.

Section Facts.

Context {L : Locale}.

(* ================================================================== *)
(** * Facts about the stable sort *)
(* ================================================================== *)

Section Sorting.

Variable A : Type.
Variable le : A -> A -> bool.

Lemma insert_sorted_perm (x : A) (l : list A) :
  Permutation (x :: l) (insert_sorted le x l).
Proof.
  induction l as [|y r IH]; simpl.
  - apply Permutation_refl.
  - destruct (le x y).
    + apply Permutation_refl.
    + eapply Permutation_trans; [apply perm_swap|].
      apply perm_skip, IH.
Qed.

Lemma sort_by_perm (l : list A) : Permutation l (sort_by le l).
Proof.
  induction l as [|x r IH]; simpl.
  - constructor.
  - eapply Permutation_trans; [|apply insert_sorted_perm].
    apply perm_skip, IH.
Qed.

Lemma sort_by_In (x : A) (l : list A) : In x (sort_by le l) <-> In x l.
Proof.
  split; intro H.
  - eapply Permutation_in; [apply Permutation_sym, sort_by_perm|exact H].
  - eapply Permutation_in; [apply sort_by_perm|exact H].
Qed.

Hypothesis le_total : forall a b, le a b = true \/ le b a = true.
Hypothesis le_trans :
  forall a b c, le a b = true -> le b c = true -> le a c = true.

Lemma insert_sorted_sorted (x : A) (l : list A) :
  StronglySorted (fun a b => le a b = true) l ->
  StronglySorted (fun a b => le a b = true) (insert_sorted le x l).
Proof.
  induction 1 as [|y r Hr IH Hy]; simpl.
  - repeat constructor.
  - destruct (le x y) eqn:Exy.
    + constructor; [constructor; assumption|].
      constructor; [exact Exy|].
      rewrite Forall_forall in *. intros z Hz.
      apply le_trans with y; [exact Exy|apply Hy, Hz].
    + constructor; [exact IH|].
      rewrite Forall_forall in *. intros z Hz.
      apply (Permutation_in _ (Permutation_sym (insert_sorted_perm x r))) in Hz.
      destruct Hz as [<-|Hz]; [|apply Hy, Hz].
      destruct (le_total x y) as [H|H]; [congruence|exact H].
Qed.

Lemma sort_by_sorted (l : list A) : StronglySorted (fun a b => le a b = true) (sort_by le l).
Proof.
  induction l as [|x r IH]; simpl.
  - constructor.
  - apply insert_sorted_sorted, IH.
Qed.

End Sorting.

Lemma StronglySorted_weaken {A} (R S : A -> A -> Prop) (l : list A) :
  (forall a b, R a b -> S a b) -> StronglySorted R l -> StronglySorted S l.
Proof.
  intros HRS. induction 1 as [|x r Hr IH Hx]; constructor; [exact IH|].
  rewrite Forall_forall in *. intros y Hy. apply HRS, Hx, Hy.
Qed.

(* ================================================================== *)
(** * What the where-objects of the handlers select *)
(* ================================================================== *)

Lemma find_existsb {A} (f : A -> bool) (l : list A) :
  find f l = None <-> existsb f l = false.
Proof.
  induction l as [|x r IH]; simpl; [tauto|].
  destruct (f x); simpl; [split; discriminate|exact IH].
Qed.

Lemma find_Some_existsb {A} (f : A -> bool) (l : list A) (x : A) :
  find f l = Some x -> existsb f l = true.
Proof.
  intro H. destruct (existsb f l) eqn:E; [reflexivity|].
  apply find_existsb in E. congruence.
Qed.

Lemma existsb_find {A} (f : A -> bool) (l : list A) :
  existsb f l = true -> exists x, find f l = Some x /\ In x l /\ f x = true.
Proof.
  intro H. destruct (find f l) as [x|] eqn:E.
  - exists x. apply find_some in E. tauto.
  - apply find_existsb in E. congruence.
Qed.

Lemma existsb_ext' {A} (f g : A -> bool) (l : list A) :
  (forall x, f x = g x) -> existsb f l = existsb g l.
Proof.
  intro H. induction l as [|x r IH]; simpl; [reflexivity|].
  rewrite H, IH. reflexivity.
Qed.

Lemma find_ext' {A} (f g : A -> bool) (l : list A) :
  (forall x, f x = g x) -> find f l = find g l.
Proof.
  intro H. induction l as [|x r IH]; simpl; [reflexivity|].
  rewrite H, IH. reflexivity.
Qed.

Lemma matches_owner_or_member (db : Db) (u : Id) (p : Project.t) :
  project_matches (projectMembers db)
    (ProjectWhereInput.with_OR (owner_or_member u) ProjectWhereInput.empty) p
  = visible db u p.
Proof.
  unfold visible, is_owner, is_member. simpl.
  rewrite !andb_true_r, orb_false_r. reflexivity.
Qed.

Lemma matches_project_open_to (db : Db) (u pid : Id) (p : Project.t) :
  project_matches (projectMembers db) (project_open_to u pid) p
  = (Project.id p =? pid) && visible db u p.
Proof.
  unfold visible, is_owner, is_member. simpl.
  rewrite !andb_true_r, orb_false_r. reflexivity.
Qed.

Lemma matches_owned_by (db : Db) (u pid : Id) (p : Project.t) :
  project_matches (projectMembers db) (owned_by u pid) p
  = (Project.id p =? pid) && is_owner u p.
Proof.
  unfold is_owner. simpl. rewrite !andb_true_r. reflexivity.
Qed.

Lemma matches_in_visible_project (db : Db) (u : Id) (t : Task.t) :
  task_matches db (in_visible_project u) t = task_visible db u t.
Proof.
  unfold task_matches, task_visible, sees_project, in_visible_project.
  cbn -[project_matches].
  apply existsb_ext'. intros p.
  rewrite matches_owner_or_member. reflexivity.
Qed.

Lemma matches_visible_task (db : Db) (u tid : Id) (t : Task.t) :
  task_matches db (visible_task u tid) t
  = (Task.id t =? tid) && task_visible db u t.
Proof.
  rewrite <- matches_in_visible_project.
  unfold task_matches, visible_task, in_visible_project.
  cbn -[project_matches]. rewrite !andb_true_r. reflexivity.
Qed.

Lemma find_project_open_to (db : Db) (u pid : Id) :
  prisma.project_findFirst db (project_open_to u pid)
  = ret (find (fun p => (Project.id p =? pid) && visible db u p) (projects db)).
Proof.
  unfold prisma.project_findFirst. simpl. f_equal.
  apply find_ext'. intro p. exact (matches_project_open_to db u pid p).
Qed.

Lemma find_owned_by (db : Db) (u pid : Id) :
  prisma.project_findFirst db (owned_by u pid)
  = ret (find (fun p => (Project.id p =? pid) && is_owner u p) (projects db)).
Proof.
  unfold prisma.project_findFirst. simpl. f_equal.
  apply find_ext'. intro p. exact (matches_owned_by db u pid p).
Qed.

Lemma find_visible_task (db : Db) (u tid : Id) :
  prisma.task_findFirst db (visible_task u tid)
  = ret (find (fun t => (Task.id t =? tid) && task_visible db u t) (tasks db)).
Proof.
  unfold prisma.task_findFirst. simpl. f_equal.
  apply find_ext'. intro t. exact (matches_visible_task db u tid t).
Qed.

Lemma NoDup_key_inj {A B} (key : A -> B) (l : list A) (x y : A) :
  NoDup (map key l) -> In x l -> In y l -> key x = key y -> x = y.
Proof.
  induction l as [|z r IH]; simpl; [tauto|].
  intros Hnd Hx Hy Hk. inversion Hnd as [|? ? Hnot Hr]; subst.
  destruct Hx as [->|Hx], Hy as [->|Hy].
  - reflexivity.
  - exfalso. apply Hnot. rewrite Hk. apply in_map, Hy.
  - exfalso. apply Hnot. rewrite <- Hk. apply in_map, Hx.
  - apply IH; assumption.
Qed.

Lemma find_by_key {A B} (key : A -> B) (f : A -> bool) (l : list A) (x : A) :
  NoDup (map key l) -> In x l -> f x = true ->
  (forall y, f y = true -> key y = key x) ->
  find f l = Some x.
Proof.
  intros Hnd Hx Hf Hk.
  destruct (find f l) as [y|] eqn:E.
  - apply find_some in E. destruct E as [Hy Hfy].
    f_equal. apply (NoDup_key_inj key l); auto.
  - exfalso. apply (find_none _ _ E) in Hx. congruence.
Qed.

(* ================================================================== *)
(** * Listings *)
(* ================================================================== *)

Lemma getProjects_no_filters (u : Id) (db : Db) :
  getProjects u no_filters db
  = (ok_data 200
       (data_projects
          (sort_by (leb_of (project_order (Project_createdAt, desc)))
             (filter (visible db u) (projects db)))), db).
Proof.
  unfold getProjects, prisma.project_findMany, no_filters, getProjects_where.
  cbn -[project_matches sort_by].
  rewrite (filter_ext _ (visible db u)); [reflexivity|].
  intro p. apply matches_owner_or_member.
Qed.

Lemma getProject_found (u : Id) (id : Id) (db : Db) :
  getProject u id db
  = match find (fun p => (Project.id p =? id) && visible db u p) (projects db) with
    | Some p => (ok_data 200 (data_project p), db)
    | None => (failure 404 "Project not found", db)
    end.
Proof.
  unfold getProject.
  change (ProjectWhereInput.with_id id
            (ProjectWhereInput.with_OR (owner_or_member u) ProjectWhereInput.empty))
    with (project_open_to u id).
  rewrite find_project_open_to. simpl.
  destruct (find _ _); reflexivity.
Qed.

(** C2.  A stored project is in the unfiltered listing of an actor exactly
    when the actor owns it or has a membership row for it, and the read by
    id gives the project to the actor under the same condition and answers
    404 otherwise. *)
Theorem project_visibility_decides_listing_and_read (db : Db) (u : Id) :
  (exists l,
     getProjects u no_filters db = (ok_data 200 (data_projects l), db)
     /\ forall P, In P l <-> In P (projects db) /\ visible db u P = true)
  /\ (forall P,
        NoDup (map Project.id (projects db)) ->
        In P (projects db) ->
        (visible db u P = true ->
           getProject u (Project.id P) db = (ok_data 200 (data_project P), db))
        /\ (visible db u P = false ->
           getProject u (Project.id P) db
           = (failure 404 "Project not found", db))).
Proof.
  split.
  - eexists. split; [apply getProjects_no_filters|].
    intro P. rewrite sort_by_In, filter_In. reflexivity.
  - intros P Hnd HP. rewrite getProject_found. split; intro Hv.
    + rewrite (find_by_key Project.id _ _ P Hnd HP); [reflexivity| |].
      * rewrite String.eqb_refl, Hv. reflexivity.
      * intros y Hy. apply andb_prop in Hy. destruct Hy as [Hy _].
        apply String.eqb_eq in Hy. exact Hy.
    + destruct (find _ _) as [y|] eqn:E; [|reflexivity].
      exfalso. apply find_some in E. destruct E as [Hy Hf].
      apply andb_prop in Hf. destruct Hf as [Hid Hvy].
      apply String.eqb_eq in Hid.
      assert (y = P) by (apply (NoDup_key_inj Project.id (projects db)); auto).
      subst y. congruence.
Qed.

End Facts.

Section OnSample.

#[local] Existing Instance Sample.locale.

Lemma project_visibility_decides_listing_and_read_witness :
  NoDup (map Project.id (projects Sample.db))
  /\ In Sample.p_redesign (projects Sample.db)
  /\ visible Sample.db Sample.marco Sample.p_redesign = true
  /\ getProject Sample.marco Sample.redesign Sample.db
     = (ok_data 200 (data_project Sample.p_redesign), Sample.db)
  /\ visible Sample.db Sample.xenia Sample.p_redesign = false
  /\ getProject Sample.xenia Sample.redesign Sample.db
     = (failure 404 "Project not found", Sample.db).
Proof.
  assert (Hnd : NoDup (map Project.id (projects Sample.db))).
  { simpl. repeat constructor; simpl; intuition discriminate. }
  assert (Hin : In Sample.p_redesign (projects Sample.db)) by (left; reflexivity).
  split; [exact Hnd|]. split; [exact Hin|].
  split; [reflexivity|].
  split.
  - apply (proj2 (project_visibility_decides_listing_and_read
                    Sample.db Sample.marco) Sample.p_redesign Hnd Hin).
    reflexivity.
  - split; [reflexivity|].
    apply (proj2 (project_visibility_decides_listing_and_read
                    Sample.db Sample.xenia) Sample.p_redesign Hnd Hin).
    reflexivity.
Defined.

End OnSample.

Section Facts.

Context {L : Locale}.

Lemma getTasks_where_project (u : Id) (q : TasksQuery) :
  TaskWhereInput.project (getTasks_where u q)
  = Some (ProjectWhereInput.with_OR (owner_or_member u) ProjectWhereInput.empty).
Proof.
  unfold getTasks_where, assign_if.
  destruct (truthy (tq_assigneeId q)), (truthy (tq_priority q)),
    (truthy (tq_status q)), (truthy (tq_projectId q)); reflexivity.
Qed.

Lemma task_matches_project (db : Db) (w : TaskWhereInput.t) (u : Id) (t : Task.t) :
  TaskWhereInput.project w
  = Some (ProjectWhereInput.with_OR (owner_or_member u) ProjectWhereInput.empty) ->
  task_matches db w t = true -> task_visible db u t = true.
Proof.
  intros Hw Hm. unfold task_matches in Hm. rewrite Hw in Hm.
  apply andb_prop in Hm. destruct Hm as [_ Hm].
  cbn -[project_matches] in Hm.
  unfold task_visible, sees_project.
  rewrite <- Hm. apply existsb_ext'. intro p.
  rewrite matches_owner_or_member. reflexivity.
Qed.

(** The task listing stays inside the visible set under every combination
    of its four filters. *)
Lemma getTasks_within_visible (u : Id) (q : TasksQuery) (db : Db) (t : Task.t) :
  In t (listed_tasks (fst (getTasks u q db))) ->
  In t (tasks db) /\ task_visible db u t = true.
Proof.
  unfold getTasks, prisma.task_findMany.
  destruct (task_where_valid (getTasks_where u q));
    cbn -[sort_by filter task_matches]; [|tauto].
  rewrite sort_by_In, filter_In. intros [Hin Hm]. split; [exact Hin|].
  eapply task_matches_project; [apply getTasks_where_project|exact Hm].
Qed.

(** The project listing stays inside the visible set as long as no search
    text is given, whatever the status filter. *)
Lemma getProjects_status_within_visible (u : Id) (st : QueryValue) (db : Db)
    (P : Project.t) :
  In P (listed_projects
          (fst (getProjects u {| pq_status := st; pq_search := None |} db))) ->
  In P (projects db) /\ visible db u P = true.
Proof.
  unfold getProjects, prisma.project_findMany, getProjects_where.
  cbn [pq_status pq_search truthy].
  destruct (project_where_valid _);
    cbn -[sort_by filter project_matches]; [|tauto].
  rewrite sort_by_In, filter_In. intros [Hin Hm]. split; [exact Hin|].
  rewrite <- matches_owner_or_member.
  destruct (truthy st); cbn -[existsb] in Hm |- *.
  - apply andb_prop in Hm. apply Hm.
  - exact Hm.
Qed.

End Facts.

Section OnSample.

#[local] Existing Instance Sample.locale.

(** C1.  With a search text the project listing leaves the visible set:
    Marco, who neither owns the project "Secret redesign" nor is a member
    of it, is given it when he searches for "secret". *)
Theorem getProjects_search_leaves_visible_set :
  visible Sample.db Sample.marco Sample.p_secret = false
  /\ listed_projects
       (fst (getProjects Sample.marco
               {| pq_status := None; pq_search := Some "secret" |} Sample.db))
     = [Sample.p_secret]
  /\ listed_projects (fst (getProjects Sample.marco no_filters Sample.db))
     = [Sample.p_redesign].
Proof.
  repeat split; vm_compute; reflexivity.
Qed.

End OnSample.

Section Facts.

Context {L : Locale}.

(* ================================================================== *)
(** * Refusals: missing and out of reach look the same *)
(* ================================================================== *)

Section Refusal.

Variable is_uuid : string -> bool.
Variable parse_datetime : string -> option DateTime.

Lemma missing_fails_access (op : Operation) (db : Db) (u id : Id) :
  target_stored op db id = false -> passes_access op db u id = false.
Proof.
  assert (HP : has_project db id = false -> forall f,
             existsb (fun p => (Project.id p =? id) && f p) (projects db) = false).
  { unfold has_project. intros H f.
    induction (projects db) as [|p r IH]; simpl in *; [reflexivity|].
    apply orb_false_elim in H. destruct H as [H1 H2].
    rewrite H1, IH by assumption. reflexivity. }
  assert (HT : has_task db id = false -> forall f,
             existsb (fun t => (Task.id t =? id) && f t) (tasks db) = false).
  { unfold has_task. intros H f.
    induction (tasks db) as [|p r IH]; simpl in *; [reflexivity|].
    apply orb_false_elim in H. destruct H as [H1 H2].
    rewrite H1, IH by assumption. reflexivity. }
  destruct op; simpl; intro H;
    unfold sees_project, owns_project, sees_task; auto.
Qed.

Lemma refused (op : Operation) (db : Db) (u id : Id) :
  passes_access op db u id = false -> run is_uuid parse_datetime op u id db = (refusal is_uuid parse_datetime op, db).
Proof.
  unfold refusal.
  destruct op; cbn [run passes_access rejected_input]; intro H.
  - rewrite getProject_found.
    apply find_existsb in H. rewrite H. reflexivity.
  - unfold updateProject.
    destruct (updateProjectSchema parse_datetime body); [reflexivity|].
    rewrite find_owned_by. apply find_existsb in H.
    simpl. rewrite H. reflexivity.
  - unfold deleteProject. rewrite find_owned_by.
    apply find_existsb in H. simpl. rewrite H. reflexivity.
  - unfold getTask. rewrite find_visible_task.
    apply find_existsb in H. simpl. rewrite H. reflexivity.
  - unfold updateTask.
    destruct (updateTaskSchema is_uuid parse_datetime body); [reflexivity|].
    rewrite find_visible_task. apply find_existsb in H.
    simpl. rewrite H. reflexivity.
  - unfold updateTaskStatus.
    destruct (status_included status_); [|reflexivity].
    rewrite find_visible_task. apply find_existsb in H.
    simpl. rewrite H. reflexivity.
  - unfold deleteTask. rewrite find_visible_task.
    apply find_existsb in H. simpl. rewrite H. reflexivity.
  - unfold addComment.
    destruct content as [| |text]; try reflexivity.
    destruct (content_missing (JString text)); [reflexivity|].
    rewrite find_visible_task. apply find_existsb in H.
    simpl. rewrite H. reflexivity.
Qed.

(** C3.  For each read or write of one project or one task, the answer
    to an actor who fails the access predicate of a stored resource is
    the answer given when the resource is not stored at all, and the
    database is left as it was in both cases.  That answer is the 404 of
    the operation whenever the request body is one the handler accepts; a
    body it does not accept is refused first, with the same 400 in both
    cases. *)
Theorem missing_and_denied_answer_alike (op : Operation) (u id : Id)
    (db_missing db_denied : Db) :
  target_stored op db_missing id = false ->
  target_stored op db_denied id = true ->
  passes_access op db_denied u id = false ->
  run is_uuid parse_datetime op u id db_missing = (refusal is_uuid parse_datetime op, db_missing)
  /\ run is_uuid parse_datetime op u id db_denied = (refusal is_uuid parse_datetime op, db_denied)
  /\ (rejected_input is_uuid parse_datetime op = None ->
      refusal is_uuid parse_datetime op = not_found op /\ status (refusal is_uuid parse_datetime op) = 404).
Proof.
  intros Hmissing _ Hdenied. split; [|split].
  - apply refused, missing_fails_access, Hmissing.
  - apply refused, Hdenied.
  - intro Hok. unfold refusal. rewrite Hok. split; reflexivity.
Qed.

End Refusal.

End Facts.

Section OnSample.

#[local] Existing Instance Sample.locale.

Lemma missing_and_denied_answer_alike_witness :
  let op := UpdateTaskStatus (JString "DONE") in
  let emptied := set_tasks Sample.db [] in
  run Sample.is_uuid Sample.parse_datetime op Sample.xenia Sample.wireframes emptied
  = (failure 404 "Task not found or you do not have permission", emptied)
  /\ run Sample.is_uuid Sample.parse_datetime op Sample.xenia Sample.wireframes
       Sample.db
     = (failure 404 "Task not found or you do not have permission", Sample.db).
Proof.
  intros op emptied.
  destruct (missing_and_denied_answer_alike Sample.is_uuid Sample.parse_datetime
              op Sample.xenia Sample.wireframes emptied Sample.db)
    as (H1 & H2 & _).
  - reflexivity.
  - reflexivity.
  - reflexivity.
  - split; [exact H1|exact H2].
Defined.

End OnSample.

Section Facts.

Context {L : Locale}.

(* ================================================================== *)
(** * Creating a task *)
(* ================================================================== *)

Lemma sees_project_stored (db : Db) (u pid : Id) :
  sees_project db u pid = true -> has_project db pid = true.
Proof.
  unfold sees_project, has_project. intro H.
  apply existsb_exists in H. destruct H as (p & Hin & Hp).
  apply andb_prop in Hp. apply existsb_exists. exists p. tauto.
Qed.

Lemma sees_project_is_user (db : Db) (u pid : Id) :
  references_ok db = true -> sees_project db u pid = true -> has_user db u = true.
Proof.
  unfold references_ok, sees_project. intros Hok H.
  apply andb_prop in Hok. destruct Hok as [Ho Hm].
  rewrite forallb_forall in Ho, Hm.
  apply existsb_exists in H. destruct H as (p & Hin & Hp).
  apply andb_prop in Hp. destruct Hp as [_ Hv].
  unfold visible in Hv. apply orb_prop in Hv. destruct Hv as [Hv|Hv].
  - unfold is_owner in Hv. apply String.eqb_eq in Hv. subst u. apply Ho, Hin.
  - unfold is_member in Hv. apply existsb_exists in Hv.
    destruct Hv as (m & Hmin & Hmp). apply andb_prop in Hmp.
    destruct Hmp as [_ Hu]. apply String.eqb_eq in Hu. subst u. apply Hm, Hmin.
Qed.

Section CreateTask.

Variable is_uuid : string -> bool.
Variable parse_datetime : string -> option DateTime.
Variable default_task_status : TaskStatus.
Variable default_priority : Priority.

Lemma createTask_run (u : Id) (body : CreateTaskBody) (v : CreateTaskData)
    (fresh : Id) (now : DateTime) (db : Db) :
  createTaskSchema is_uuid parse_datetime body = inr v ->
  createTask is_uuid parse_datetime default_task_status default_priority u body fresh now db
  = if sees_project db u (ctd_projectId v) then
      match truthy (ctd_assigneeId v) with
      | Some a =>
          if sees_project db a (ctd_projectId v)
          then insert_task parse_datetime default_task_status default_priority v fresh now db
          else (failure 400 "Assignee does not have access to this project", db)
      | None => insert_task parse_datetime default_task_status default_priority v fresh now db
      end
    else (failure 404 "Project not found or you do not have access", db).
Proof.
  intro Hv. unfold createTask. rewrite Hv.
  rewrite find_project_open_to.
  destruct (find _ (projects db)) as [p|] eqn:Ep.
  - replace (sees_project db u (ctd_projectId v)) with true
      by (symmetry; exact (find_Some_existsb _ _ Ep)).
    cbn [bind ret].
    destruct (truthy (ctd_assigneeId v)) as [a|]; [|reflexivity].
    rewrite find_project_open_to.
    destruct (find (fun q => (Project.id q =? ctd_projectId v) && visible db a q)
                (projects db)) as [p'|] eqn:Ea.
    + replace (sees_project db a (ctd_projectId v)) with true
        by (symmetry; exact (find_Some_existsb _ _ Ea)).
      reflexivity.
    + apply find_existsb in Ea.
      replace (sees_project db a (ctd_projectId v)) with false
        by (symmetry; exact Ea).
      reflexivity.
  - apply find_existsb in Ep.
    replace (sees_project db u (ctd_projectId v)) with false
      by (symmetry; exact Ep).
    reflexivity.
Qed.

Lemma accepted_assignee_is_uuid (body : CreateTaskBody) (v : CreateTaskData)
    (a : Id) :
  createTaskSchema is_uuid parse_datetime body = inr v -> ctd_assigneeId v = Some a ->
  is_uuid a = true.
Proof.
  unfold createTaskSchema.
  destruct (z_string (min_max 3 200) (ctb_title body));
    destruct (z_optional (z_string any_string) (ctb_description body));
    destruct (z_string is_uuid (ctb_projectId body));
    destruct (z_optional (z_enum Priority_of_string) (ctb_priority body));
    destruct (z_optional (z_string (is_datetime parse_datetime))
                (ctb_dueDate body));
    destruct (z_optional (z_string is_uuid) (ctb_assigneeId body))
      as [chosen|] eqn:E;
    try discriminate.
  intros Hv Ha. injection Hv as <-. simpl in Ha. subst chosen.
  destruct (ctb_assigneeId body) as [| |given]; simpl in E; try discriminate.
  destruct (is_uuid given) eqn:Es; simpl in E; [|discriminate].
  injection E as ->. exact Es.
Qed.

(** C5.  In a project that the actor sees, a task with assignee [A] is
    created (201, one new row, assigned to [A]) when [A] is owner or
    member of the project; when [A] is not, the answer is the 400
    "Assignee does not have access to this project", not a 404, and
    the database is unchanged. *)
Theorem createTask_assignee_must_be_in_project (u : Id) (body : CreateTaskBody)
    (v : CreateTaskData) (A : Id) (fresh : Id) (now : DateTime) (db : Db) :
  is_uuid "" = false ->
  createTaskSchema is_uuid parse_datetime body = inr v ->
  ctd_assigneeId v = Some A ->
  sees_project db u (ctd_projectId v) = true ->
  references_ok db = true ->
  has_task db fresh = false ->
  (sees_project db A (ctd_projectId v) = true ->
     createTask is_uuid parse_datetime default_task_status default_priority u body fresh now db
     = (ok_message 201 "Task created successfully"
          (Some (data_task (created_task parse_datetime default_task_status default_priority v fresh now))),
        set_tasks db (tasks db ++ [created_task parse_datetime default_task_status default_priority v fresh now])%list)
     /\ Task.assigneeId (created_task parse_datetime default_task_status default_priority v fresh now) = Some A)
  /\ (sees_project db A (ctd_projectId v) = false ->
     createTask is_uuid parse_datetime default_task_status default_priority u body fresh now db
     = (failure 400 "Assignee does not have access to this project", db)).
Proof.
  intros Hempty Hv HA Hu Hok Hfresh.
  rewrite (createTask_run u body fresh now db Hv), Hu, HA.
  assert (Ht : truthy (Some A) = Some A).
  { unfold truthy. destruct (A =? "") eqn:E; [|reflexivity].
    apply String.eqb_eq in E. subst A.
    rewrite (accepted_assignee_is_uuid body Hv HA) in Hempty. discriminate. }
  rewrite Ht. split; intro Hs; rewrite Hs; [|reflexivity].
  split; [|exact HA].
  unfold insert_task, prisma.task_create.
  cbn [Task.id Task.projectId Task.assigneeId created_task].
  rewrite Hfresh, (sees_project_stored _ _ _ Hu), HA.
  cbn [prisma.assignee_exists opt_test].
  rewrite (sees_project_is_user _ _ _ Hok Hs). reflexivity.
Qed.

End CreateTask.

End Facts.

Section OnSample.

#[local] Existing Instance Sample.locale.

Lemma createTask_assignee_must_be_in_project_witness :
  (exists row,
     Sample.createTask Sample.marco (new_task_body Sample.olivia)
       Sample.new_id 50%Z Sample.db
     = (ok_message 201 "Task created successfully" (Some (data_task row)),
        set_tasks Sample.db (tasks Sample.db ++ [row])%list)
     /\ Task.assigneeId row = Some Sample.olivia)
  /\ Sample.createTask Sample.marco (new_task_body Sample.xenia)
       Sample.new_id 50%Z Sample.db
     = (failure 400 "Assignee does not have access to this project", Sample.db).
Proof.
  split.
  - eexists.
    apply (createTask_assignee_must_be_in_project
             Sample.is_uuid Sample.parse_datetime TODO MEDIUM
             Sample.marco (new_task_body Sample.olivia)
             (v := new_task_data Sample.olivia) (A := Sample.olivia)
             Sample.new_id 50%Z Sample.db);
      reflexivity.
  - apply (createTask_assignee_must_be_in_project
             Sample.is_uuid Sample.parse_datetime TODO MEDIUM
             Sample.marco (new_task_body Sample.xenia)
             (v := new_task_data Sample.xenia) (A := Sample.xenia)
             Sample.new_id 50%Z Sample.db);
      reflexivity.
Defined.

End OnSample.

Section Facts.

Context {L : Locale}.

(* ================================================================== *)
(** * The assignee of a task *)
(* ================================================================== *)

Lemma assignee_in_project_set_tasks (db : Db) (ts : list Task.t) (t : Task.t) :
  assignee_in_project (set_tasks db ts) t = assignee_in_project db t.
Proof. reflexivity. Qed.

(** [createTask] keeps every assignee inside the project of the task. *)
Lemma createTask_keeps_assignee_invariant
    (is_uuid : string -> bool) (parse_datetime : string -> option DateTime)
    (st0 : TaskStatus) (pr0 : Priority)
    (u : Id) (body : CreateTaskBody) (fresh : Id) (now : DateTime) (db : Db) :
  is_uuid "" = false ->
  assignee_invariant db = true ->
  assignee_invariant
    (snd (createTask is_uuid parse_datetime st0 pr0 u body fresh now db)) = true.
Proof.
  intros Hempty Hinv.
  destruct (createTaskSchema is_uuid parse_datetime body) as [issues|v] eqn:Hv.
  { unfold createTask. rewrite Hv. exact Hinv. }
  rewrite (createTask_run is_uuid parse_datetime st0 pr0 u body fresh now db Hv).
  assert (Hinsert :
    assignee_in_project db (created_task parse_datetime st0 pr0 v fresh now) = true ->
    assignee_invariant (snd (insert_task parse_datetime st0 pr0 v fresh now db))
    = true).
  { intro Hrow. unfold insert_task, prisma.task_create.
    destruct (has_task db _); [exact Hinv|].
    destruct (negb (has_project db _)); [exact Hinv|].
    destruct (negb (prisma.assignee_exists db _)); [exact Hinv|].
    cbn [bind ret try_catch snd].
    unfold assignee_invariant. cbn [tasks set_tasks].
    rewrite forallb_app. cbn [forallb].
    rewrite andb_true_r.
    match goal with
    | |- forallb _ _ && assignee_in_project _ ?row = true =>
        change (assignee_invariant db && assignee_in_project db row = true)
    end.
    rewrite Hinv. exact Hrow. }
  destruct (sees_project db u (ctd_projectId v)); [|exact Hinv].
  destruct (ctd_assigneeId v) as [a|] eqn:Ha.
  - unfold truthy. destruct (a =? "") eqn:Ea.
    + apply String.eqb_eq in Ea. subst a.
      rewrite (accepted_assignee_is_uuid is_uuid parse_datetime body Hv Ha)
        in Hempty.
      discriminate.
    + destruct (sees_project db a (ctd_projectId v)) eqn:Hs; [|exact Hinv].
      apply Hinsert. unfold assignee_in_project, created_task.
      cbn [Task.assigneeId Task.projectId]. rewrite Ha. exact Hs.
  - cbn [truthy]. apply Hinsert.
    unfold assignee_in_project, created_task. cbn [Task.assigneeId].
    rewrite Ha. reflexivity.
Qed.

End Facts.

Section OnSample.

#[local] Existing Instance Sample.locale.

(** C4.  [updateTask] writes the assignee it is given without looking at
    the project: Marco, a member of "Redesign", hands the task
    "Wireframes" to Xenia, who is neither owner nor member of that
    project; the update is answered 200 and the invariant, which held
    before, no longer holds. *)
Theorem updateTask_assigns_outsider :
  assignee_invariant Sample.db = true
  /\ sees_project Sample.db Sample.xenia Sample.redesign = false
  /\ status (fst (Sample.updateTask Sample.marco Sample.wireframes
                    (reassign_body Sample.xenia) Sample.db)) = 200
  /\ (exists t,
        In t (tasks (snd (Sample.updateTask Sample.marco Sample.wireframes
                            (reassign_body Sample.xenia) Sample.db)))
        /\ Task.id t = Sample.wireframes
        /\ Task.projectId t = Sample.redesign
        /\ Task.assigneeId t = Some Sample.xenia)
  /\ assignee_invariant
       (snd (Sample.updateTask Sample.marco Sample.wireframes
               (reassign_body Sample.xenia) Sample.db)) = false.
Proof.
  split; [reflexivity|]. split; [reflexivity|]. split; [reflexivity|].
  split; [|reflexivity].
  eexists. split; [left; reflexivity|]. repeat split.
Qed.

End OnSample.

Section Facts.

Context {L : Locale}.

(* ================================================================== *)
(** * Changing a project and its roster *)
(* ================================================================== *)

Lemma not_owner_not_found (db : Db) (u pid : Id) :
  owns_project db u pid = false ->
  prisma.project_findFirst db (owned_by u pid) = ret None.
Proof.
  intro H. rewrite find_owned_by. f_equal. apply find_existsb. exact H.
Qed.

(** Without ownership none of the four handlers writes: each answers 404
    and returns the database it was given, member or not. *)
Lemma project_mutations_need_owner
    (parse_datetime : string -> option DateTime) (db : Db) (u pid : Id) :
  owns_project db u pid = false ->
  (forall body, snd (updateProject parse_datetime u pid body db) = db)
  /\ deleteProject u pid db
     = (failure 404 "Project not found or you do not have permission to delete it",
        db)
  /\ (forall body fresh,
        addMember u pid body fresh db
        = (failure 404 "Project not found or you do not have permission", db))
  /\ (forall memberId,
        removeMember u pid memberId db
        = (failure 404 "Project not found or you do not have permission", db)).
Proof.
  intro H. pose proof (not_owner_not_found db u pid H) as Hf.
  repeat split; intros.
  - unfold updateProject.
    destruct (updateProjectSchema parse_datetime body); [reflexivity|].
    rewrite Hf. reflexivity.
  - unfold deleteProject. rewrite Hf. reflexivity.
  - unfold addMember. rewrite Hf. reflexivity.
  - unfold removeMember. rewrite Hf. reflexivity.
Qed.

End Facts.

Section OnSample.

#[local] Existing Instance Sample.locale.

(** C6.  [removeMember] checks that the actor owns the project named in
    the path and then deletes the membership row named by [memberId],
    whichever project that row belongs to: Olivia, who owns "Redesign"
    and has no part in Xenia's project, removes Dana from it. *)
Theorem removeMember_reaches_foreign_project :
  owns_project Sample.db Sample.olivia Sample.secret = false
  /\ sees_project Sample.db Sample.olivia Sample.secret = false
  /\ In Sample.m_dana (projectMembers Sample.db)
  /\ ProjectMember.projectId Sample.m_dana = Sample.secret
  /\ removeMember Sample.olivia Sample.redesign Sample.link_dana Sample.db
     = (ok_message 200 "Member removed successfully" None,
        set_projectMembers Sample.db [Sample.m_marco])
  /\ membership_count
       (snd (removeMember Sample.olivia Sample.redesign Sample.link_dana Sample.db))
       Sample.secret Sample.dana = 0.
Proof.
  split; [reflexivity|]. split; [reflexivity|].
  split; [right; left; reflexivity|].
  repeat split.
Qed.

End OnSample.

Section Facts.

Context {L : Locale}.

Lemma count_find {A} (f : A -> bool) (l : list A) :
  length (filter f l) = 0 <-> find f l = None.
Proof.
  induction l as [|x r IH]; simpl; [tauto|].
  destruct (f x); simpl; [split; discriminate|exact IH].
Qed.

Lemma owns_project_stored (db : Db) (u pid : Id) :
  owns_project db u pid = true -> has_project db pid = true.
Proof.
  unfold owns_project, has_project. intro H.
  apply existsb_exists in H. destruct H as (p & Hin & Hp).
  apply andb_prop in Hp. apply existsb_exists. exists p. tauto.
Qed.

(** What [addMember] does once the ownership check has passed. *)
Lemma addMember_run (db : Db) (u pid V : Id) (role : JsonValue) (fresh : Id) :
  owns_project db u pid = true ->
  addMember u pid {| amb_userId := JString V; amb_role := role |} fresh db
  = if (membership_count db pid V =? 0)%nat then
      try_catch db (
        r <- prisma.projectMember_create db
               (ProjectMember.mk fresh pid V (role_or_default role)) ;;
        let (member, db') := r in
        ret (ok_message 201 "Member added successfully"
               (Some (data_member member)), db'))
    else (failure 400 "User is already a member of this project", db).
Proof.
  intro Hown. unfold addMember. rewrite find_owned_by.
  apply existsb_find in Hown. destruct Hown as (p & Hp & _). rewrite Hp.
  cbn [bind ret amb_userId amb_role prisma.projectMember_findUnique].
  unfold membership_count.
  destruct (find _ (projectMembers db)) as [m|] eqn:Em.
  - destruct (length _ =? 0)%nat eqn:El; [|reflexivity].
    apply Nat.eqb_eq, count_find in El. congruence.
  - apply count_find in Em. rewrite Em. reflexivity.
Qed.

(** Either nothing is written, or one row is appended for a pair that had
    none. *)
Lemma addMember_cases (db : Db) (u pid : Id) (body : AddMemberBody) (fresh : Id) :
  snd (addMember u pid body fresh db) = db
  \/ exists V role,
       membership_count db pid V = 0
       /\ snd (addMember u pid body fresh db)
          = set_projectMembers db
              (projectMembers db ++ [ProjectMember.mk fresh pid V role])%list.
Proof.
  destruct (owns_project db u pid) eqn:Hown.
  - destruct body as [[| |V] role].
    + left. unfold addMember. rewrite find_owned_by.
      apply existsb_find in Hown. destruct Hown as (p & Hp & _). rewrite Hp.
      reflexivity.
    + left. unfold addMember. rewrite find_owned_by.
      apply existsb_find in Hown. destruct Hown as (p & Hp & _). rewrite Hp.
      reflexivity.
    + rewrite (addMember_run db u pid V role fresh Hown).
      destruct (membership_count db pid V =? 0)%nat eqn:E; [|left; reflexivity].
      apply Nat.eqb_eq in E. unfold prisma.projectMember_create.
      destruct (has_member_id db _); [left; reflexivity|].
      destruct (existsb _ _); [left; reflexivity|].
      destruct (negb (has_project db _)); [left; reflexivity|].
      destruct (negb (has_user db _)); [left; reflexivity|].
      right. exists V, (role_or_default role). split; [exact E|reflexivity].
  - left.
    rewrite (proj1 (proj2 (proj2
               (project_mutations_need_owner (fun _ => None) db u pid Hown)))).
    reflexivity.
Qed.

Lemma addMember_call_keeps_unique (db : Db) (c : AddMemberCall) (pid V : Id) :
  membership_count db pid V <= 1 ->
  membership_count (addMember_call db c) pid V <= 1.
Proof.
  intro H. unfold addMember_call.
  destruct (addMember_cases db (amc_actor c) (amc_project c) (amc_body c)
              (amc_fresh c)) as [->|(V' & role & Hzero & ->)]; [exact H|].
  unfold membership_count in *. cbn [projectMembers set_projectMembers].
  rewrite filter_app, length_app. cbn [filter ProjectMember.projectId
    ProjectMember.userId].
  destruct (amc_project c =? pid) eqn:Ep; cbn [andb length]; [|lia].
  destruct (V' =? V) eqn:Ev; cbn [length]; [|lia].
  apply String.eqb_eq in Ep, Ev. subst. rewrite Hzero. lia.
Qed.

Lemma addMember_calls_keep_unique (calls : list AddMemberCall) (db : Db)
    (pid V : Id) :
  membership_count db pid V <= 1 ->
  membership_count (addMember_calls calls db) pid V <= 1.
Proof.
  revert db. induction calls as [|c r IH]; intros db H; [exact H|].
  apply IH, addMember_call_keeps_unique, H.
Qed.

(** C7.  On a project that the actor owns, adding a user who has no
    membership row there is answered 201 and appends exactly one row for
    the pair; adding a user who has one is answered 400 "User is already a
    member of this project" and changes nothing; and no sequence of
    [addMember] calls takes the number of rows of a pair above one. *)
Theorem addMember_at_most_once (db : Db) (u pid V : Id) (role : JsonValue)
    (fresh : Id) :
  owns_project db u pid = true ->
  has_user db V = true ->
  has_member_id db fresh = false ->
  let body := {| amb_userId := JString V; amb_role := role |} in
  (membership_count db pid V = 0 ->
     exists row,
       addMember u pid body fresh db
       = (ok_message 201 "Member added successfully" (Some (data_member row)),
          set_projectMembers db (projectMembers db ++ [row])%list)
       /\ ProjectMember.projectId row = pid
       /\ ProjectMember.userId row = V
       /\ membership_count (snd (addMember u pid body fresh db)) pid V = 1)
  /\ (membership_count db pid V <> 0 ->
        addMember u pid body fresh db
        = (failure 400 "User is already a member of this project", db))
  /\ (forall calls,
        membership_count db pid V <= 1 ->
        membership_count (addMember_calls calls db) pid V <= 1).
Proof.
  intros Hown Huser Hfresh body. unfold body.
  rewrite (addMember_run db u pid V role fresh Hown).
  split; [|split].
  - intro Hzero. rewrite Hzero. cbn [Nat.eqb].
    exists (ProjectMember.mk fresh pid V (role_or_default role)).
    unfold prisma.projectMember_create.
    cbn [ProjectMember.id ProjectMember.projectId ProjectMember.userId].
    rewrite Hfresh.
    assert (Hnone : existsb (fun m => (ProjectMember.projectId m =? pid)
                                      && (ProjectMember.userId m =? V))
                            (projectMembers db) = false).
    { apply find_existsb, count_find. exact Hzero. }
    rewrite Hnone, (owns_project_stored _ _ _ Hown), Huser.
    cbn [negb bind ret try_catch snd].
    repeat split.
    unfold membership_count in *. cbn [projectMembers set_projectMembers].
    rewrite filter_app, length_app, Hzero.
    cbn [filter ProjectMember.projectId ProjectMember.userId].
    rewrite !String.eqb_refl. reflexivity.
  - intro Hsome. destruct (membership_count db pid V) as [|n]; [congruence|].
    reflexivity.
  - intro calls. apply addMember_calls_keep_unique.
Qed.

End Facts.

Section OnSample.

#[local] Existing Instance Sample.locale.

Lemma addMember_at_most_once_witness :
  (exists row,
     addMember Sample.olivia Sample.redesign
       {| amb_userId := JString Sample.xenia; amb_role := JUndefined |}
       Sample.new_id Sample.db
     = (ok_message 201 "Member added successfully" (Some (data_member row)),
        set_projectMembers Sample.db (projectMembers Sample.db ++ [row])%list)
     /\ ProjectMember.projectId row = Sample.redesign
     /\ ProjectMember.userId row = Sample.xenia
     /\ membership_count
          (snd (addMember Sample.olivia Sample.redesign
                  {| amb_userId := JString Sample.xenia; amb_role := JUndefined |}
                  Sample.new_id Sample.db))
          Sample.redesign Sample.xenia = 1)
  /\ addMember Sample.olivia Sample.redesign
       {| amb_userId := JString Sample.marco; amb_role := JUndefined |}
       Sample.new_id Sample.db
     = (failure 400 "User is already a member of this project", Sample.db).
Proof.
  split.
  - apply (addMember_at_most_once Sample.db Sample.olivia Sample.redesign
             Sample.xenia JUndefined Sample.new_id); reflexivity.
  - apply (addMember_at_most_once Sample.db Sample.olivia Sample.redesign
             Sample.marco JUndefined Sample.new_id);
      [reflexivity|reflexivity|reflexivity|discriminate].
Defined.

End OnSample.

Section Facts.

Context {L : Locale}.

(* ================================================================== *)
(** * Changing the status of a task *)
(* ================================================================== *)

Lemma status_values_parse (s : string) :
  In s status_values <-> exists st, TaskStatus_of_string s = Some st.
Proof.
  split.
  - intros [<-|[<-|[<-|[<-|[]]]]]; eexists; reflexivity.
  - intros [st H]. unfold TaskStatus_of_string in H. unfold status_values.
    destruct (s =? "TODO") eqn:E1;
      [apply String.eqb_eq in E1; subst; simpl; tauto|].
    destruct (s =? "IN_PROGRESS") eqn:E2;
      [apply String.eqb_eq in E2; subst; simpl; tauto|].
    destruct (s =? "IN_REVIEW") eqn:E3;
      [apply String.eqb_eq in E3; subst; simpl; tauto|].
    destruct (s =? "DONE") eqn:E4;
      [apply String.eqb_eq in E4; subst; simpl; tauto|].
    discriminate.
Qed.

Lemma updateTaskStatus_run (db : Db) (u tid : Id) (s : string) (st : TaskStatus) :
  sees_task db u tid = true ->
  TaskStatus_of_string s = Some st ->
  exists t,
    In t (tasks db) /\ Task.id t = tid
    /\ updateTaskStatus u tid (JString s) db
       = (ok_message 200 "Task status updated successfully"
            (Some (data_task (with_status st t))),
          set_tasks db
            (map (fun q => if Task.id q =? tid then with_status st q else q)
                 (tasks db))).
Proof.
  intros Hsee Hs. unfold updateTaskStatus. cbn [status_included]. rewrite Hs.
  rewrite find_visible_task.
  apply existsb_find in Hsee. destruct Hsee as (t0 & Ht0 & _ & _). rewrite Ht0.
  cbn [bind ret]. unfold prisma.task_update.
  destruct (find (fun t => Task.id t =? tid) (tasks db)) as [t|] eqn:Et.
  - exists t. apply find_some in Et as Hfound. destruct Hfound as [Hin Hid].
    apply String.eqb_eq in Hid.
    split; [exact Hin|]. split; [exact Hid|]. reflexivity.
  - exfalso. apply find_some in Ht0. destruct Ht0 as [Hin Hm].
    apply andb_prop in Hm. destruct Hm as [Hid _].
    apply (find_none _ _ Et) in Hin. congruence.
Qed.

(** C8.  For a task that the actor sees, each of TODO, IN_PROGRESS,
    IN_REVIEW and DONE is accepted whatever status the task has: the answer
    is 200, the task carries the new status and the other rows are as they
    were.  Every other value is answered 400 "Invalid status" and the
    database is unchanged. *)
Theorem updateTaskStatus_any_of_four (db : Db) (u tid : Id) :
  sees_task db u tid = true ->
  (forall s, In s status_values ->
     exists st t,
       TaskStatus_to_string st = s
       /\ In t (tasks db) /\ Task.id t = tid
       /\ updateTaskStatus u tid (JString s) db
          = (ok_message 200 "Task status updated successfully"
               (Some (data_task (with_status st t))),
             set_tasks db
               (map (fun q => if Task.id q =? tid then with_status st q else q)
                    (tasks db)))
       /\ Task.status (with_status st t) = st)
  /\ (forall v, (forall s, In s status_values -> v <> JString s) ->
        updateTaskStatus u tid v db = (failure 400 "Invalid status", db)).
Proof.
  intro Hsee. split.
  - intros s Hs. apply status_values_parse in Hs as Hp. destruct Hp as [st Hst].
    destruct (updateTaskStatus_run db u tid s Hsee Hst) as (t & Hin & Hid & Hrun).
    exists st, t. repeat split; try assumption.
    destruct Hs as [<-|[<-|[<-|[<-|[]]]]]; injection Hst as <-; reflexivity.
  - intros v Hv. unfold updateTaskStatus.
    destruct (status_included v) as [st|] eqn:E; [|reflexivity].
    exfalso. destruct v as [| |s]; try discriminate. cbn in E.
    apply (Hv s); [|reflexivity].
    apply status_values_parse. exists st. exact E.
Qed.

End Facts.

Section OnSample.

#[local] Existing Instance Sample.locale.

Lemma updateTaskStatus_any_of_four_witness :
  (exists t,
     In t (tasks Sample.db) /\ Task.id t = Sample.wireframes
     /\ Task.status t = TODO
     /\ fst (updateTaskStatus Sample.marco Sample.wireframes (JString "DONE")
               Sample.db)
        = ok_message 200 "Task status updated successfully"
            (Some (data_task (with_status DONE t))))
  /\ updateTaskStatus Sample.marco Sample.wireframes (JString "CANCELLED")
       Sample.db
     = (failure 400 "Invalid status", Sample.db).
Proof.
  assert (Hsee : sees_task Sample.db Sample.marco Sample.wireframes = true)
    by reflexivity.
  destruct (updateTaskStatus_any_of_four Sample.db Sample.marco Sample.wireframes
              Hsee) as [Hgood Hbad].
  split.
  - destruct (Hgood "DONE") as (st & t & Hst & Hin & Hid & Hrun & _).
    { simpl. tauto. }
    destruct st; try discriminate Hst.
    destruct Hin as [<-|[<-|[<-|[]]]]; try discriminate Hid.
    exists Sample.t_wireframes.
    split; [left; reflexivity|]. split; [reflexivity|]. split; [reflexivity|].
    rewrite Hrun. reflexivity.
  - apply Hbad. intros s Hs. simpl in Hs.
    destruct Hs as [<-|[<-|[<-|[<-|[]]]]]; discriminate.
Defined.

End OnSample.

Section Facts.

Context {L : Locale}.

(* ================================================================== *)
(** * The order of the listings *)
(* ================================================================== *)

Lemma TaskStatus_rank_inj (a b : TaskStatus) :
  a = b <-> TaskStatus_rank a = TaskStatus_rank b.
Proof.
  split; [intros ->; reflexivity|].
  destruct a, b; simpl; intro H; try reflexivity; discriminate.
Qed.

Lemma Priority_rank_inj (a b : Priority) :
  a = b <-> Priority_rank a = Priority_rank b.
Proof.
  split; [intros ->; reflexivity|].
  destruct a, b; simpl; intro H; try reflexivity; discriminate.
Qed.

Lemma Priority_rank_order :
  Priority_rank LOW < Priority_rank MEDIUM
  /\ Priority_rank MEDIUM < Priority_rank HIGH
  /\ Priority_rank HIGH < Priority_rank URGENT.
Proof. simpl. lia. Qed.

(** The comparison that [getTasks] asks for is the order above. *)
Lemma getTasks_order_spec (a b : Task.t) :
  leb_of (task_order getTasks_orderBy) a b = true <-> listed_before a b.
Proof.
  unfold leb_of, task_order, getTasks_orderBy, listed_before.
  cbn [map compare_by task_key directed].
  rewrite (TaskStatus_rank_inj (Task.status a)),
    (Priority_rank_inj (Task.priority a)).
  destruct (Nat.compare_spec (TaskStatus_rank (Task.status a))
              (TaskStatus_rank (Task.status b))) as [Hs|Hs|Hs].
  - destruct (Nat.compare_spec (Priority_rank (Task.priority a))
                (Priority_rank (Task.priority b))) as [Hp|Hp|Hp];
      cbn [CompOpp].
    + destruct (Task.dueDate a) as [x|], (Task.dueDate b) as [y|];
        cbn [compare_nullable due_date_before].
      * destruct (Z.compare_spec x y) as [Hd|Hd|Hd].
        -- split; [|reflexivity]. intros _. right. split; [exact Hs|].
           right. split; [exact Hp|]. lia.
        -- split; [|reflexivity]. intros _. right. split; [exact Hs|].
           right. split; [exact Hp|]. lia.
        -- split; [discriminate|]. intro H. exfalso. lia.
      * split; [|reflexivity]. intros _. right. split; [exact Hs|].
        right. split; [exact Hp|]. exact I.
      * split; [discriminate|]. intro H. exfalso. lia.
      * split; [|reflexivity]. intros _. right. split; [exact Hs|].
        right. split; [exact Hp|]. exact I.
    + split; [discriminate|]. intro H. exfalso. lia.
    + split; [|reflexivity]. intros _. right. split; [exact Hs|]. left. exact Hp.
  - split; [|reflexivity]. intros _. left. exact Hs.
  - split; [discriminate|]. intro H. exfalso. lia.
Qed.


Lemma listed_before_total (a b : Task.t) : listed_before a b \/ listed_before b a.
Proof.
  unfold listed_before.
  rewrite !TaskStatus_rank_inj, !Priority_rank_inj.
  destruct (Task.dueDate a), (Task.dueDate b); cbn [due_date_before]; lia.
Qed.

Lemma listed_before_trans (a b c : Task.t) :
  listed_before a b -> listed_before b c -> listed_before a c.
Proof.
  unfold listed_before.
  rewrite !TaskStatus_rank_inj, !Priority_rank_inj.
  destruct (Task.dueDate a), (Task.dueDate b), (Task.dueDate c);
    cbn [due_date_before]; lia.
Qed.

Lemma getProjects_order_spec (a b : Project.t) :
  leb_of (project_order (Project_createdAt, desc)) a b = true <-> newer_first a b.
Proof.
  unfold leb_of, project_order, newer_first. cbn [directed].
  destruct (Z.compare_spec (Project.createdAt a) (Project.createdAt b));
    cbn [CompOpp]; split; intro; try discriminate; try reflexivity; lia.
Qed.

Lemma sorted_as_asked {A} (leb : A -> A -> bool) (R : A -> A -> Prop)
    (l : list A) :
  (forall a b, leb a b = true <-> R a b) ->
  (forall a b, R a b \/ R b a) ->
  (forall a b c, R a b -> R b c -> R a c) ->
  StronglySorted R (sort_by leb l).
Proof.
  intros Hspec Htotal Htrans.
  apply StronglySorted_weaken with (R := fun a b => leb a b = true).
  - intros a b. apply Hspec.
  - apply sort_by_sorted.
    + intros a b. rewrite !Hspec. apply Htotal.
    + intros a b c. rewrite !Hspec. apply Htrans.
Qed.

(** C9.  The tasks that [getTasks] lists are in the order status
    ascending, then priority descending with URGENT > HIGH > MEDIUM > LOW,
    then due date ascending with the tasks that have no due date last; the
    projects that [getProjects] lists are in the order creation time
    descending.  Both hold for every actor and every query. *)
Theorem listings_are_ordered (u : Id) (tq : TasksQuery) (pq : ProjectsQuery)
    (db : Db) :
  StronglySorted listed_before (listed_tasks (fst (getTasks u tq db)))
  /\ StronglySorted newer_first (listed_projects (fst (getProjects u pq db))).
Proof.
  split.
  - unfold getTasks, prisma.task_findMany.
    destruct (task_where_valid _); cbn -[sort_by filter task_order];
      [|constructor].
    apply sorted_as_asked.
    + apply getTasks_order_spec.
    + apply listed_before_total.
    + apply listed_before_trans.
  - unfold getProjects, prisma.project_findMany.
    destruct (project_where_valid _); cbn -[sort_by filter project_order];
      [|constructor].
    apply sorted_as_asked.
    + apply getProjects_order_spec.
    + intros a b. unfold newer_first. lia.
    + intros a b c. unfold newer_first. lia.
Qed.

End Facts.

Section OnSample.

#[local] Existing Instance Sample.locale.

(** The order on a run: Olivia's two tasks have the same status, so the
    URGENT one comes first. *)
Example getTasks_order_run :
  map Task.title
    (listed_tasks (fst (getTasks Sample.olivia Sample.no_task_filters Sample.db)))
  = ["Palette"; "Wireframes"].
Proof. reflexivity. Qed.

End OnSample.

Section Facts.

Context {L : Locale}.

(* ================================================================== *)
(** * Reading users *)
(* ================================================================== *)

Lemma getUsers_where_active (q : UsersQuery) (u : User.t) :
  user_matches (getUsers_where q) u = true -> User.isActive u = true.
Proof.
  unfold getUsers_where, assign_if.
  destruct (truthy (uq_search q)), (truthy (uq_role q));
    cbn -[existsb enum_is string_filter]; intro H;
    repeat (apply andb_prop in H; destruct H as [H ?]);
    destruct (User.isActive u); try reflexivity; discriminate.
Qed.


Lemma getUsers_lists_active (q : UsersQuery) (db : Db) (item : UserListItem) :
  In item (listed_users (fst (getUsers q db))) ->
  exists u, In u (users db) /\ User.isActive u = true /\ item = select_list_item u.
Proof.
  unfold getUsers, prisma.user_findMany.
  destruct (user_where_valid _); cbn -[sort_by filter user_matches];
    [|tauto].
  rewrite in_map_iff. intros (u & <- & Hu).
  rewrite sort_by_In, filter_In in Hu. destruct Hu as [Hin Hm].
  exists u. split; [exact Hin|]. split; [|reflexivity].
  apply (getUsers_where_active q), Hm.
Qed.

(** C10.  [getUser] does not look at the actor: for the id of a stored
    user, active or not, it answers 200 with that user's record, which
    has the stored id, email, first name, last name, avatar, role,
    [isActive] flag and creation time, and the numbers of the projects the
    user owns, the tasks assigned to the user and the comments the user
    wrote; it answers 404 exactly when no user has that id.  [getUsers]
    lists only users whose [isActive] is true, under every query. *)
Theorem getUser_any_getUsers_active_only (db : Db) :
  (forall u,
     NoDup (map User.id (users db)) -> In u (users db) ->
     exists d,
       getUser (User.id u) db = (ok_data 200 (data_user d), db)
       /\ ud_id d = User.id u
       /\ ud_email d = User.email u
       /\ ud_firstName d = User.firstName u
       /\ ud_lastName d = User.lastName u
       /\ ud_avatar d = User.avatar u
       /\ ud_role d = User.role u
       /\ ud_isActive d = User.isActive u
       /\ ud_createdAt d = User.createdAt u
       /\ ud_count_projects d
          = length (filter (fun p => Project.ownerId p =? User.id u) (projects db))
       /\ ud_count_tasks d
          = length (filter (fun t => option_id_eqb (Task.assigneeId t) (User.id u))
                      (tasks db))
       /\ ud_count_comments d
          = length (filter (fun c => Comment.authorId c =? User.id u)
                      (comments db)))
  /\ (forall i,
        getUser i db = (failure 404 "User not found", db)
        <-> has_user db i = false)
  /\ (forall q item,
        In item (listed_users (fst (getUsers q db))) ->
        exists u,
          In u (users db) /\ User.isActive u = true
          /\ item = select_list_item u)
  /\ (forall q u,
        NoDup (map User.id (users db)) -> In u (users db) ->
        User.isActive u = false ->
        ~ In (select_list_item u) (listed_users (fst (getUsers q db)))).
Proof.
  split; [|split; [|split]].
  - intros u Hnd Hin. exists (select_detail db u).
    split; [|repeat split].
    unfold getUser, prisma.user_findUnique. cbn [bind ret try_catch].
    rewrite (find_by_key User.id _ _ u Hnd Hin); [reflexivity| |].
    + apply String.eqb_refl.
    + intros y Hy. apply String.eqb_eq in Hy. exact Hy.
  - intro i. unfold getUser, prisma.user_findUnique, has_user.
    cbn [bind ret try_catch].
    destruct (find _ (users db)) as [u|] eqn:E.
    + rewrite (find_Some_existsb _ _ E). split; discriminate.
    + apply find_existsb in E. rewrite E. split; reflexivity.
  - intros q item. apply getUsers_lists_active.
  - intros q u Hnd Hin Hoff Hlisted.
    apply getUsers_lists_active in Hlisted.
    destruct Hlisted as (u' & Hin' & Hon & Heq).
    assert (u = u').
    { apply (NoDup_key_inj User.id (users db)); auto.
      change (uli_id (select_list_item u) = uli_id (select_list_item u')).
      rewrite Heq. reflexivity. }
    subst u'. congruence.
Qed.

End Facts.

Section OnSample.

#[local] Existing Instance Sample.locale.

Lemma getUser_any_getUsers_active_only_witness :
  User.isActive (Sample.user Sample.dana "Dana" false) = false
  /\ getUser Sample.dana Sample.db
     = (ok_data 200
          (data_user
             {| ud_id := Sample.dana; ud_email := "Dana@example.com";
                ud_firstName := "Dana"; ud_lastName := "Doe";
                ud_avatar := None; ud_role := USER; ud_isActive := false;
                ud_createdAt := 0%Z; ud_count_projects := 0;
                ud_count_tasks := 0; ud_count_comments := 0 |}),
        Sample.db)
  /\ ~ In (select_list_item (Sample.user Sample.dana "Dana" false))
          (listed_users (fst (getUsers {| uq_search := None; uq_role := None |}
                                 Sample.db))).
Proof.
  assert (Hnd : NoDup (map User.id (users Sample.db))).
  { simpl. repeat constructor; simpl; intuition discriminate. }
  assert (Hin : In (Sample.user Sample.dana "Dana" false) (users Sample.db)).
  { simpl. tauto. }
  destruct (getUser_any_getUsers_active_only Sample.db) as (Hread & _ & _ & Hoff).
  split; [reflexivity|]. split.
  - destruct (Hread _ Hnd Hin)
      as (d & Hrun & H1 & H2 & H3 & H4 & H5 & H6 & H7 & H8 & H9 & H10 & H11).
    destruct d. cbn in H1, H2, H3, H4, H5, H6, H7, H8, H9, H10, H11.
    subst. exact Hrun.
  - apply (Hoff _ _ Hnd Hin). reflexivity.
Defined.

End OnSample.

Section Facts.

Context {L : Locale}.

(* ================================================================== *)
(** * Creating, changing and deleting a project *)
(* ================================================================== *)

Lemma find_app' {A} (f : A -> bool) (l1 l2 : list A) :
  find f (l1 ++ l2)
  = match find f l1 with
    | Some x => Some x
    | None => find f l2
    end.
Proof.
  induction l1 as [|x r IH]; simpl; [reflexivity|].
  destruct (f x); [reflexivity|exact IH].
Qed.

Lemma existsb_map' {A B} (f : B -> bool) (g : A -> B) (l : list A) :
  existsb f (map g l) = existsb (fun x => f (g x)) l.
Proof.
  induction l as [|x r IH]; simpl; [reflexivity|]. rewrite IH. reflexivity.
Qed.

Lemma map_id_on {A} (g : A -> A) (l : list A) :
  (forall x, g x = x) -> map g l = l.
Proof.
  intro H. induction l as [|x r IH]; simpl; [reflexivity|].
  rewrite H, IH. reflexivity.
Qed.

Lemma filter_all {A} (f : A -> bool) (l : list A) :
  existsb (fun x => negb (f x)) l = false -> filter f l = l.
Proof.
  induction l as [|x r IH]; simpl; [reflexivity|].
  intro H. apply orb_false_elim in H. destruct H as [Hx Hr].
  apply negb_false_iff in Hx. rewrite Hx, IH by exact Hr. reflexivity.
Qed.

Lemma set_projects_same (db : Db) : set_projects db (projects db) = db.
Proof. destruct db; reflexivity. Qed.

Lemma set_projectMembers_same (db : Db) :
  set_projectMembers db (projectMembers db) = db.
Proof. destruct db; reflexivity. Qed.

Lemma set_tasks_same (db : Db) : set_tasks db (tasks db) = db.
Proof. destruct db; reflexivity. Qed.

Lemma not_stored_find_project (db : Db) (pid : Id) (f : Project.t -> bool) :
  has_project db pid = false ->
  find (fun p => (Project.id p =? pid) && f p) (projects db) = None.
Proof.
  unfold has_project. intro H.
  induction (projects db) as [|p r IH]; simpl in *; [reflexivity|].
  apply orb_false_elim in H. destruct H as [H1 H2].
  rewrite H1. simpl. apply IH, H2.
Qed.

Lemma not_stored_find_task (db : Db) (tid : Id) (f : Task.t -> bool) :
  has_task db tid = false ->
  find (fun t => (Task.id t =? tid) && f t) (tasks db) = None.
Proof.
  unfold has_task. intro H.
  induction (tasks db) as [|p r IH]; simpl in *; [reflexivity|].
  apply orb_false_elim in H. destruct H as [H1 H2].
  rewrite H1. simpl. apply IH, H2.
Qed.

Lemma getProject_appended (db : Db) (w : Id) (p : Project.t) :
  has_project db (Project.id p) = false ->
  forall db', db' = set_projects db (projects db ++ [p])%list ->
  getProject w (Project.id p) db'
  = if visible db' w p
    then (ok_data 200 (data_project p), db')
    else (failure 404 "Project not found", db').
Proof.
  intros Hfresh db' ->. rewrite getProject_found. cbn [projects set_projects].
  rewrite find_app'.
  rewrite (not_stored_find_project db (Project.id p) _ Hfresh).
  cbn [find]. rewrite String.eqb_refl. cbn [andb].
  destruct (visible _ w p); reflexivity.
Qed.

(** X1.  A project created from an accepted body belongs to the actor:
    the answer is 201, one row is appended with the generated id and the
    actor as owner, and a read by id right after gives that row to the
    actor and 404 to every user who is neither its owner nor a member. *)
Theorem createProject_owner_sees_it
    (parse_datetime : string -> option DateTime) (st0 : ProjectStatus)
    (u : Id) (body : CreateProjectBody) (v : CreateProjectData)
    (fresh : Id) (now : DateTime) (db : Db) :
  createProjectSchema parse_datetime body = inr v ->
  has_user db u = true ->
  has_project db fresh = false ->
  exists p db',
    createProject parse_datetime st0 u body fresh now db
    = (ok_message 201 "Project created successfully" (Some (data_project p)), db')
    /\ projects db' = (projects db ++ [p])%list
    /\ Project.id p = fresh /\ Project.ownerId p = u
    /\ Project.name p = cpd_name v
    /\ getProject u fresh db' = (ok_data 200 (data_project p), db')
    /\ (forall w, visible db' w p = false ->
          getProject w fresh db' = (failure 404 "Project not found", db')).
Proof.
  intros Hv Hu Hfresh. unfold createProject. rewrite Hv.
  unfold prisma.project_create. cbn [Project.id Project.ownerId].
  rewrite Hfresh, Hu. cbn [negb bind ret try_catch].
  eexists. eexists. split; [reflexivity|].
  split; [reflexivity|]. split; [reflexivity|]. split; [reflexivity|].
  split; [reflexivity|].
  split.
  - match goal with
    | |- getProject _ _ (set_projects _ (_ ++ [?p])) = _ =>
        pose proof (@getProject_appended db u p Hfresh _ eq_refl) as Hg;
        cbn [Project.id] in Hg; rewrite Hg
    end.
    unfold visible at 1, is_owner. cbn [Project.ownerId].
    rewrite String.eqb_refl. reflexivity.
  - intros w Hw.
    match goal with
    | |- getProject _ _ (set_projects _ (_ ++ [?p])) = _ =>
        pose proof (@getProject_appended db w p Hfresh _ eq_refl) as Hg;
        cbn [Project.id] in Hg; rewrite Hg
    end.
    rewrite Hw. reflexivity.
Qed.

End Facts.

Section OnSample.

#[local] Existing Instance Sample.locale.

Lemma createProject_owner_sees_it_witness :
  exists p db',
    createProject Sample.parse_datetime ACTIVE Sample.marco
      {| cpb_name := JString "Launch"; cpb_description := JUndefined;
         cpb_startDate := JUndefined; cpb_endDate := JNull |}
      Sample.new_id 60%Z Sample.db
    = (validation_error ["endDate"], Sample.db)
    /\ createProject Sample.parse_datetime ACTIVE Sample.marco
         {| cpb_name := JString "Launch"; cpb_description := JUndefined;
            cpb_startDate := JUndefined; cpb_endDate := JUndefined |}
         Sample.new_id 60%Z Sample.db
       = (ok_message 201 "Project created successfully" (Some (data_project p)),
          db')
    /\ Project.ownerId p = Sample.marco
    /\ getProject Sample.marco Sample.new_id db' = (ok_data 200 (data_project p), db')
    /\ getProject Sample.olivia Sample.new_id db'
       = (failure 404 "Project not found", db').
Proof.
  destruct (createProject_owner_sees_it Sample.parse_datetime ACTIVE Sample.marco
              {| cpb_name := JString "Launch"; cpb_description := JUndefined;
                 cpb_startDate := JUndefined; cpb_endDate := JUndefined |}
              (v := Build_CreateProjectData "Launch" None None None)
              Sample.new_id 60%Z Sample.db)
    as (p & db' & Hrun & Hps & Hid & Hown & Hname & Hme & Hothers);
    try reflexivity.
  exists p, db'. split; [reflexivity|]. split; [exact Hrun|].
  split; [exact Hown|]. split; [exact Hme|].
  apply Hothers.
  injection Hrun as <- <-. reflexivity.
Defined.

End OnSample.

Section Facts.

Context {L : Locale}.

(** X2.  [createProject] validates before anything else: a name that is
    not a string of 3 to 100 UTF-16 code units (the length zod compares,
    JavaScript's [String.prototype.length]) is answered 400 "Validation
    error" with the issue on [name], whoever asks, and nothing is
    written. *)
Theorem createProject_rejects_bad_name
    (parse_datetime : string -> option DateTime) (st0 : ProjectStatus)
    (u : Id) (body : CreateProjectBody) (fresh : Id) (now : DateTime) (db : Db) :
  (forall s, cpb_name body = JString s ->
             utf16_length s < 3 \/ 100 < utf16_length s) ->
  exists issues,
    createProject parse_datetime st0 u body fresh now db
    = (validation_error issues, db)
    /\ In "name" issues.
Proof.
  intro Hname. unfold createProject, createProjectSchema.
  assert (Hz : z_string (min_max 3 100) (cpb_name body) = None).
  { destruct (cpb_name body) as [| |s]; try reflexivity.
    cbn [z_string]. unfold min_max.
    destruct (Hname s eq_refl) as [H|H].
    - apply Nat.leb_gt in H. rewrite H. reflexivity.
    - apply Nat.leb_gt in H. rewrite H, andb_false_r. reflexivity. }
  rewrite Hz. eexists. split; [reflexivity|]. left. reflexivity.
Qed.

End Facts.

Section OnSample.

#[local] Existing Instance Sample.locale.

Lemma createProject_rejects_bad_name_witness :
  String.length (Sample.e_acute ++ Sample.e_acute) = 4
  /\ exists issues,
    createProject Sample.parse_datetime ACTIVE Sample.marco
      {| cpb_name := JString (Sample.e_acute ++ Sample.e_acute);
         cpb_description := JUndefined;
         cpb_startDate := JUndefined; cpb_endDate := JUndefined |}
      Sample.new_id 60%Z Sample.db
    = (validation_error issues, Sample.db)
    /\ In "name" issues.
Proof.
  split; [reflexivity|].
  apply createProject_rejects_bad_name.
  intros s H. injection H as <-. left. vm_compute. lia.
Defined.

End OnSample.

Section Facts.

Context {L : Locale}.

Lemma updateProject_cases (parse_datetime : string -> option DateTime)
    (u pid : Id) (body : UpdateProjectBody) (db : Db) :
  snd (updateProject parse_datetime u pid body db) = db
  \/ exists d,
       owns_project db u pid = true
       /\ snd (updateProject parse_datetime u pid body db)
          = set_projects db
              (map (fun q => if Project.id q =? pid then prisma.project_apply d q
                             else q)
                   (projects db)).
Proof.
  unfold updateProject.
  destruct (updateProjectSchema parse_datetime body) as [issues|v];
    [left; reflexivity|].
  rewrite find_owned_by.
  destruct (find _ (projects db)) as [p|] eqn:Ep; [|left; reflexivity].
  cbn [bind ret]. unfold prisma.project_update.
  destruct (find (fun p0 => Project.id p0 =? pid) (projects db));
    [|left; reflexivity].
  right. eexists. split; [|reflexivity].
  exact (find_Some_existsb _ _ Ep).
Qed.

(** X3.  [updateProject] changes neither the id nor the owner of any
    project and leaves memberships and tasks alone, so after it every user
    sees and owns exactly the projects they saw and owned before. *)
Theorem updateProject_keeps_access (parse_datetime : string -> option DateTime)
    (u pid : Id) (body : UpdateProjectBody) (db : Db) :
  let db' := snd (updateProject parse_datetime u pid body db) in
  map Project.id (projects db') = map Project.id (projects db)
  /\ map Project.ownerId (projects db') = map Project.ownerId (projects db)
  /\ projectMembers db' = projectMembers db
  /\ tasks db' = tasks db
  /\ (forall w q, sees_project db' w q = sees_project db w q)
  /\ (forall w q, owns_project db' w q = owns_project db w q).
Proof.
  intro db'. subst db'.
  destruct (updateProject_cases parse_datetime u pid body db)
    as [->|(d & _ & ->)]; [repeat split; reflexivity|].
  cbn [projects projectMembers tasks set_projects].
  split; [|split; [|split; [|split; [|split]]]]; try reflexivity.
  - rewrite map_map. apply map_ext. intro p.
    destruct (Project.id p =? pid); reflexivity.
  - rewrite map_map. apply map_ext. intro p.
    destruct (Project.id p =? pid); reflexivity.
  - intros w q. unfold sees_project. cbn [projects set_projects].
    rewrite existsb_map'. apply existsb_ext'. intro p.
    destruct (Project.id p =? pid); reflexivity.
  - intros w q. unfold owns_project. cbn [projects set_projects].
    rewrite existsb_map'. apply existsb_ext'. intro p.
    destruct (Project.id p =? pid); reflexivity.
Qed.

Lemma existsb_filter_out {A} (f : A -> bool) (l : list A) :
  existsb f (filter (fun x => negb (f x)) l) = false.
Proof.
  induction l as [|x r IH]; [reflexivity|].
  cbn [filter]. destruct (f x) eqn:E; cbn [negb]; [exact IH|].
  cbn [existsb]. rewrite E, IH. reflexivity.
Qed.

Lemma existsb_filter_keeps {A} (keep g : A -> bool) (l : list A) :
  (forall x, g x = true -> keep x = true) ->
  existsb g (filter keep l) = existsb g l.
Proof.
  intro H. induction l as [|x r IH]; [reflexivity|].
  cbn [filter existsb]. destruct (keep x) eqn:E.
  - cbn [existsb]. rewrite IH. reflexivity.
  - rewrite IH. destruct (g x) eqn:G; [|reflexivity].
    apply H in G. congruence.
Qed.

(** X4.  When the owner deletes a project the answer is 200 and the
    project is gone for everyone, the owner included: a read by id is
    answered 404.  What each user sees of the other projects is as
    before. *)
Theorem deleteProject_removes_for_all (u pid : Id) (db : Db) :
  owns_project db u pid = true ->
  exists db',
    deleteProject u pid db
    = (ok_message 200 "Project deleted successfully" None, db')
    /\ has_project db' pid = false
    /\ (forall w, getProject w pid db' = (failure 404 "Project not found", db'))
    /\ (forall w q, q <> pid -> sees_project db' w q = sees_project db w q).
Proof.
  intro Hown. unfold deleteProject. rewrite find_owned_by.
  apply existsb_find in Hown as Hp. destruct Hp as (p & Hp & _). rewrite Hp.
  cbn [bind ret]. unfold prisma.project_delete.
  rewrite (owns_project_stored _ _ _ Hown). cbn [bind ret try_catch].
  eexists. split; [reflexivity|].
  assert (Hgone : has_project (prisma.cascade_project db pid) pid = false).
  { unfold has_project, prisma.cascade_project. cbn [projects].
    apply existsb_filter_out. }
  split; [exact Hgone|]. split.
  - intro w. rewrite getProject_found.
    rewrite (not_stored_find_project _ pid _ Hgone). reflexivity.
  - intros w q Hq. unfold sees_project, prisma.cascade_project. cbn [projects].
    rewrite (existsb_ext' _ (fun p => (Project.id p =? q) && visible db w p)).
    + apply existsb_filter_keeps. intros x Hx.
      apply andb_prop in Hx. destruct Hx as [Hx _].
      apply String.eqb_eq in Hx. apply negb_true_iff, String.eqb_neq. congruence.
    + intro x. destruct (Project.id x =? q) eqn:E; [|reflexivity].
      apply String.eqb_eq in E. cbn [andb]. unfold visible, is_member.
      cbn [projectMembers]. f_equal.
      apply existsb_filter_keeps. intros m Hm.
      apply andb_prop in Hm. destruct Hm as [Hm _].
      apply String.eqb_eq in Hm. apply negb_true_iff, String.eqb_neq. congruence.
Qed.

End Facts.

Section OnSample.

#[local] Existing Instance Sample.locale.

Lemma deleteProject_removes_for_all_witness :
  exists db',
    deleteProject Sample.olivia Sample.redesign Sample.db
    = (ok_message 200 "Project deleted successfully" None, db')
    /\ getProject Sample.olivia Sample.redesign db'
       = (failure 404 "Project not found", db')
    /\ sees_project db' Sample.dana Sample.secret = true.
Proof.
  destruct (deleteProject_removes_for_all Sample.olivia Sample.redesign Sample.db)
    as (db' & Hrun & _ & Hgone & Hrest); [reflexivity|].
  exists db'. split; [exact Hrun|]. split; [apply Hgone|].
  rewrite Hrest; [reflexivity|discriminate].
Defined.

End OnSample.

Section Facts.

Context {L : Locale}.

(** X5.  [removeMember] by the owner: a stored membership row is deleted
    (200) and every other row is kept in place; an id that names no row is
    answered by the error middleware with 404 "Record not found", and
    nothing is written. *)
Theorem removeMember_by_owner (u pid memberId : Id) (db : Db) :
  owns_project db u pid = true ->
  (has_member_id db memberId = true ->
     removeMember u pid memberId db
     = (ok_message 200 "Member removed successfully" None,
        set_projectMembers db
          (filter (fun m => negb (ProjectMember.id m =? memberId))
                  (projectMembers db))))
  /\ (has_member_id db memberId = false ->
        removeMember u pid memberId db = (failure 404 "Record not found", db)).
Proof.
  intro Hown. unfold removeMember. rewrite find_owned_by.
  apply existsb_find in Hown. destruct Hown as (p & Hp & _). rewrite Hp.
  cbn [bind ret]. unfold prisma.projectMember_delete.
  split; intros ->; reflexivity.
Qed.

End Facts.

Section OnSample.

#[local] Existing Instance Sample.locale.

Lemma removeMember_by_owner_witness :
  removeMember Sample.olivia Sample.redesign Sample.link_marco Sample.db
  = (ok_message 200 "Member removed successfully" None,
     set_projectMembers Sample.db [Sample.m_dana])
  /\ removeMember Sample.olivia Sample.redesign Sample.nobody Sample.db
     = (failure 404 "Record not found", Sample.db).
Proof.
  split.
  - apply (removeMember_by_owner Sample.olivia Sample.redesign Sample.link_marco
             Sample.db); reflexivity.
  - apply (removeMember_by_owner Sample.olivia Sample.redesign Sample.nobody
             Sample.db); reflexivity.
Defined.

End OnSample.

Section Facts.

Context {L : Locale}.

(** X6.  [addMember] does not check the user itself: a well-formed id
    that names no user is refused by the foreign key and answered 400
    "Invalid foreign key reference"; a body without a [userId] string is
    refused by the client and answered 400 "Invalid data provided".  In
    both cases nothing is written. *)
Theorem addMember_unknown_user (u pid : Id) (body : AddMemberBody) (fresh : Id)
    (db : Db) :
  owns_project db u pid = true ->
  (forall V, amb_userId body = JString V ->
     has_user db V = false ->
     membership_count db pid V = 0 ->
     has_member_id db fresh = false ->
     addMember u pid body fresh db
     = (failure 400 "Invalid foreign key reference", db))
  /\ ((forall V, amb_userId body <> JString V) ->
      addMember u pid body fresh db = (failure 400 "Invalid data provided", db)).
Proof.
  intro Hown. split.
  - intros V HV Huser Hzero Hfresh. destruct body as [uid role].
    cbn [amb_userId] in HV. subst uid.
    rewrite (addMember_run db u pid V role fresh Hown), Hzero. cbn [Nat.eqb].
    unfold prisma.projectMember_create.
    cbn [ProjectMember.id ProjectMember.projectId ProjectMember.userId].
    rewrite Hfresh.
    assert (Hnone : existsb (fun m => (ProjectMember.projectId m =? pid)
                                      && (ProjectMember.userId m =? V))
                            (projectMembers db) = false).
    { apply find_existsb, count_find. exact Hzero. }
    rewrite Hnone, (owns_project_stored _ _ _ Hown), Huser. reflexivity.
  - intro Hnot. unfold addMember. rewrite find_owned_by.
    apply existsb_find in Hown. destruct Hown as (p & Hp & _). rewrite Hp.
    destruct body as [[| |V] role]; cbn [amb_userId] in *;
      [reflexivity|reflexivity|].
    exfalso. apply (Hnot V). reflexivity.
Qed.

End Facts.

Section OnSample.

#[local] Existing Instance Sample.locale.

Lemma addMember_unknown_user_witness :
  addMember Sample.olivia Sample.redesign
    {| amb_userId := JString Sample.nobody; amb_role := JString "LEAD" |}
    Sample.new_id Sample.db
  = (failure 400 "Invalid foreign key reference", Sample.db)
  /\ addMember Sample.olivia Sample.redesign
       {| amb_userId := JUndefined; amb_role := JString "LEAD" |}
       Sample.new_id Sample.db
     = (failure 400 "Invalid data provided", Sample.db).
Proof.
  split.
  - apply (proj1 (addMember_unknown_user Sample.olivia Sample.redesign
                    {| amb_userId := JString Sample.nobody;
                       amb_role := JString "LEAD" |}
                    Sample.new_id Sample.db eq_refl) Sample.nobody);
      reflexivity.
  - apply (proj2 (addMember_unknown_user Sample.olivia Sample.redesign
                    {| amb_userId := JUndefined; amb_role := JString "LEAD" |}
                    Sample.new_id Sample.db eq_refl)).
    intros V H. discriminate H.
Defined.

End OnSample.

Section Facts.

Context {L : Locale}.

Lemma removeMember_run (u pid memberId : Id) (db : Db) :
  owns_project db u pid = true ->
  removeMember u pid memberId db
  = if has_member_id db memberId
    then (ok_message 200 "Member removed successfully" None,
          set_projectMembers db
            (filter (fun m => negb (ProjectMember.id m =? memberId))
                    (projectMembers db)))
    else (failure 404 "Record not found", db).
Proof.
  intro Hown. unfold removeMember. rewrite find_owned_by.
  apply existsb_find in Hown. destruct Hown as (p & Hp & _). rewrite Hp.
  cbn [bind ret]. unfold prisma.projectMember_delete.
  destruct (has_member_id db memberId); reflexivity.
Qed.

Lemma addMember_added (db : Db) (u pid V : Id) (role : JsonValue) (fresh : Id) :
  owns_project db u pid = true ->
  has_user db V = true ->
  has_member_id db fresh = false ->
  membership_count db pid V = 0 ->
  addMember u pid {| amb_userId := JString V; amb_role := role |} fresh db
  = (ok_message 201 "Member added successfully"
       (Some (data_member (ProjectMember.mk fresh pid V (role_or_default role)))),
     set_projectMembers db
       (projectMembers db
        ++ [ProjectMember.mk fresh pid V (role_or_default role)])%list).
Proof.
  intros Hown Huser Hfresh Hzero.
  rewrite (addMember_run db u pid V role fresh Hown), Hzero. cbn [Nat.eqb].
  unfold prisma.projectMember_create.
  cbn [ProjectMember.id ProjectMember.projectId ProjectMember.userId].
  rewrite Hfresh.
  assert (Hnone : existsb (fun m => (ProjectMember.projectId m =? pid)
                                    && (ProjectMember.userId m =? V))
                          (projectMembers db) = false).
  { apply find_existsb, count_find. exact Hzero. }
  rewrite Hnone, (owns_project_stored _ _ _ Hown), Huser. reflexivity.
Qed.

(** X7.  Removing the row that [addMember] has just created gives back
    the database as it was before the two calls. *)
Theorem addMember_then_removeMember (db : Db) (u pid V : Id) (role : JsonValue)
    (fresh : Id) :
  owns_project db u pid = true ->
  has_user db V = true ->
  has_member_id db fresh = false ->
  membership_count db pid V = 0 ->
  removeMember u pid fresh
    (snd (addMember u pid {| amb_userId := JString V; amb_role := role |}
            fresh db))
  = (ok_message 200 "Member removed successfully" None, db).
Proof.
  intros Hown Huser Hfresh Hzero.
  rewrite (addMember_added db u pid V role fresh Hown Huser Hfresh Hzero).
  cbn [snd]. rewrite removeMember_run by exact Hown.
  unfold has_member_id. cbn [projectMembers set_projectMembers].
  rewrite existsb_app. cbn [existsb ProjectMember.id].
  rewrite String.eqb_refl, orb_true_r.
  rewrite filter_app. cbn [filter ProjectMember.id].
  rewrite String.eqb_refl. cbn [negb]. rewrite app_nil_r.
  rewrite filter_all.
  - destruct db; reflexivity.
  - rewrite <- Hfresh. unfold has_member_id. apply existsb_ext'.
    intro m. apply negb_involutive.
Qed.

End Facts.

Section OnSample.

#[local] Existing Instance Sample.locale.

Lemma addMember_then_removeMember_witness :
  removeMember Sample.olivia Sample.redesign Sample.new_id
    (snd (addMember Sample.olivia Sample.redesign
            {| amb_userId := JString Sample.xenia; amb_role := JNull |}
            Sample.new_id Sample.db))
  = (ok_message 200 "Member removed successfully" None, Sample.db).
Proof.
  apply addMember_then_removeMember; reflexivity.
Defined.

End OnSample.

Section Facts.

Context {L : Locale}.

Lemma getTasks_no_filters (u : Id) (db : Db) (t : Task.t) :
  In t (listed_tasks
          (fst (getTasks u
                  {| tq_projectId := None; tq_status := None;
                     tq_priority := None; tq_assigneeId := None |} db)))
  <-> In t (tasks db) /\ task_visible db u t = true.
Proof.
  unfold getTasks, prisma.task_findMany, getTasks_where, assign_if.
  cbn -[sort_by filter task_matches].
  rewrite sort_by_In, filter_In, matches_in_visible_project. reflexivity.
Qed.

(** X8.  Membership gives read access and no more: once [addMember] has
    added a user, that user sees the project and is listed every task of
    it, while the set of projects the user owns is as before. *)
Theorem addMember_grants_read_access (db : Db) (u pid V : Id) (role : JsonValue)
    (fresh : Id) :
  owns_project db u pid = true ->
  has_user db V = true ->
  has_member_id db fresh = false ->
  membership_count db pid V = 0 ->
  let db' := snd (addMember u pid {| amb_userId := JString V; amb_role := role |}
                    fresh db) in
  sees_project db' V pid = true
  /\ (forall t, In t (tasks db) -> Task.projectId t = pid ->
        In t (listed_tasks
                (fst (getTasks V
                        {| tq_projectId := None; tq_status := None;
                           tq_priority := None; tq_assigneeId := None |} db'))))
  /\ (forall q, owns_project db' V q = owns_project db V q).
Proof.
  intros Hown Huser Hfresh Hzero db'. subst db'.
  rewrite (addMember_added db u pid V role fresh Hown Huser Hfresh Hzero).
  cbn [snd].
  assert (Hsees : sees_project
                    (set_projectMembers db
                       (projectMembers db
                        ++ [ProjectMember.mk fresh pid V (role_or_default role)]))
                    V pid = true).
  { unfold sees_project, owns_project in *. cbn [projects set_projectMembers].
    apply existsb_exists in Hown. destruct Hown as (p & Hin & Hp).
    apply andb_prop in Hp. destruct Hp as [Hid _].
    apply existsb_exists. exists p. split; [exact Hin|].
    rewrite Hid. cbn [andb]. unfold visible, is_member.
    cbn [projectMembers set_projectMembers]. rewrite existsb_app.
    cbn [existsb ProjectMember.projectId ProjectMember.userId].
    apply String.eqb_eq in Hid. rewrite Hid, !String.eqb_refl.
    cbn [andb orb]. rewrite !orb_true_r. reflexivity. }
  split; [exact Hsees|]. split.
  - intros t Hin Hpid. apply getTasks_no_filters. split; [exact Hin|].
    unfold task_visible. rewrite Hpid. exact Hsees.
  - intro q. reflexivity.
Qed.

End Facts.

Section OnSample.

#[local] Existing Instance Sample.locale.

Lemma addMember_grants_read_access_witness :
  sees_project Sample.db Sample.xenia Sample.redesign = false
  /\ In Sample.t_palette
       (listed_tasks
          (fst (getTasks Sample.xenia
                  {| tq_projectId := None; tq_status := None;
                     tq_priority := None; tq_assigneeId := None |}
                  (snd (addMember Sample.olivia Sample.redesign
                          {| amb_userId := JString Sample.xenia;
                             amb_role := JUndefined |}
                          Sample.new_id Sample.db))))).
Proof.
  split; [reflexivity|].
  destruct (addMember_grants_read_access Sample.db Sample.olivia Sample.redesign
              Sample.xenia JUndefined Sample.new_id)
    as (_ & Htasks & _); try reflexivity.
  apply Htasks; [right; left; reflexivity|reflexivity].
Defined.

End OnSample.

Section Facts.

Context {L : Locale}.

(* ================================================================== *)
(** * Reading, changing and deleting a task *)
(* ================================================================== *)

Lemma getTask_found (u tid : Id) (db : Db) :
  getTask u tid db
  = match find (fun t => (Task.id t =? tid) && task_visible db u t) (tasks db) with
    | Some t => (ok_data 200 (data_task t), db)
    | None => (failure 404 "Task not found", db)
    end.
Proof.
  unfold getTask. rewrite find_visible_task. cbn [bind ret try_catch].
  destruct (find _ _); reflexivity.
Qed.

Lemma createTask_created
    (is_uuid : string -> bool) (parse_datetime : string -> option DateTime)
    (st0 : TaskStatus) (pr0 : Priority)
    (u : Id) (body : CreateTaskBody) (fresh : Id) (now : DateTime) (db : Db) :
  status (fst (createTask is_uuid parse_datetime st0 pr0 u body fresh now db)) = 201 ->
  exists v,
    createTaskSchema is_uuid parse_datetime body = inr v
    /\ sees_project db u (ctd_projectId v) = true
    /\ has_task db fresh = false
    /\ createTask is_uuid parse_datetime st0 pr0 u body fresh now db
       = (ok_message 201 "Task created successfully"
            (Some (data_task (created_task parse_datetime st0 pr0 v fresh now))),
          set_tasks db
            (tasks db ++ [created_task parse_datetime st0 pr0 v fresh now])%list).
Proof.
  destruct (createTaskSchema is_uuid parse_datetime body) as [issues|v] eqn:Hv.
  { unfold createTask. rewrite Hv. discriminate. }
  rewrite (createTask_run is_uuid parse_datetime st0 pr0 u body fresh now db Hv).
  assert (Hinsert :
    status (fst (insert_task parse_datetime st0 pr0 v fresh now db)) = 201 ->
    has_task db fresh = false
    /\ insert_task parse_datetime st0 pr0 v fresh now db
       = (ok_message 201 "Task created successfully"
            (Some (data_task (created_task parse_datetime st0 pr0 v fresh now))),
          set_tasks db
            (tasks db ++ [created_task parse_datetime st0 pr0 v fresh now])%list)).
  { unfold insert_task, prisma.task_create.
    cbn [Task.id created_task].
    destruct (has_task db fresh); [discriminate|].
    destruct (negb (has_project db _)); [discriminate|].
    destruct (negb (prisma.assignee_exists db _)); [discriminate|].
    intros _. split; reflexivity. }
  destruct (sees_project db u (ctd_projectId v)) eqn:Hu; [|discriminate].
  intro H. exists v. split; [reflexivity|]. split; [exact Hu|].
  destruct (truthy (ctd_assigneeId v)) as [a|].
  - destruct (sees_project db a (ctd_projectId v)); [|discriminate].
    apply Hinsert, H.
  - apply Hinsert, H.
Qed.

(** X9.  A task that [createTask] has created (201) carries the generated
    id and can be read by id right away by exactly the users who see its
    project; everyone else is answered 404 "Task not found". *)
Theorem createTask_then_getTask
    (is_uuid : string -> bool) (parse_datetime : string -> option DateTime)
    (st0 : TaskStatus) (pr0 : Priority)
    (u : Id) (body : CreateTaskBody) (fresh : Id) (now : DateTime) (db : Db) :
  status (fst (createTask is_uuid parse_datetime st0 pr0 u body fresh now db)) = 201 ->
  exists t db',
    createTask is_uuid parse_datetime st0 pr0 u body fresh now db
    = (ok_message 201 "Task created successfully" (Some (data_task t)), db')
    /\ Task.id t = fresh
    /\ Task.status t = st0
    /\ sees_project db u (Task.projectId t) = true
    /\ (forall w,
          getTask w fresh db'
          = if sees_project db w (Task.projectId t)
            then (ok_data 200 (data_task t), db')
            else (failure 404 "Task not found", db')).
Proof.
  intro H. destruct (createTask_created _ _ _ _ _ _ _ _ _ H)
    as (v & Hv & Hu & Hfresh & Hrun).
  eexists. eexists. split; [exact Hrun|].
  split; [reflexivity|]. split; [reflexivity|]. split; [exact Hu|].
  intro w. rewrite getTask_found. cbn [tasks set_tasks].
  rewrite find_app', (not_stored_find_task db fresh _ Hfresh).
  unfold created_task. cbn [find Task.id Task.projectId].
  rewrite String.eqb_refl. cbn [andb].
  unfold task_visible. cbn [Task.projectId].
  change (sees_project (set_tasks db _) w (ctd_projectId v))
    with (sees_project db w (ctd_projectId v)).
  destruct (sees_project db w (ctd_projectId v)); reflexivity.
Qed.

End Facts.

Section OnSample.

#[local] Existing Instance Sample.locale.

Lemma createTask_then_getTask_witness :
  exists t db',
    Sample.createTask Sample.marco (new_task_body Sample.olivia)
      Sample.new_id 50%Z Sample.db
    = (ok_message 201 "Task created successfully" (Some (data_task t)), db')
    /\ Task.status t = TODO
    /\ getTask Sample.marco Sample.new_id db' = (ok_data 200 (data_task t), db')
    /\ getTask Sample.xenia Sample.new_id db'
       = (failure 404 "Task not found", db').
Proof.
  destruct (createTask_then_getTask Sample.is_uuid Sample.parse_datetime
              TODO MEDIUM Sample.marco (new_task_body Sample.olivia)
              Sample.new_id 50%Z Sample.db)
    as (t & db' & Hrun & Hid & Hst & Hu & Hread); [reflexivity|].
  exists t, db'. split; [exact Hrun|]. split; [exact Hst|].
  injection Hrun as <- <-. split.
  - rewrite Hread. reflexivity.
  - rewrite Hread. reflexivity.
Defined.

End OnSample.

Section Facts.

Context {L : Locale}.

Lemma task_write_cases (db db' : Db) (tid : Id) (d : prisma.TaskUpdateInput)
    (t : Task.t) :
  prisma.task_update db tid d = inr (t, db') ->
  db' = set_tasks db
          (map (fun q => if Task.id q =? tid then prisma.task_apply d q else q)
               (tasks db)).
Proof.
  unfold prisma.task_update.
  destruct (find _ (tasks db)); [|discriminate].
  destruct (negb _); [discriminate|].
  intro H. injection H as _ <-. reflexivity.
Qed.

Lemma updateTask_cases
    (is_uuid : string -> bool) (parse_datetime : string -> option DateTime)
    (u tid : Id) (body : UpdateTaskBody) (db : Db) :
  snd (updateTask is_uuid parse_datetime u tid body db) = db
  \/ exists d,
       snd (updateTask is_uuid parse_datetime u tid body db)
       = set_tasks db
           (map (fun q => if Task.id q =? tid then prisma.task_apply d q else q)
                (tasks db)).
Proof.
  unfold updateTask.
  destruct (updateTaskSchema is_uuid parse_datetime body) as [issues|v];
    [left; reflexivity|].
  rewrite find_visible_task.
  destruct (find _ (tasks db)) as [t|]; [|left; reflexivity].
  cbn [bind ret].
  destruct (prisma.task_update db tid _) as [e|[t' db']] eqn:E;
    [left; reflexivity|].
  right. eexists. cbn [bind ret try_catch snd].
  apply (task_write_cases _ _ _ E).
Qed.

Lemma updateTaskStatus_cases (u tid : Id) (v : JsonValue) (db : Db) :
  snd (updateTaskStatus u tid v db) = db
  \/ exists d,
       snd (updateTaskStatus u tid v db)
       = set_tasks db
           (map (fun q => if Task.id q =? tid then prisma.task_apply d q else q)
                (tasks db)).
Proof.
  unfold updateTaskStatus.
  destruct (status_included v) as [st|]; [|left; reflexivity].
  rewrite find_visible_task.
  destruct (find _ (tasks db)) as [t|]; [|left; reflexivity].
  cbn [bind ret].
  destruct (prisma.task_update db tid _) as [e|[t' db']] eqn:E;
    [left; reflexivity|].
  right. eexists. cbn [bind ret try_catch snd].
  apply (task_write_cases _ _ _ E).
Qed.

Lemma task_write_keeps_access (db : Db) (tid : Id) (d : prisma.TaskUpdateInput) :
  let db' := set_tasks db
               (map (fun q => if Task.id q =? tid then prisma.task_apply d q else q)
                    (tasks db)) in
  map Task.id (tasks db') = map Task.id (tasks db)
  /\ map Task.projectId (tasks db') = map Task.projectId (tasks db)
  /\ (forall w q, sees_task db' w q = sees_task db w q).
Proof.
  cbn [tasks set_tasks]. split; [|split].
  - rewrite map_map. apply map_ext. intro t.
    destruct (Task.id t =? tid); reflexivity.
  - rewrite map_map. apply map_ext. intro t.
    destruct (Task.id t =? tid); reflexivity.
  - intros w q. unfold sees_task. cbn [tasks set_tasks].
    rewrite existsb_map'. apply existsb_ext'. intro t.
    destruct (Task.id t =? tid); reflexivity.
Qed.

(** X10.  Neither [updateTask] nor [updateTaskStatus] can move a task to
    another project or change its id: after either call every user sees
    exactly the tasks they saw before. *)
Theorem task_updates_keep_access
    (is_uuid : string -> bool) (parse_datetime : string -> option DateTime)
    (u tid : Id) (body : UpdateTaskBody) (v : JsonValue) (db : Db) :
  (let db' := snd (updateTask is_uuid parse_datetime u tid body db) in
   map Task.id (tasks db') = map Task.id (tasks db)
   /\ map Task.projectId (tasks db') = map Task.projectId (tasks db)
   /\ (forall w q, sees_task db' w q = sees_task db w q))
  /\ (let db' := snd (updateTaskStatus u tid v db) in
      map Task.id (tasks db') = map Task.id (tasks db)
      /\ map Task.projectId (tasks db') = map Task.projectId (tasks db)
      /\ (forall w q, sees_task db' w q = sees_task db w q)).
Proof.
  split.
  - destruct (updateTask_cases is_uuid parse_datetime u tid body db)
      as [->|(d & ->)]; [repeat split; reflexivity|].
    apply task_write_keeps_access.
  - destruct (updateTaskStatus_cases u tid v db)
      as [->|(d & ->)]; [repeat split; reflexivity|].
    apply task_write_keeps_access.
Qed.

Lemma sees_task_find (db : Db) (u tid : Id) :
  sees_task db u tid = true ->
  (exists t, find (fun t => (Task.id t =? tid) && task_visible db u t) (tasks db)
             = Some t)
  /\ (exists t, find (fun t => Task.id t =? tid) (tasks db) = Some t
                /\ In t (tasks db) /\ Task.id t = tid).
Proof.
  intro H. apply existsb_find in H. destruct H as (t & Ht & Hin & Hm).
  split; [exists t; exact Ht|].
  apply andb_prop in Hm. destruct Hm as [Hid _].
  destruct (find (fun t => Task.id t =? tid) (tasks db)) as [t'|] eqn:E.
  - exists t'. apply find_some in E. destruct E as [Hin' Hid'].
    apply String.eqb_eq in Hid'. auto.
  - apply (find_none _ _ E) in Hin. congruence.
Qed.

Lemma updateTask_run
    (is_uuid : string -> bool) (parse_datetime : string -> option DateTime)
    (u tid : Id) (body : UpdateTaskBody) (v : UpdateTaskData) (db : Db) :
  updateTaskSchema is_uuid parse_datetime body = inr v ->
  sees_task db u tid = true ->
  exists d,
    prisma.tu_assigneeId d = utd_assigneeId v
    /\ updateTask is_uuid parse_datetime u tid body db
       = try_catch db (
           r <- prisma.task_update db tid d ;;
           let (task, db') := r in
           ret (ok_message 200 "Task updated successfully"
                  (Some (data_task task)), db')).
Proof.
  intros Hv Hsee. unfold updateTask. rewrite Hv, find_visible_task.
  destruct (proj1 (sees_task_find db u tid Hsee)) as (t & Ht). rewrite Ht.
  cbn [bind ret]. eexists. split; [|reflexivity]. reflexivity.
Qed.

Lemma written_rows (tid : Id) (g : Task.t -> Task.t) (l : list Task.t) (t : Task.t) :
  (forall q, Task.id (g q) = Task.id q) ->
  In t (map (fun q => if Task.id q =? tid then g q else q) l) ->
  Task.id t = tid ->
  exists q, In q l /\ t = g q.
Proof.
  intros Hg Hin Hid. apply in_map_iff in Hin. destruct Hin as (q & Hq & Hin).
  exists q. split; [exact Hin|].
  destruct (Task.id q =? tid) eqn:E; [symmetry; exact Hq|].
  subst t. apply String.eqb_neq in E. congruence.
Qed.

(** X11.  The only check that [updateTask] makes on a new assignee is the
    foreign key: an id that names no user is answered 400 "Invalid foreign
    key reference" and nothing is written; the id of any user is written
    (200), with no look at the project; [null] clears the assignee
    (200). *)
Theorem updateTask_assignee_only_needs_to_exist
    (is_uuid : string -> bool) (parse_datetime : string -> option DateTime)
    (u tid : Id) (body : UpdateTaskBody) (v : UpdateTaskData) (db : Db) :
  updateTaskSchema is_uuid parse_datetime body = inr v ->
  sees_task db u tid = true ->
  let r := updateTask is_uuid parse_datetime u tid body db in
  (forall a, utd_assigneeId v = Some (Some a) -> has_user db a = false ->
     r = (failure 400 "Invalid foreign key reference", db))
  /\ (forall a, utd_assigneeId v = Some (Some a) -> has_user db a = true ->
        status (fst r) = 200
        /\ forall t, In t (tasks (snd r)) -> Task.id t = tid ->
                     Task.assigneeId t = Some a)
  /\ (utd_assigneeId v = Some None ->
        status (fst r) = 200
        /\ forall t, In t (tasks (snd r)) -> Task.id t = tid ->
                     Task.assigneeId t = None).
Proof.
  intros Hv Hsee r. subst r.
  destruct (updateTask_run is_uuid parse_datetime u tid body db Hv Hsee)
    as (d & Hd & ->).
  destruct (proj2 (sees_task_find db u tid Hsee)) as (t0 & Ht0 & _ & _).
  unfold prisma.task_update. rewrite Ht0, Hd.
  split; [|split].
  - intros a -> Ha. cbn [opt_test prisma.assignee_exists]. rewrite Ha.
    reflexivity.
  - intros a Ha Huser. rewrite Ha. cbn [opt_test prisma.assignee_exists].
    rewrite Huser. cbn [negb bind ret try_catch fst snd].
    split; [reflexivity|]. cbn [tasks set_tasks]. intros t Hin Hid.
    destruct (@written_rows tid (prisma.task_apply d) (tasks db) t
                (fun q => eq_refl) Hin Hid) as (q & _ & ->).
    unfold prisma.task_apply. cbn [Task.assigneeId]. rewrite Hd, Ha.
    reflexivity.
  - intros Hnull. rewrite Hnull. cbn [opt_test prisma.assignee_exists].
    cbn [negb bind ret try_catch fst snd].
    split; [reflexivity|]. cbn [tasks set_tasks]. intros t Hin Hid.
    destruct (@written_rows tid (prisma.task_apply d) (tasks db) t
                (fun q => eq_refl) Hin Hid) as (q & _ & ->).
    unfold prisma.task_apply. cbn [Task.assigneeId]. rewrite Hd, Hnull.
    reflexivity.
Qed.

End Facts.

Section OnSample.

#[local] Existing Instance Sample.locale.

Lemma updateTask_assignee_only_needs_to_exist_witness :
  Sample.updateTask Sample.marco Sample.wireframes (reassign_body Sample.nobody)
    Sample.db
  = (failure 400 "Invalid foreign key reference", Sample.db)
  /\ status (fst (Sample.updateTask Sample.marco Sample.wireframes
                    (reassign_body Sample.dana) Sample.db)) = 200.
Proof.
  split.
  - pose proof (updateTask_assignee_only_needs_to_exist
                  Sample.is_uuid Sample.parse_datetime Sample.marco
                  Sample.wireframes (reassign_body Sample.nobody)
                  (v := Build_UpdateTaskData None None None None None
                          (Some (Some Sample.nobody)))
                  Sample.db eq_refl eq_refl) as H.
    cbv zeta in H. destruct H as (H & _ & _).
    apply (H Sample.nobody); reflexivity.
  - pose proof (updateTask_assignee_only_needs_to_exist
                  Sample.is_uuid Sample.parse_datetime Sample.marco
                  Sample.wireframes (reassign_body Sample.dana)
                  (v := Build_UpdateTaskData None None None None None
                          (Some (Some Sample.dana)))
                  Sample.db eq_refl eq_refl) as H.
    cbv zeta in H. destruct H as (_ & H & _).
    apply (H Sample.dana); reflexivity.
Defined.

End OnSample.

Section Facts.

Context {L : Locale}.

Lemma updateTaskStatus_written (db : Db) (u tid : Id) (s : string) (st : TaskStatus) :
  sees_task db u tid = true ->
  TaskStatus_of_string s = Some st ->
  snd (updateTaskStatus u tid (JString s) db)
  = set_tasks db
      (map (fun q => if Task.id q =? tid then with_status st q else q) (tasks db)).
Proof.
  intros Hsee Hs.
  destruct (updateTaskStatus_run db u tid s Hsee Hs) as (t & _ & _ & ->).
  reflexivity.
Qed.

(** X12.  Status changes do not depend on what was there: after two
    accepted [updateTaskStatus] calls on the same task the database is the
    one that the second call alone would have produced. *)
Theorem updateTaskStatus_last_write_wins (db : Db) (u1 u2 tid : Id)
    (s1 s2 : string) :
  sees_task db u1 tid = true ->
  sees_task db u2 tid = true ->
  In s1 status_values ->
  In s2 status_values ->
  snd (updateTaskStatus u2 tid (JString s2)
         (snd (updateTaskStatus u1 tid (JString s1) db)))
  = snd (updateTaskStatus u2 tid (JString s2) db).
Proof.
  intros H1 H2 Hs1 Hs2.
  apply status_values_parse in Hs1, Hs2.
  destruct Hs1 as [st1 Hs1], Hs2 as [st2 Hs2].
  rewrite (updateTaskStatus_written db u1 tid s1 H1 Hs1).
  rewrite (updateTaskStatus_written db u2 tid s2 H2 Hs2).
  rewrite updateTaskStatus_written with (st := st2); [|
    destruct (task_write_keeps_access db tid
                {| prisma.tu_title := None; prisma.tu_description := None;
                   prisma.tu_status := Some st1; prisma.tu_priority := None;
                   prisma.tu_dueDate := None; prisma.tu_assigneeId := None |})
      as (_ & _ & Hsame); rewrite <- H2; apply Hsame
  | exact Hs2].
  unfold set_tasks. cbn [users projects projectMembers tasks comments].
  f_equal. rewrite map_map. apply map_ext. intro q.
  destruct (Task.id q =? tid) eqn:E.
  - cbn [with_status Task.id]. rewrite E. reflexivity.
  - rewrite E. reflexivity.
Qed.

End Facts.

Section OnSample.

#[local] Existing Instance Sample.locale.

Lemma updateTaskStatus_last_write_wins_witness :
  snd (updateTaskStatus Sample.olivia Sample.wireframes (JString "TODO")
         (snd (updateTaskStatus Sample.marco Sample.wireframes (JString "DONE")
                 Sample.db)))
  = Sample.db.
Proof.
  rewrite (@updateTaskStatus_last_write_wins _ Sample.db Sample.marco Sample.olivia
             Sample.wireframes "DONE" "TODO");
    [reflexivity|reflexivity|reflexivity|simpl; tauto|simpl; tauto].
Defined.

End OnSample.

Section Facts.

Context {L : Locale}.

Lemma find_filtered_out {A} (key f : A -> bool) (l : list A) :
  find (fun x => key x && f x) (filter (fun x => negb (key x)) l) = None.
Proof.
  induction l as [|x r IH]; [reflexivity|].
  cbn [filter]. destruct (key x) eqn:E; cbn [negb]; [exact IH|].
  cbn [find]. rewrite E. exact IH.
Qed.

(** X13.  Any user who sees a task may delete it: the answer is 200, the
    rows with that id are gone while every other task, and every project
    and membership, stays, and a read by id is then answered 404 for
    everyone. *)
Theorem deleteTask_removes_for_all (u tid : Id) (db : Db) :
  sees_task db u tid = true ->
  exists db',
    deleteTask u tid db = (ok_message 200 "Task deleted successfully" None, db')
    /\ tasks db' = filter (fun t => negb (Task.id t =? tid)) (tasks db)
    /\ projects db' = projects db
    /\ projectMembers db' = projectMembers db
    /\ (forall w, getTask w tid db' = (failure 404 "Task not found", db')).
Proof.
  intro Hsee. unfold deleteTask. rewrite find_visible_task.
  destruct (proj1 (sees_task_find db u tid Hsee)) as (t & Ht). rewrite Ht.
  cbn [bind ret]. unfold prisma.task_delete.
  assert (Hhas : has_task db tid = true).
  { destruct (proj2 (sees_task_find db u tid Hsee)) as (t0 & Ht0 & _ & _).
    exact (find_Some_existsb _ _ Ht0). }
  rewrite Hhas. cbn [bind ret try_catch].
  eexists. split; [reflexivity|]. repeat split.
  intro w. rewrite getTask_found. cbn [tasks].
  rewrite find_filtered_out. reflexivity.
Qed.

End Facts.

Section OnSample.

#[local] Existing Instance Sample.locale.

Lemma deleteTask_removes_for_all_witness :
  exists db',
    deleteTask Sample.marco Sample.wireframes Sample.db
    = (ok_message 200 "Task deleted successfully" None, db')
    /\ tasks db' = [Sample.t_palette; Sample.t_audit]
    /\ getTask Sample.olivia Sample.wireframes db'
       = (failure 404 "Task not found", db').
Proof.
  destruct (deleteTask_removes_for_all Sample.marco Sample.wireframes Sample.db)
    as (db' & Hrun & Htasks & _ & _ & Hgone); [reflexivity|].
  exists db'. split; [exact Hrun|]. split; [rewrite Htasks; reflexivity|].
  apply Hgone.
Defined.

End OnSample.

Section Facts.

Context {L : Locale}.

(** X14.  [addComment] looks at the content first: a content that is
    missing, empty or made only of what [trim] removes (the white space
    and line terminators of ECMAScript, U+00A0, U+2028 and U+FEFF among
    them) is answered 400 "Comment content is required" whether or not
    the task exists or the actor sees it.  A content with anything else in
    it, on a task the actor sees, is stored exactly as it was sent, white
    space around it included, with the actor as author (201). *)
Theorem addComment_content (u tid : Id) (content : JsonValue) (fresh : Id)
    (now : DateTime) (db : Db) :
  ((forall s, content = JString s -> trim_is_empty s = true) ->
     addComment u tid content fresh now db
     = (failure 400 "Comment content is required", db))
  /\ (forall s,
        content = JString s -> trim_is_empty s = false ->
        sees_task db u tid = true ->
        has_user db u = true ->
        has_comment db fresh = false ->
        addComment u tid content fresh now db
        = (ok_message 201 "Comment added successfully"
             (Some (data_comment (Comment.mk fresh s tid u now))),
           set_comments db (comments db ++ [Comment.mk fresh s tid u now])%list)).
Proof.
  split.
  - intro Hblank. unfold addComment, content_missing.
    destruct content as [| |s]; try reflexivity.
    cbn [js_truthy]. destruct (s =? ""); [reflexivity|].
    rewrite (Hblank s eq_refl). reflexivity.
  - intros s -> Hs Hsee Huser Hfresh. unfold addComment, content_missing.
    cbn [js_truthy].
    destruct (s =? "") eqn:E.
    { apply String.eqb_eq in E. subst s. discriminate Hs. }
    rewrite Hs, find_visible_task.
    destruct (proj1 (sees_task_find db u tid Hsee)) as (t & Ht). rewrite Ht.
    cbn [bind ret]. unfold prisma.comment_create.
    cbn [Comment.id Comment.taskId Comment.authorId].
    rewrite Hfresh, Huser.
    destruct (proj2 (sees_task_find db u tid Hsee)) as (t0 & Ht0 & _ & _).
    unfold has_task. rewrite (find_Some_existsb _ _ Ht0). reflexivity.
Qed.

End Facts.

Section OnSample.

#[local] Existing Instance Sample.locale.

Lemma addComment_content_witness :
  addComment Sample.xenia Sample.nobody (JString Sample.blank) Sample.new_id 70%Z
    Sample.db
  = (failure 400 "Comment content is required", Sample.db)
  /\ addComment Sample.marco Sample.wireframes (JString " ok ") Sample.new_id 70%Z
       Sample.db
     = (ok_message 201 "Comment added successfully"
          (Some (data_comment
                   (Comment.mk Sample.new_id " ok " Sample.wireframes
                      Sample.marco 70%Z))),
        set_comments Sample.db
          [Comment.mk Sample.new_id " ok " Sample.wireframes Sample.marco 70%Z]).
Proof.
  split.
  - apply (proj1 (addComment_content Sample.xenia Sample.nobody
                    (JString Sample.blank) Sample.new_id 70%Z Sample.db)).
    intros s H. injection H as <-. reflexivity.
  - apply (proj2 (addComment_content Sample.marco Sample.wireframes
                    (JString " ok ") Sample.new_id 70%Z Sample.db) " ok ");
      reflexivity.
Defined.

End OnSample.

Section Facts.

Context {L : Locale}.

(* ================================================================== *)
(** * The users *)
(* ================================================================== *)

Lemma getUsers_listed (q : UsersQuery) (db : Db) (item : UserListItem) :
  user_where_valid (getUsers_where q) = true ->
  In item (listed_users (fst (getUsers q db)))
  <-> exists u, In u (users db) /\ user_matches (getUsers_where q) u = true
                /\ item = select_list_item u.
Proof.
  intro Hvalid. unfold getUsers, prisma.user_findMany. rewrite Hvalid.
  cbn -[sort_by filter user_matches]. rewrite in_map_iff. split.
  - intros (u & <- & Hu). rewrite sort_by_In, filter_In in Hu.
    exists u. tauto.
  - intros (u & Hin & Hm & ->). exists u. split; [reflexivity|].
    rewrite sort_by_In, filter_In. tauto.
Qed.

(** X15.  The filters of [getUsers] narrow the active users and nothing
    else: with a search text and a role that names an enum value, exactly
    the users are listed that are active, have that role, and whose first
    name, last name or email the database matches with
    [ILIKE '%' || search || '%'].  The search text reaches the pattern as
    it is, so a [%], [_] or backslash in it is a pattern character, and the
    case is folded by the database's [lower] under its locale, whatever
    that is.  A role that names no enum value is answered 400 "Invalid
    data provided". *)
Theorem getUsers_filters (search role : string) (db : Db) :
  search <> "" -> role <> "" ->
  let q := {| uq_search := Some search; uq_role := Some role |} in
  (forall r, Role_of_string role = Some r ->
     forall item,
       In item (listed_users (fst (getUsers q db)))
       <-> exists u,
             In u (users db) /\ item = select_list_item u
             /\ User.isActive u = true
             /\ User.role u = r
             /\ (ilike search (User.firstName u)
                 || ilike search (User.lastName u)
                 || ilike search (User.email u)) = true)
  /\ (Role_of_string role = None ->
        getUsers q db = (failure 400 "Invalid data provided", db)).
Proof.
  intros Hs Hr q. subst q.
  apply String.eqb_neq in Hs, Hr.
  assert (Hwhere :
    getUsers_where {| uq_search := Some search; uq_role := Some role |}
    = UserWhereInput.with_role role
        (UserWhereInput.with_OR
           [ UserWhereInput.with_firstName (contains_insensitive search)
               UserWhereInput.empty;
             UserWhereInput.with_lastName (contains_insensitive search)
               UserWhereInput.empty;
             UserWhereInput.with_email (contains_insensitive search)
               UserWhereInput.empty ]
           (UserWhereInput.with_isActive true UserWhereInput.empty))).
  { unfold getUsers_where, assign_if. cbn [uq_search uq_role truthy].
    rewrite Hs, Hr. reflexivity. }
  split.
  - intros r Hrole item. rewrite getUsers_listed.
    + rewrite Hwhere. split; intros (u & Hin & H1 & H2); exists u.
      * split; [exact Hin|]. split; [exact H2|].
        cbn -[ilike] in H1. rewrite Hrole in H1.
        rewrite !andb_true_r, orb_false_r in H1.
        apply andb_prop in H1. destruct H1 as [H1 Hor].
        apply andb_prop in H1. destruct H1 as [Hact Hrl].
        split; [destruct (User.isActive u); [reflexivity|discriminate]|].
        split; [|rewrite orb_assoc in Hor; exact Hor].
        destruct r, (User.role u); try reflexivity; discriminate.
      * destruct H2 as (Hact & Hrl & Hor).
        split; [exact Hin|]. split; [|exact H1].
        cbn -[ilike]. rewrite Hrole, Hact, Hrl.
        rewrite !andb_true_r, orb_false_r.
        rewrite <- orb_assoc in Hor.
        cbn -[ilike] in Hor |- *. rewrite Hor.
        destruct r; reflexivity.
    + rewrite Hwhere. cbn. rewrite Hrole. reflexivity.
  - intro Hrole. unfold getUsers, prisma.user_findMany. rewrite Hwhere.
    cbn -[sort_by filter user_matches]. rewrite Hrole. reflexivity.
Qed.

End Facts.

Section OnSample.

#[local] Existing Instance Sample.locale.

Lemma getUsers_filters_witness :
  In (select_list_item (Sample.user Sample.marco "Marco" true))
     (listed_users
        (fst (getUsers {| uq_search := Some "M_RC"; uq_role := Some "USER" |}
                Sample.db)))
  /\ getUsers {| uq_search := Some "M_RC"; uq_role := Some "OWNER" |} Sample.db
     = (failure 400 "Invalid data provided", Sample.db).
Proof.
  split.
  - apply (proj1 (@getUsers_filters Sample.locale "M_RC" "USER" Sample.db
                    ltac:(discriminate) ltac:(discriminate)) USER eq_refl).
    exists (Sample.user Sample.marco "Marco" true).
    split; [right; left; reflexivity|]. repeat split.
  - apply (proj2 (@getUsers_filters Sample.locale "M_RC" "OWNER" Sample.db
                    ltac:(discriminate) ltac:(discriminate))).
    reflexivity.
Defined.

End OnSample.

Section Facts.

Context {L : Locale}.

Lemma select_detail_id (db : Db) (x : User.t) :
  ud_id (select_detail db x) = User.id x.
Proof. reflexivity. Qed.

Lemma select_detail_isActive (db : Db) (x : User.t) :
  ud_isActive (select_detail db x) = User.isActive x.
Proof. reflexivity. Qed.

(** X16.  [deleteUser] is a soft delete: the account stays stored and can
    still be read by id, now with [isActive] false; projects, memberships,
    tasks and comments are untouched, so every user sees the same projects
    as before; and no query of [getUsers] lists the account any more. *)
Theorem deleteUser_deactivates (u : Id) (db : Db) :
  has_user db u = true ->
  exists db',
    deleteUser u db
    = (ok_message 200 "Account deactivated successfully" None, db')
    /\ map User.id (users db') = map User.id (users db)
    /\ projects db' = projects db /\ projectMembers db' = projectMembers db
    /\ tasks db' = tasks db /\ comments db' = comments db
    /\ (forall w q, sees_project db' w q = sees_project db w q)
    /\ (exists d, getUser u db' = (ok_data 200 (data_user d), db')
                  /\ ud_id d = u /\ ud_isActive d = false)
    /\ (forall q item, In item (listed_users (fst (getUsers q db'))) ->
                       uli_id item <> u).
Proof.
  intros Hu. unfold deleteUser. rewrite Hu.
  eexists. split; [reflexivity|].
  assert (Hids :
    map User.id
      (map (fun x => if User.id x =? u
                     then User.mk (User.id x) (User.email x) (User.password x)
                            (User.firstName x) (User.lastName x) (User.avatar x)
                            (User.role x) false (User.createdAt x)
                     else x) (users db))
    = map User.id (users db)).
  { rewrite map_map. apply map_ext. intro x.
    destruct (User.id x =? u); reflexivity. }
  cbn [users projects projectMembers tasks comments].
  split; [exact Hids|]. repeat (split; [reflexivity|]).
  split.
  - unfold getUser, prisma.user_findUnique. cbn [bind ret try_catch users].
    destruct (find _ (map _ (users db))) as [x|] eqn:E.
    + eexists. split; [reflexivity|].
      apply find_some in E. destruct E as [Hin Hid].
      apply String.eqb_eq in Hid.
      apply in_map_iff in Hin. destruct Hin as (y & Hy & _).
      rewrite select_detail_id, select_detail_isActive.
      destruct (User.id y =? u) eqn:Ey.
      * subst x. split; [exact Hid|reflexivity].
      * subst x. apply String.eqb_neq in Ey. contradiction.
    + exfalso. unfold has_user in Hu. apply existsb_exists in Hu.
      destruct Hu as (y & Hin & Hid).
      apply (in_map (fun x => if User.id x =? u
                     then User.mk (User.id x) (User.email x) (User.password x)
                            (User.firstName x) (User.lastName x) (User.avatar x)
                            (User.role x) false (User.createdAt x)
                     else x)) in Hin.
      apply (find_none _ _ E) in Hin. rewrite Hid in Hin.
      cbn [User.id] in Hin. congruence.
  - intros q item Hin Hid. apply getUsers_lists_active in Hin.
    destruct Hin as (x & Hx & Hact & ->). cbn [users] in Hx.
    apply in_map_iff in Hx. destruct Hx as (y & Hy & _).
    cbn [uli_id select_list_item] in Hid.
    destruct (User.id y =? u) eqn:Ey.
    + subst x. discriminate Hact.
    + subst x. apply String.eqb_neq in Ey. contradiction.
Qed.

End Facts.

Section OnSample.

#[local] Existing Instance Sample.locale.

Lemma deleteUser_deactivates_witness :
  exists db',
    deleteUser Sample.marco Sample.db
    = (ok_message 200 "Account deactivated successfully" None, db')
    /\ sees_project db' Sample.marco Sample.redesign = true
    /\ map uli_firstName
         (listed_users (fst (getUsers {| uq_search := None; uq_role := None |} db')))
       = ["Olivia"; "Xenia"].
Proof.
  destruct (deleteUser_deactivates Sample.marco Sample.db)
    as (db' & Hrun & _ & _ & _ & _ & _ & Hsees & _ & _).
  - reflexivity.
  - exists db'. split; [exact Hrun|]. split; [rewrite Hsees; reflexivity|].
    injection Hrun as <-. reflexivity.
Defined.

End OnSample.

Section Facts.

Context {L : Locale}.

Lemma user_write_cases (db db' : Db) (id : Id) (f : User.t -> User.t) (x : User.t) :
  user_update db id f = inr (x, db') ->
  db' = mkDb (map (fun q => if User.id q =? id then f q else q) (users db))
             (projects db) (projectMembers db) (tasks db) (comments db).
Proof.
  unfold user_update. destruct (find _ (users db)); [|discriminate].
  intro H. injection H as _ <-. reflexivity.
Qed.

(** X17.  [updateUser] can change the first name, the last name and the
    avatar of the actor and nothing else: every user keeps id, email,
    password, role and [isActive], the rows of the other users are as they
    were, and so are projects, memberships, tasks and comments. *)
Theorem updateUser_writes_own_profile_only (is_url : string -> bool)
    (u : Id) (body : UpdateUserBody) (db : Db) :
  let db' := snd (updateUser is_url u body db) in
  map (fun x => (User.id x, User.email x, User.password x, User.role x,
                 User.isActive x)) (users db')
  = map (fun x => (User.id x, User.email x, User.password x, User.role x,
                   User.isActive x)) (users db)
  /\ (forall x, In x (users db') -> User.id x <> u -> In x (users db))
  /\ projects db' = projects db /\ projectMembers db' = projectMembers db
  /\ tasks db' = tasks db /\ comments db' = comments db.
Proof.
  intro db'. subst db'. unfold updateUser.
  destruct (updateUserSchema is_url body) as [issues|v];
    [repeat split; auto|].
  destruct (user_update db u (user_apply v)) as [e|[x db']] eqn:E;
    [repeat split; auto|].
  apply user_write_cases in E. subst db'.
  cbn [snd users projects projectMembers tasks comments].
  split; [|split; [|repeat split]].
  - rewrite map_map. apply map_ext. intro x0.
    destruct (User.id x0 =? u); reflexivity.
  - intros y Hin Hid. apply in_map_iff in Hin. destruct Hin as (z & Hz & Hin).
    destruct (User.id z =? u) eqn:Ez; [|subst y; exact Hin].
    subst y. apply String.eqb_eq in Ez. contradiction.
Qed.


End Facts.

Section OnSample.

#[local] Existing Instance Sample.locale.


End OnSample.

Section Facts.

Context {L : Locale}.

(** The object that [getUserStats] folds the groups into, on the groups
    that [groupBy] gives for the counts [c0] to [c3]. *)
Lemma stats_object (c0 c1 c2 c3 : nat) :
  let o :=
    fold_left (fun acc item => obj_set (TaskStatus_to_string (fst item)) (snd item) acc)
      (filter (fun g => negb (Nat.eqb (snd g) 0))
         [(TODO, c0); (IN_PROGRESS, c1); (IN_REVIEW, c2); (DONE, c3)])
      [] in
  or_zero (obj_get "TODO" o) = c0
  /\ or_zero (obj_get "IN_PROGRESS" o) = c1
  /\ or_zero (obj_get "IN_REVIEW" o) = c2
  /\ or_zero (obj_get "DONE" o) = c3
  /\ fold_left Nat.add (obj_values o) 0 = c0 + c1 + c2 + c3.
Proof.
  destruct c0, c1, c2, c3; cbn; repeat split; lia.
Qed.

Lemma count_by_status (l : list Task.t) :
  length l
  = length (filter (fun t => TaskStatus_eqb (Task.status t) TODO) l)
    + length (filter (fun t => TaskStatus_eqb (Task.status t) IN_PROGRESS) l)
    + length (filter (fun t => TaskStatus_eqb (Task.status t) IN_REVIEW) l)
    + length (filter (fun t => TaskStatus_eqb (Task.status t) DONE) l).
Proof.
  induction l as [|t r IH]; [reflexivity|].
  cbn [filter length]. destruct (Task.status t); cbn; lia.
Qed.

Lemma getUserStats_selected (db : Db) (u : Id) (t : Task.t) :
  existsb (fun w => task_matches db w t) (getUserStats_alternatives u)
  = option_id_eqb (Task.assigneeId t) u || task_visible db u t.
Proof.
  unfold getUserStats_alternatives. cbn [existsb].
  rewrite matches_in_visible_project, orb_false_r. f_equal.
  unfold task_matches. cbn. rewrite !andb_true_r. reflexivity.
Qed.

(** X19.  [getUserStats] always answers 200.  [totalProjects] is the
    number of projects the user owns or is a member of, the length of the
    unfiltered project listing.  The four counts of [tasksByStatus] are
    over the tasks that are assigned to the user or lie in such a project,
    and [totalTasks] is their sum.  It is never below the length of the
    unfiltered task listing, and equal to it when every assignee is owner or
    member of the task's project. *)
Theorem getUserStats_counts (u : Id) (db : Db) :
  let counted t := option_id_eqb (Task.assigneeId t) u || task_visible db u t in
  let listed :=
    listed_tasks
      (fst (getTasks u {| tq_projectId := None; tq_status := None;
                          tq_priority := None; tq_assigneeId := None |} db)) in
  exists s,
    a_status (getUserStats u db) = 200
    /\ a_data (getUserStats u db) = Some s
    /\ totalProjects s = length (filter (visible db u) (projects db))
    /\ totalProjects s
       = length (listed_projects (fst (getProjects u no_filters db)))
    /\ (forall st,
          match st with
          | TODO => tbs_TODO (tasksByStatus s)
          | IN_PROGRESS => tbs_IN_PROGRESS (tasksByStatus s)
          | IN_REVIEW => tbs_IN_REVIEW (tasksByStatus s)
          | DONE => tbs_DONE (tasksByStatus s)
          end
          = length (filter (fun t => TaskStatus_eqb (Task.status t) st)
                           (filter counted (tasks db))))
    /\ totalTasks s = length (filter counted (tasks db))
    /\ length listed <= totalTasks s
    /\ (assignee_invariant db = true -> totalTasks s = length listed).
Proof.
  intros counted listed.
  unfold getUserStats, project_count, task_groupBy_status.
  cbn [project_where_valid ProjectWhereInput.status ProjectWhereInput.OR
       ProjectWhereInput.with_OR ProjectWhereInput.empty enum_ok opt_test
       owner_or_member forallb ProjectWhereInput.with_ownerId
       ProjectWhereInput.with_members andb bind ret].
  assert (Hvalid : forallb task_where_valid (getUserStats_alternatives u) = true)
    by reflexivity.
  rewrite Hvalid. cbn [bind ret all_statuses map].
  rewrite (filter_ext _ counted (getUserStats_selected db u)).
  set (sel := filter counted (tasks db)).
  pose proof (stats_object
                (length (filter (fun t => TaskStatus_eqb (Task.status t) TODO) sel))
                (length (filter (fun t => TaskStatus_eqb (Task.status t) IN_PROGRESS) sel))
                (length (filter (fun t => TaskStatus_eqb (Task.status t) IN_REVIEW) sel))
                (length (filter (fun t => TaskStatus_eqb (Task.status t) DONE) sel)))
    as Hobj.
  cbv zeta in Hobj. destruct Hobj as (H0 & H1 & H2 & H3 & Hsum).
  assert (Hlisted : listed
                    = sort_by (leb_of (task_order getTasks_orderBy))
                        (filter (task_visible db u) (tasks db))).
  { unfold listed, getTasks, prisma.task_findMany, getTasks_where, assign_if.
    cbn -[sort_by filter task_matches task_order].
    rewrite (filter_ext _ (task_visible db u)
               (matches_in_visible_project db u)).
    reflexivity. }
  assert (Hlen : length listed = length (filter (task_visible db u) (tasks db))).
  { rewrite Hlisted. symmetry. apply Permutation_length, sort_by_perm. }
  eexists. split; [reflexivity|]. split; [reflexivity|].
  cbn [totalProjects tasksByStatus totalTasks tbs_TODO tbs_IN_PROGRESS
       tbs_IN_REVIEW tbs_DONE].
  split; [|split; [|split; [|split; [|split]]]].
  - f_equal. apply filter_ext. intro p. apply matches_owner_or_member.
  - rewrite getProjects_no_filters. cbn [fst listed_projects data ok_data].
    rewrite <- (Permutation_length (sort_by_perm _ _)).
    f_equal. apply filter_ext. intro p. apply matches_owner_or_member.
  - intros [| | |]; assumption.
  - rewrite Hsum. symmetry. apply count_by_status.
  - rewrite Hsum, <- count_by_status, Hlen. unfold sel.
    clear. induction (tasks db) as [|t r IH]; [apply le_n|].
    cbn [filter]. unfold counted at 1.
    destruct (task_visible db u t); cbn [length].
    + rewrite orb_true_r. cbn [length]. lia.
    + destruct (_ || false); cbn [length]; lia.
  - intro Hinv. rewrite Hsum, <- count_by_status, Hlen. unfold sel.
    f_equal. apply filter_ext_in. intros t Hin. unfold counted.
    destruct (task_visible db u t) eqn:Hv; [apply orb_true_r|].
    rewrite orb_false_r.
    unfold assignee_invariant in Hinv. rewrite forallb_forall in Hinv.
    specialize (Hinv t Hin). unfold assignee_in_project in Hinv.
    destruct (Task.assigneeId t) as [a|]; [|reflexivity].
    cbn [option_id_eqb]. destruct (a =? u) eqn:Ea; [|reflexivity].
    apply String.eqb_eq in Ea. subst a.
    unfold task_visible in Hv. congruence.
Qed.

End Facts.

Section OnSample.

#[local] Existing Instance Sample.locale.

Lemma getUserStats_counts_witness :
  assignee_invariant Sample.db = true
  /\ exists s,
       a_data (getUserStats Sample.marco Sample.db) = Some s
       /\ totalProjects s = 1
       /\ totalTasks s
          = length (listed_tasks
                      (fst (getTasks Sample.marco
                              {| tq_projectId := None; tq_status := None;
                                 tq_priority := None; tq_assigneeId := None |}
                              Sample.db))).
Proof.
  split; [reflexivity|].
  pose proof (getUserStats_counts Sample.marco Sample.db) as H.
  cbv zeta in H. destruct H as (s & _ & Hs & Hp & _ & _ & _ & _ & Hinv).
  exists s. split; [exact Hs|]. split; [rewrite Hp; reflexivity|].
  apply Hinv. reflexivity.
Defined.

End OnSample.

Section Facts.

Context {L : Locale}.

(* ================================================================== *)
(** * The filters of the task listing *)
(* ================================================================== *)

Lemma getTasks_where_matches (db : Db) (u : Id) (q : TasksQuery) (t : Task.t) :
  task_matches db (getTasks_where u q) t
  = opt_test (fun p => Task.projectId t =? p) (truthy (tq_projectId q))
    && enum_is TaskStatus_of_string TaskStatus_eqb (truthy (tq_status q))
         (Task.status t)
    && enum_is Priority_of_string Priority_eqb (truthy (tq_priority q))
         (Task.priority t)
    && opt_test (fun a => option_id_eqb (Task.assigneeId t) a)
         (truthy (tq_assigneeId q))
    && task_visible db u t.
Proof.
  rewrite <- matches_in_visible_project.
  unfold getTasks_where, assign_if, task_matches.
  destruct (truthy (tq_projectId q)), (truthy (tq_status q)),
    (truthy (tq_priority q)), (truthy (tq_assigneeId q));
    reflexivity.
Qed.

Lemma getTasks_where_valid (u : Id) (q : TasksQuery) :
  task_where_valid (getTasks_where u q)
  = enum_ok TaskStatus_of_string (truthy (tq_status q))
    && enum_ok Priority_of_string (truthy (tq_priority q)).
Proof.
  unfold getTasks_where, assign_if, task_where_valid.
  destruct (truthy (tq_projectId q)), (truthy (tq_status q)),
    (truthy (tq_priority q)), (truthy (tq_assigneeId q));
    cbn; rewrite ?andb_true_r; reflexivity.
Qed.

Lemma truthy_cases (v : QueryValue) :
  (truthy v = None /\ forall s, v = Some s -> s = "")
  \/ (exists s, truthy v = Some s /\ v = Some s /\ s <> "").
Proof.
  destruct v as [s|]; [|left; split; [reflexivity|discriminate]].
  unfold truthy. destruct (s =? "") eqn:E.
  - apply String.eqb_eq in E. left. split; [reflexivity|].
    intros s' H. injection H as <-. exact E.
  - apply String.eqb_neq in E. right. exists s. auto.
Qed.

(** X20.  The four filters of [getTasks] are conjoined with visibility,
    and a filter given as the empty string counts as not given: a task is
    listed exactly when it is stored, the actor sees it, and it agrees with
    every filter that has a value.  A status or priority that names no enum
    value is answered 400 "Invalid data provided" instead of an empty
    list. *)
Theorem getTasks_filters (u : Id) (q : TasksQuery) (db : Db) :
  let given (v : QueryValue) (P : string -> Prop) : Prop :=
    forall s, v = Some s -> s <> "" -> P s in
  (given (tq_status q) (fun s => TaskStatus_of_string s <> None) ->
   given (tq_priority q) (fun s => Priority_of_string s <> None) ->
   forall t,
     In t (listed_tasks (fst (getTasks u q db)))
     <-> In t (tasks db)
         /\ task_visible db u t = true
         /\ given (tq_projectId q) (fun p => Task.projectId t = p)
         /\ given (tq_status q)
              (fun s => TaskStatus_of_string s = Some (Task.status t))
         /\ given (tq_priority q)
              (fun s => Priority_of_string s = Some (Task.priority t))
         /\ given (tq_assigneeId q) (fun a => Task.assigneeId t = Some a))
  /\ ((exists s, tq_status q = Some s /\ s <> ""
                 /\ TaskStatus_of_string s = None)
      \/ (exists s, tq_priority q = Some s /\ s <> ""
                    /\ Priority_of_string s = None) ->
      getTasks u q db = (failure 400 "Invalid data provided", db)).
Proof.
  intro given. split.
  - intros Hst Hpr t.
    assert (Hvalid : task_where_valid (getTasks_where u q) = true).
    { rewrite getTasks_where_valid. apply andb_true_intro. split.
      - destruct (truthy_cases (tq_status q)) as [[-> _]|(s & -> & Hs & Hne)];
          [reflexivity|].
        cbn [enum_ok opt_test]. specialize (Hst s Hs Hne).
        destruct (TaskStatus_of_string s) eqn:E; [reflexivity|congruence].
      - destruct (truthy_cases (tq_priority q)) as [[-> _]|(s & -> & Hs & Hne)];
          [reflexivity|].
        cbn [enum_ok opt_test]. specialize (Hpr s Hs Hne).
        destruct (Priority_of_string s) eqn:E; [reflexivity|congruence]. }
    unfold getTasks, prisma.task_findMany. rewrite Hvalid.
    cbn -[sort_by filter task_matches].
    rewrite sort_by_In, filter_In, getTasks_where_matches.
    assert (HP : opt_test (fun p => Task.projectId t =? p) (truthy (tq_projectId q))
                 = true
                 <-> given (tq_projectId q) (fun p => Task.projectId t = p)).
    { unfold given.
      destruct (truthy_cases (tq_projectId q)) as [[-> He]|(s & -> & Hs & Hne)].
      - split; [|reflexivity]. intros _ s Hs Hne. apply He in Hs. contradiction.
      - cbn [opt_test]. rewrite String.eqb_eq. split.
        + intros H s' Hs' _. congruence.
        + intro H. apply (H s Hs Hne). }
    assert (HS : enum_is TaskStatus_of_string TaskStatus_eqb
                   (truthy (tq_status q)) (Task.status t) = true
                 <-> given (tq_status q)
                       (fun s => TaskStatus_of_string s = Some (Task.status t))).
    { unfold given.
      destruct (truthy_cases (tq_status q)) as [[-> He]|(s & -> & Hs & Hne)].
      - split; [|reflexivity]. intros _ s Hs Hne. apply He in Hs. contradiction.
      - cbn [enum_is opt_test]. split.
        + intros H s' Hs' _. assert (s' = s) by congruence. subst s'.
          destruct (TaskStatus_of_string s) as [e|]; [|discriminate].
          f_equal. destruct e, (Task.status t); try reflexivity; discriminate.
        + intro H. rewrite (H s Hs Hne).
          destruct (Task.status t); reflexivity. }
    assert (HR : enum_is Priority_of_string Priority_eqb
                   (truthy (tq_priority q)) (Task.priority t) = true
                 <-> given (tq_priority q)
                       (fun s => Priority_of_string s = Some (Task.priority t))).
    { unfold given.
      destruct (truthy_cases (tq_priority q)) as [[-> He]|(s & -> & Hs & Hne)].
      - split; [|reflexivity]. intros _ s Hs Hne. apply He in Hs. contradiction.
      - cbn [enum_is opt_test]. split.
        + intros H s' Hs' _. assert (s' = s) by congruence. subst s'.
          destruct (Priority_of_string s) as [e|]; [|discriminate].
          f_equal. destruct e, (Task.priority t); try reflexivity; discriminate.
        + intro H. rewrite (H s Hs Hne).
          destruct (Task.priority t); reflexivity. }
    assert (HA : opt_test (fun a => option_id_eqb (Task.assigneeId t) a)
                   (truthy (tq_assigneeId q)) = true
                 <-> given (tq_assigneeId q) (fun a => Task.assigneeId t = Some a)).
    { unfold given.
      destruct (truthy_cases (tq_assigneeId q)) as [[-> He]|(s & -> & Hs & Hne)].
      - split; [|reflexivity]. intros _ s Hs Hne. apply He in Hs. contradiction.
      - cbn [opt_test]. unfold option_id_eqb. split.
        + intros H s' Hs' _. assert (s' = s) by congruence. subst s'.
          destruct (Task.assigneeId t) as [a|]; [|discriminate].
          apply String.eqb_eq in H. f_equal. exact H.
        + intro H. rewrite (H s Hs Hne). apply String.eqb_refl. }
    rewrite <- HP, <- HS, <- HR, <- HA, !andb_true_iff. tauto.
  - intro Hbad. unfold getTasks, prisma.task_findMany.
    rewrite getTasks_where_valid.
    assert (Hinvalid :
      enum_ok TaskStatus_of_string (truthy (tq_status q))
      && enum_ok Priority_of_string (truthy (tq_priority q)) = false).
    { destruct Hbad as [(s & Hs & Hne & Hp)|(s & Hs & Hne & Hp)].
      - rewrite Hs. unfold truthy at 1. apply String.eqb_neq in Hne. rewrite Hne.
        cbn [enum_ok opt_test]. rewrite Hp. reflexivity.
      - rewrite Hs. unfold truthy at 2. apply String.eqb_neq in Hne. rewrite Hne.
        cbn [enum_ok opt_test]. rewrite Hp. apply andb_false_r. }
    rewrite Hinvalid. reflexivity.
Qed.

End Facts.

Section OnSample.

#[local] Existing Instance Sample.locale.

Lemma getTasks_filters_witness :
  listed_tasks
    (fst (getTasks Sample.olivia
            {| tq_projectId := Some ""; tq_status := Some "TODO";
               tq_priority := Some "URGENT"; tq_assigneeId := None |} Sample.db))
  = [Sample.t_palette]
  /\ getTasks Sample.olivia
       {| tq_projectId := None; tq_status := Some "todo";
          tq_priority := None; tq_assigneeId := None |} Sample.db
     = (failure 400 "Invalid data provided", Sample.db).
Proof.
  split; [reflexivity|].
  pose proof (getTasks_filters Sample.olivia
                {| tq_projectId := None; tq_status := Some "todo";
                   tq_priority := None; tq_assigneeId := None |} Sample.db) as H.
  cbv zeta in H. apply (proj2 H).
  left. exists "todo". repeat split. discriminate.
Defined.

End OnSample.

Section Facts.

Context {L : Locale}.

(* ================================================================== *)
(** * More on projects and tasks *)
(* ================================================================== *)

(** X21.  [createTask] answers a project that is not stored and a project
    that the actor does not see alike, 404 "Project not found or you do
    not have access", and it does so before it looks at the assignee:
    nothing is written. *)
Theorem createTask_project_out_of_reach
    (is_uuid : string -> bool) (parse_datetime : string -> option DateTime)
    (st0 : TaskStatus) (pr0 : Priority)
    (u : Id) (body : CreateTaskBody) (v : CreateTaskData)
    (fresh : Id) (now : DateTime) (db : Db) :
  createTaskSchema is_uuid parse_datetime body = inr v ->
  has_project db (ctd_projectId v) = false
  \/ sees_project db u (ctd_projectId v) = false ->
  createTask is_uuid parse_datetime st0 pr0 u body fresh now db
  = (failure 404 "Project not found or you do not have access", db).
Proof.
  intros Hv Hout.
  rewrite (createTask_run is_uuid parse_datetime st0 pr0 u body fresh now db Hv).
  assert (Hno : sees_project db u (ctd_projectId v) = false).
  { destruct Hout as [Hmissing|Hdenied]; [|exact Hdenied].
    destruct (sees_project db u (ctd_projectId v)) eqn:E; [|reflexivity].
    apply sees_project_stored in E. congruence. }
  rewrite Hno. reflexivity.
Qed.

End Facts.

Section OnSample.

#[local] Existing Instance Sample.locale.

Lemma createTask_project_out_of_reach_witness :
  Sample.createTask Sample.xenia (new_task_body Sample.nobody)
    Sample.new_id 50%Z Sample.db
  = (failure 404 "Project not found or you do not have access", Sample.db).
Proof.
  apply (createTask_project_out_of_reach Sample.is_uuid Sample.parse_datetime
           TODO MEDIUM Sample.xenia (new_task_body Sample.nobody)
           (v := new_task_data Sample.nobody) Sample.new_id 50%Z Sample.db
           eq_refl).
  right. reflexivity.
Defined.

End OnSample.

Section Facts.

Context {L : Locale}.

Lemma getProjects_search_where (u : Id) (st : QueryValue) (search : string) :
  search <> "" ->
  getProjects_where u {| pq_status := st; pq_search := Some search |}
  = let where1 :=
      ProjectWhereInput.with_OR
        [ ProjectWhereInput.with_name (contains_insensitive search)
            ProjectWhereInput.empty;
          ProjectWhereInput.with_description (contains_insensitive search)
            ProjectWhereInput.empty ]
        ProjectWhereInput.empty in
    match truthy st with
    | Some s => ProjectWhereInput.with_status s where1
    | None => where1
    end.
Proof.
  intro Hne. apply String.eqb_neq in Hne.
  unfold getProjects_where. cbn [pq_status pq_search].
  destruct (truthy st); unfold truthy; rewrite Hne; reflexivity.
Qed.

(** X22.  With a search text and no status filter [getProjects] lists
    exactly the stored projects whose name or description the database
    matches with [ILIKE '%' || search || '%']: the search text reaches the
    pattern as it is, so a [%], [_] or backslash in it is a pattern
    character, and the case is folded by the database's [lower] under its
    locale, whatever that is.  Neither the owner nor the memberships of a
    project play a part, and the actor does not either. *)
Theorem getProjects_search_lists_by_text (u : Id) (search : string) (db : Db)
    (P : Project.t) :
  search <> "" ->
  In P (listed_projects
          (fst (getProjects u {| pq_status := None; pq_search := Some search |} db)))
  <-> In P (projects db)
      /\ (ilike search (Project.name P) = true
          \/ exists d, Project.description P = Some d
                       /\ ilike search d = true).
Proof.
  intro Hne. unfold getProjects, prisma.project_findMany.
  rewrite (getProjects_search_where u None Hne).
  cbn -[sort_by filter project_matches ilike].
  rewrite sort_by_In, filter_In.
  cbn -[ilike]. rewrite !andb_true_r, orb_false_r.
  rewrite orb_true_iff.
  split; intros [Hin H]; (split; [exact Hin|]).
  - destruct H as [H|H]; [left; exact H|right].
    destruct (Project.description P) as [d|]; [|discriminate].
    exists d. split; [reflexivity|exact H].
  - destruct H as [H|(d & Hd & H)]; [left; exact H|right].
    rewrite Hd. exact H.
Qed.

End Facts.

Section OnSample.

#[local] Existing Instance Sample.locale.

Lemma getProjects_search_lists_by_text_witness :
  In Sample.p_redesign
     (listed_projects
        (fst (getProjects Sample.dana
                {| pq_status := None; pq_search := Some "NEW_LOOK" |} Sample.db)))
  /\ Project.description Sample.p_redesign = Some "New look"
  /\ visible Sample.db Sample.dana Sample.p_redesign = false.
Proof.
  split; [|split; reflexivity].
  apply (proj2 (@getProjects_search_lists_by_text Sample.locale Sample.dana
                  "NEW_LOOK" Sample.db Sample.p_redesign ltac:(discriminate))).
  split; [left; reflexivity|].
  right. exists "New look". split; reflexivity.
Defined.

End OnSample.

Section Facts.

Context {L : Locale}.

Lemma removed_row_count {A} (key : A -> Id) (pair : A -> bool) (l : list A) (m : A) :
  NoDup (map key l) -> In m l -> pair m = true ->
  length (filter pair (filter (fun x => negb (key x =? key m)) l)) + 1
  = length (filter pair l).
Proof.
  induction l as [|x r IH]; [intros _ []|].
  intros Hnd Hin Hpair. cbn [map] in Hnd. inversion Hnd as [|? ? Hnot Hr]; subst.
  destruct Hin as [->|Hin].
  - cbn [filter]. rewrite String.eqb_refl, Hpair. cbn [negb length].
    rewrite (filter_all (fun x => negb (key x =? key m)) r); [lia|].
    apply not_true_is_false. intro Hex. apply existsb_exists in Hex.
    destruct Hex as (y & Hy & Hk). rewrite negb_involutive in Hk.
    apply String.eqb_eq in Hk. apply Hnot. rewrite <- Hk. apply in_map, Hy.
  - cbn [filter].
    destruct (key x =? key m) eqn:E.
    + apply String.eqb_eq in E. exfalso. apply Hnot. rewrite E.
      apply in_map, Hin.
    + cbn [negb filter]. destruct (pair x); cbn [length];
        rewrite <- (IH Hr Hin Hpair); lia.
Qed.

(** X23.  [removeMember] deletes the membership row and leaves the tasks
    alone: a task of the project that was assigned to the removed member
    stays assigned to that user, who (not being the owner and having had
    this one membership) no longer sees the project, so the assignee of the
    task is no longer owner or member of its project. *)
Theorem removeMember_keeps_assignments (u pid : Id) (m : ProjectMember.t) (db : Db) :
  owns_project db u pid = true ->
  NoDup (map ProjectMember.id (projectMembers db)) ->
  In m (projectMembers db) ->
  ProjectMember.projectId m = pid ->
  membership_count db pid (ProjectMember.userId m) = 1 ->
  owns_project db (ProjectMember.userId m) pid = false ->
  let db' := snd (removeMember u pid (ProjectMember.id m) db) in
  tasks db' = tasks db
  /\ sees_project db' (ProjectMember.userId m) pid = false
  /\ (forall t, In t (tasks db') -> Task.projectId t = pid ->
        Task.assigneeId t = Some (ProjectMember.userId m) ->
        assignee_in_project db' t = false).
Proof.
  intros Hown Hnd Hin Hpid Hone Hnot db'. subst db'.
  rewrite removeMember_run by exact Hown.
  assert (Hhas : has_member_id db (ProjectMember.id m) = true).
  { unfold has_member_id. apply existsb_exists. exists m.
    split; [exact Hin|apply String.eqb_refl]. }
  rewrite Hhas. cbn [snd].
  assert (Hsees :
    sees_project
      (set_projectMembers db
         (filter (fun x => negb (ProjectMember.id x =? ProjectMember.id m))
                 (projectMembers db)))
      (ProjectMember.userId m) pid = false).
  { unfold sees_project. cbn [projects set_projectMembers].
    unfold owns_project in Hnot.
    apply not_true_is_false. intro Hex. apply existsb_exists in Hex.
    destruct Hex as (p & Hp & Hv). apply andb_prop in Hv. destruct Hv as [Hid Hv].
    unfold visible in Hv. apply orb_prop in Hv. destruct Hv as [Hv|Hv].
    - assert (Hc : existsb (fun p => (Project.id p =? pid)
                                     && is_owner (ProjectMember.userId m) p)
                           (projects db) = true).
      { apply existsb_exists. exists p. rewrite Hid, Hv. auto. }
      congruence.
    - unfold is_member in Hv. cbn [projectMembers set_projectMembers] in Hv.
      apply String.eqb_eq in Hid. rewrite Hid in Hv.
      pose proof (@removed_row_count _ ProjectMember.id
                    (fun x => (ProjectMember.projectId x =? pid)
                              && (ProjectMember.userId x =? ProjectMember.userId m))
                    (projectMembers db) m Hnd Hin) as Hcount.
      cbn beta in Hcount. rewrite Hpid, !String.eqb_refl in Hcount.
      specialize (Hcount eq_refl).
      unfold membership_count in Hone. rewrite Hone in Hcount.
      apply existsb_exists in Hv. destruct Hv as (x & Hx & Hm).
      assert (Hx' : In x (filter
                            (fun x => (ProjectMember.projectId x =? pid)
                                      && (ProjectMember.userId x
                                          =? ProjectMember.userId m))
                            (filter (fun x => negb (ProjectMember.id x
                                                    =? ProjectMember.id m))
                                    (projectMembers db)))).
      { apply filter_In. split; assumption. }
      destruct (filter _ (filter _ (projectMembers db))); [exact Hx'|].
      cbn [length] in Hcount. lia. }
  split; [reflexivity|]. split; [exact Hsees|].
  intros t _ Ht Ha. unfold assignee_in_project. rewrite Ha, Ht. exact Hsees.
Qed.

End Facts.

Section OnSample.

#[local] Existing Instance Sample.locale.

Lemma removeMember_keeps_assignments_witness :
  assignee_in_project Sample.db Sample.t_palette = true
  /\ In Sample.t_palette
        (tasks (snd (removeMember Sample.olivia Sample.redesign Sample.link_marco
                       Sample.db)))
  /\ assignee_in_project
       (snd (removeMember Sample.olivia Sample.redesign Sample.link_marco
               Sample.db))
       Sample.t_palette = false.
Proof.
  split; [reflexivity|].
  pose proof (@removeMember_keeps_assignments _ Sample.olivia Sample.redesign
                Sample.m_marco Sample.db) as H.
  cbv zeta in H. destruct H as (Htasks & _ & Hbroken).
  - reflexivity.
  - simpl. repeat constructor; simpl; intuition discriminate.
  - left. reflexivity.
  - reflexivity.
  - reflexivity.
  - reflexivity.
  - split.
    + change (ProjectMember.id Sample.m_marco) with Sample.link_marco in Htasks.
      rewrite Htasks. right. left. reflexivity.
    + apply Hbroken; [|reflexivity|reflexivity].
      rewrite Htasks. right. left. reflexivity.
Defined.

End OnSample.

Section Facts.

Context {L : Locale}.

(* ================================================================== *)
(** * The route guards of the frontend *)
(* ================================================================== *)


End Facts.

Section OnSample.

#[local] Existing Instance Sample.locale.


Lemma updateUser_writes_own_profile_only_witness :
  let db' :=
    snd (updateUser (fun _ => true) Sample.marco
           {| uub_firstName := JString "Marc"; uub_lastName := JUndefined;
              uub_avatar := JNull |} Sample.db) in
  In (Sample.user Sample.olivia "Olivia" true) (users db')
  /\ In (Sample.user Sample.olivia "Olivia" true) (users Sample.db)
  /\ map User.firstName (users db') = ["Olivia"; "Marc"; "Xenia"; "Dana"].
Proof.
  intro db'.
  pose proof (updateUser_writes_own_profile_only (fun _ => true) Sample.marco
                {| uub_firstName := JString "Marc"; uub_lastName := JUndefined;
                   uub_avatar := JNull |} Sample.db) as H.
  cbv zeta in H. destruct H as (_ & Hothers & _).
  assert (Hin : In (Sample.user Sample.olivia "Olivia" true) (users db'))
    by (left; reflexivity).
  split; [exact Hin|]. split; [|reflexivity].
  apply Hothers; [exact Hin|discriminate].
Defined.

End OnSample.

